(** * Quarterly VAT settlement core of gestion-alquiler-api-node

    A shallow embedding of the date utilities ([utils/dates]), the income and
    expense schemas ([dependencies/mongodb-client/schemas]), the income and
    expense services and the dashboard service, followed by the properties
    the specification states about them.

    Conventions.  A JavaScript [Number] that the code only ever uses as an
    integer (an epoch instant, a year, a quarter, a day count) is a [Z]; a
    [Number] that comes from a request or is stored in a document (amounts,
    percentages, stored timestamps) is an IEEE-754 binary64 [float], which is
    what the runtime computes with.  [undefined]/[null] is [None]. *)

From Stdlib Require Import ZArith Lia List String Bool Floats Uint63 QArith.
From Stdlib Require Import DecimalString.
Import ListNotations.

Local Open Scope Z_scope.

(* ------------------------------------------------------------------ *)
(** * JavaScript numbers *)

Definition Number : Set := float.

Module Num.

Definition NaN : Number := PrimFloat.nan.

(** An integer-valued Number.  Exact for |z| < 2^53. *)
Definition ofZ (z : Z) : Number :=
  if z <? 0 then PrimFloat.opp (PrimFloat.of_uint63 (Uint63.of_Z (- z)))
  else PrimFloat.of_uint63 (Uint63.of_Z z).

(** [ToIntegerOrInfinity] followed by [TimeClip]'s finiteness test, as
    [new Date(x)] applies it: truncation toward zero, [None] for NaN and
    the infinities. *)
Definition toInteger (x : Number) : option Z :=
  match Prim2SF x with
  | S754_zero _ => Some 0
  | S754_finite s m e =>
      let v := if 0 <=? e then Zpos m * 2 ^ e else Zpos m / 2 ^ (- e) in
      Some (if s then - v else v)
  | S754_infinity _ => None
  | S754_nan => None
  end.

(** [ToBoolean] on a Number: 0, -0 and NaN are falsy. *)
Definition truthy (x : Number) : bool :=
  negb (PrimFloat.eqb x 0%float || PrimFloat.is_nan x).

(** [$gte] / [$lte] of a query and [<=] of the language. *)
Definition leb (x y : Number) : bool := PrimFloat.leb x y.

End Num.


(* ------------------------------------------------------------------ *)
(** * Calendar arithmetic

    The day and month arithmetic of ECMAScript's [Date] (section "Time
    Values and Time Range"), on which moment builds its UTC dates. *)

Module Calendar.

Definition msPerDay : Z := 86400000.
Definition msPerMinute : Z := 60000.

Definition DayFromYear (y : Z) : Z :=
  365 * (y - 1970) + (y - 1969) / 4 - (y - 1901) / 100 + (y - 1601) / 400.

Definition InLeapYear (y : Z) : bool :=
  (y mod 4 =? 0) && (negb (y mod 100 =? 0) || (y mod 400 =? 0)).

(** Day within the year on which month [m] (0-11) starts. *)
Definition monthStart (leap : bool) (m : Z) : Z :=
  let l := if leap then 1 else 0 in
  match m with
  | 0 => 0 | 1 => 31 | 2 => 59 + l | 3 => 90 + l | 4 => 120 + l
  | 5 => 151 + l | 6 => 181 + l | 7 => 212 + l | 8 => 243 + l
  | 9 => 273 + l | 10 => 304 + l | _ => 334 + l
  end.

Definition daysInMonth (leap : bool) (m : Z) : Z :=
  match m with
  | 1 => if leap then 29 else 28
  | 3 | 5 | 8 | 10 => 30
  | _ => 31
  end.

(** [MakeDay(year, month, date)]: the month may overflow into the
    neighbouring years. *)
Definition MakeDay (y m d : Z) : Z :=
  let ym := y + m / 12 in
  let mn := m mod 12 in
  DayFromYear ym + monthStart (InLeapYear ym) mn + d - 1.

(** [Date.UTC(y, m, d)]. *)
Definition dateUTC (y m d : Z) : Z := MakeDay y m d * msPerDay.

(** Civil date of a day number: (year, month 0-11, day of month). *)
Definition civilFromDay (day : Z) : Z * Z * Z :=
  let z := day + 719468 in
  let era := z / 146097 in
  let doe := z - era * 146097 in
  let yoe := (doe - doe / 1460 + doe / 36524 - doe / 146096) / 365 in
  let doy := doe - (365 * yoe + yoe / 4 - yoe / 100) in
  let mp := (5 * doy + 2) / 153 in
  let d := doy - (153 * mp + 2) / 5 + 1 in
  let m := if mp <? 10 then mp + 2 else mp - 10 in
  let y := yoe + era * 400 + (if m <=? 1 then 1 else 0) in
  (y, m, d).

Definition Day (t : Z) : Z := t / msPerDay.
Definition TimeWithinDay (t : Z) : Z := t mod msPerDay.

Definition YearFromTime (t : Z) : Z := fst (fst (civilFromDay (Day t))).
Definition MonthFromTime (t : Z) : Z := snd (fst (civilFromDay (Day t))).
Definition DateFromTime (t : Z) : Z := snd (civilFromDay (Day t)).

(** 0 = Sunday. *)
Definition WeekDay (t : Z) : Z := (Day t + 4) mod 7.

End Calendar.

Import Calendar.

(* ------------------------------------------------------------------ *)
(** * moment and moment-timezone

    A moment is an epoch instant in milliseconds, or the invalid moment.
    Local-time operations go through the time zone of the host process:
    neither [calculateDaysDifference] nor the services pass a zone, and the
    application never sets a default one. *)

Module Moment.

(** A time zone: the offset east of UTC, in minutes, in force at an
    instant ([utcOffset()]), and the instant at which a local wall-clock
    reading occurs ([new Date(y, m, d)]). *)
Record Zone : Type := {
  utcOffset : Z -> Z;
  fromLocal : Z -> Z
}.

Definition fixedZone (minutes : Z) : Zone :=
  {| utcOffset := fun _ => minutes;
     fromLocal := fun w => w - minutes * msPerMinute |}.

Definition UTC : Zone := fixedZone 0.

(** 00:00 UTC of the last Sunday of month [m] of year [y]. *)
Definition lastSunday (y m : Z) : Z :=
  let last := dateUTC y (m + 1) 1 - msPerDay in
  last - WeekDay last * msPerDay.

(** Europe/Madrid under the European rule in force since 1996: summer
    time from 01:00 UTC on the last Sunday of March to 01:00 UTC on the
    last Sunday of October. *)
Definition madridOffset (t : Z) : Z :=
  let y := YearFromTime t in
  if (lastSunday y 2 + 3600000 <=? t) && (t <? lastSunday y 9 + 3600000)
  then 120 else 60.

Definition EuropeMadrid : Zone :=
  {| utcOffset := madridOffset;
     fromLocal := fun w =>
       let t := w - 60 * msPerMinute in
       if madridOffset t =? 60 then t else w - 120 * msPerMinute |}.

(** [None] is moment's "Invalid date". *)
Definition Moment : Set := option Z.

Definition maxTime : Z := 8640000000000000.

(** What can be handed to [moment(...)]. *)
Inductive MomentInput : Set :=
| ofNumber (x : Number)
| ofMoment (m : Moment).

(** [moment(x)]: [new Date(x)] for a Number, a clone for a moment. *)
Definition moment (i : MomentInput) : Moment :=
  match i with
  | ofNumber x =>
      match Num.toInteger x with
      | Some t => if Z.abs t <=? maxTime then Some t else None
      | None => None
      end
  | ofMoment m => m
  end.

Section Local.
Variable z : Zone.

(** The wall-clock reading of an instant. *)
Definition wall (t : Z) : Z := t + utcOffset z t * msPerMinute.

(** [.startOf('day')] *)
Definition startOfDay (m : Moment) : Moment :=
  option_map (fun t => fromLocal z (Day (wall t) * msPerDay)) m.

(** [.endOf('day')] *)
Definition endOfDay (m : Moment) : Moment :=
  option_map (fun t => fromLocal z ((Day (wall t) + 1) * msPerDay) - 1) m.

(** [a.diff(b, 'days')]: the wall-clock difference, truncated toward
    zero; [None] is NaN. *)
Definition diffDays (a b : Moment) : option Z :=
  match a, b with
  | Some ta, Some tb =>
      let zoneDelta := (utcOffset z tb - utcOffset z ta) * msPerMinute in
      Some (Z.quot (ta - tb - zoneDelta) msPerDay)
  | _, _ => None
  end.

(** [.year()] and [.month()] *)
Definition year (m : Moment) : option Z :=
  option_map (fun t => YearFromTime (wall t)) m.
Definition month (m : Moment) : option Z :=
  option_map (fun t => MonthFromTime (wall t)) m.
End Local.

(** [a.isAfter(b)] *)
Definition isAfter (a b : Moment) : bool :=
  match a, b with
  | Some ta, Some tb => tb <? ta
  | _, _ => false
  end.

(** [moment.tz([y, m, d], "UTC")]: invalid when a field overflows. *)
Definition tzUTC (y m d : Z) : Moment :=
  if (0 <=? m) && (m <=? 11) && (1 <=? d) && (d <=? daysInMonth (InLeapYear y) m)
     && (Z.abs (dateUTC y m d) <=? maxTime)
  then Some (dateUTC y m d) else None.

(** [.startOf('month')] and [.endOf('month')] of a moment in UTC mode. *)
Definition startOfMonthUTC (m : Moment) : Moment :=
  option_map (fun t => dateUTC (YearFromTime t) (MonthFromTime t) 1) m.
Definition endOfMonthUTC (m : Moment) : Moment :=
  option_map (fun t => dateUTC (YearFromTime t) (MonthFromTime t + 1) 1 - 1) m.

(** [.unix()]: [Math.floor(valueOf() / 1000)] *)
Definition unix (m : Moment) : option Z := option_map (fun t => t / 1000) m.

End Moment.

Import Moment.

(** The host: its time zone, its clock, and the id the database driver
    gives the next created document. *)
Record Env : Type := {
  zone : Zone;
  now : Z;
  newId : string
}.

(** An integer-valued Number or NaN, as a stored or compared Number. *)
Definition toNumber (o : option Z) : Number :=
  match o with
  | Some v => Num.ofZ v
  | None => Num.NaN
  end.

(* ------------------------------------------------------------------ *)
(** * utils/dates *)

Module Dates.

(** The zone the module declares; [checkDateRange] and [isValidDate] pass
    it to [moment.tz], the functions below do not. *)
Definition TZ : string := "Europe/Madrid".

(** [calculateDaysDifference(checkIn, checkOut)] *)
Definition calculateDaysDifference (env : Env) (checkIn checkOut : MomentInput)
  : option Z :=
  let startDate := startOfDay (zone env) (moment checkIn) in
  let endDate := endOfDay (zone env) (moment checkOut) in
  diffDays (zone env) endDate startDate.

(** [getCurrentQuarter(date)] *)
Definition getCurrentQuarter (env : Env) (date : option Number) : option Z :=
  let now_ :=
    match date with
    | Some d => if Num.truthy d then moment (ofNumber d) else Some (now env)
    | None => Some (now env)
    end in
  let currentMonth := month (zone env) now_ in
  option_map (fun cm => cm / 3 + 1) currentMonth.

(** [getCurrentYear()] *)
Definition getCurrentYear (env : Env) : Z :=
  YearFromTime (wall (zone env) (now env)).

Record QuarterDates : Set := {
  startOfQuarter : option Z;
  endOfQuarter : option Z
}.

(** [getQuarterDates(year, quarter)]; a falsy year is the current one. *)
Definition getQuarterDates (env : Env) (year : option Z) (quarter : Z)
  : QuarterDates :=
  let year :=
    match year with
    | Some y => if y =? 0 then getCurrentYear env else y
    | None => getCurrentYear env
    end in
  let startMonth := (quarter - 1) * 3 in
  let startOfQuarter :=
    option_map (fun s => s * 1000)
               (unix (startOfMonthUTC (tzUTC year startMonth 1))) in
  let endOfQuarter :=
    option_map (fun s => s * 1000)
               (unix (endOfMonthUTC (tzUTC year (startMonth + 2) 1))) in
  {| startOfQuarter := startOfQuarter; endOfQuarter := endOfQuarter |}.

End Dates.

Import Dates.

(* ------------------------------------------------------------------ *)
(** * Results and errors

    neverthrow's [ok]/[err] and the entries of [fixtures/httpCodes] the
    services use. *)

Inductive HttpError : Set :=
| BAD_REQUEST
| NOT_FOUND
| INTERNAL_SERVER_ERROR.

Record ApiError : Set := {
  code : HttpError;
  message : string
}.

Inductive Result (A : Type) : Type :=
| ok (value : A)
| err (error : ApiError).

Arguments ok {A} value.
Arguments err {A} error.

Definition isOk {A : Type} (r : Result A) : bool :=
  match r with
  | ok _ => true
  | err _ => false
  end.

(** A computation that may throw: [inl] carries [e.message]. *)
Definition Exc (A : Type) : Type := (string + A)%type.

Definition throw {A : Type} (msg : string) : Exc A := inl msg.
Definition ret {A : Type} (a : A) : Exc A := inr a.

Definition bindExc {A B : Type} (c : Exc A) (k : A -> Exc B) : Exc B :=
  match c with
  | inl msg => inl msg
  | inr a => k a
  end.

Notation "'await' x <- c ;; k" := (bindExc c (fun x => k))
  (at level 61, x name, c at next level, right associativity).

(** Early return from a service: an [err] is returned at once. *)
Definition bindRes {A B : Type} (c : Result A) (k : A -> Result B) : Result B :=
  match c with
  | ok a => k a
  | err e => err e
  end.

Notation "'check' x <- c ;; k" := (bindRes c (fun x => k))
  (at level 61, x name, c at next level, right associativity).

(* ------------------------------------------------------------------ *)
(** * Truthiness of request fields *)

Definition truthyS (o : option string) : bool :=
  match o with
  | Some s => negb (String.eqb s EmptyString)
  | None => false
  end.

Definition truthyN (o : option Number) : bool :=
  match o with
  | Some x => Num.truthy x
  | None => false
  end.

Definition truthyB (o : option bool) : bool :=
  match o with
  | Some b => b
  | None => false
  end.

(** A Number field read from an object that may lack it: [undefined]
    becomes NaN under arithmetic. *)
Definition numOr (o : option Number) : Number :=
  match o with
  | Some x => x
  | None => Num.NaN
  end.

(* ------------------------------------------------------------------ *)
(** * Invoice totals

    The two computations of the schemas, over an arbitrary arithmetic so
    that they can be read both in the runtime's binary64 and in exact
    rational arithmetic. *)

Record Arith (N : Type) : Type := {
  add : N -> N -> N;
  sub : N -> N -> N;
  mul : N -> N -> N;
  div : N -> N -> N;
  lit : Z -> N
}.

Arguments add {N} _ _ _.
Arguments sub {N} _ _ _.
Arguments mul {N} _ _ _.
Arguments div {N} _ _ _.
Arguments lit {N} _ _.

(** The runtime's arithmetic. *)
Definition Binary64 : Arith Number := {|
  add := PrimFloat.add;
  sub := PrimFloat.sub;
  mul := PrimFloat.mul;
  div := PrimFloat.div;
  lit := Num.ofZ
|}.

(** Exact arithmetic. *)
Definition Exact : Arith Q := {|
  add := Qplus;
  sub := Qminus;
  mul := Qmult;
  div := Qdiv;
  lit := inject_Z
|}.

Section Totals.
Context {N : Type} (A : Arith N).

Local Notation "x + y" := (add A x y).
Local Notation "x - y" := (sub A x y).
Local Notation "x * y" := (mul A x y).
Local Notation "x / y" := (div A x y).

(** Expense schema, [createNewExpense] and [update]:
    [totalIva = expense * iva / 100], [totalInvoice = expense + totalIva]. *)
Definition expenseTotals (expense iva : N) : N * N :=
  let totalIva := expense * iva / lit A 100 in
  let totalInvoice := expense + totalIva in
  (totalIva, totalInvoice).

(** Income schema, [createNewIncome] and [update]. *)
Definition incomeTotals (pricePerNight numberOfPeople nights discount iva : N)
  : N * N :=
  let baseAmount := pricePerNight * numberOfPeople * nights in
  let discountAmount := baseAmount * (discount / lit A 100) in
  let totalAfterDiscount := baseAmount - discountAmount in
  let totalIva := totalAfterDiscount * (iva / lit A 100) in
  let totalInvoice := totalAfterDiscount + totalIva in
  (totalIva, totalInvoice).

(** The income computation in the words of the specification:
    [base = p * n * k], [discounted = base * (1 - d/100)],
    [totalIva = discounted * v/100], [totalInvoice = discounted + totalIva]. *)
Definition spec_incomeTotals (p n k d v : N) : N * N :=
  let base := p * n * k in
  let discounted := base * (lit A 1 - d / lit A 100) in
  let totalIva := discounted * v / lit A 100 in
  let totalInvoice := discounted + totalIva in
  (totalIva, totalInvoice).

End Totals.

(* ------------------------------------------------------------------ *)
(** * Documents *)

Definition ObjectId : Set := string.

Module Rate.
Record t : Set := {
  _id : ObjectId;
  apartmentId : ObjectId;
  name : string;
  pricePerNight : Number;
  iva : Number
}.
End Rate.

Module Expense.
Record t : Set := {
  _id : ObjectId;
  apartmentId : ObjectId;
  concept : string;
  date : Number;
  providerNif : option string;
  expense : Number;
  iva : Number;
  totalIva : Number;
  totalInvoice : Number;
  paid : bool
}.
End Expense.

Module Income.
Record t : Set := {
  _id : ObjectId;
  apartmentId : ObjectId;
  intermediaryId : ObjectId;
  rateId : ObjectId;
  checkIn : Number;
  checkOut : Number;
  nights : Number;
  clientName : string;
  clientNif : string;
  clientPhone : string;
  numberOfPeople : Number;
  discount : Number;
  totalIva : Number;
  totalInvoice : Number;
  observations : option string
}.
End Income.

(** The collections behind the fastify instance ([mongo_apartment],
    [mongo_intermediary], [mongo_rate], [mongo_income], [mongo_expense]).
    Apartments and intermediaries are only ever looked up by id. *)
Record Store : Set := {
  apartments : list ObjectId;
  intermediaries : list ObjectId;
  rates : list Rate.t;
  incomes : list Income.t;
  expenses : list Expense.t
}.

Definition hasId (ids : list ObjectId) (id : ObjectId) : bool :=
  existsb (String.eqb id) ids.

(** [Model.findById(id)] / [Model.findOne({_id: id})] *)
Definition findById {D : Type} (idOf : D -> ObjectId) (docs : list D)
  (id : ObjectId) : option D :=
  find (fun d => String.eqb (idOf d) id) docs.

(** [doc.save()] of a document that is already in the collection. *)
Definition save {D : Type} (idOf : D -> ObjectId) (doc : D) (docs : list D)
  : list D :=
  map (fun d => if String.eqb (idOf d) (idOf doc) then doc else d) docs.

(** [if (data.hasOwnProperty(key)) this[key] = data[key]]: the value the
    field holds afterwards. *)
Definition own {A : Type} (o : option A) (old : A) : A :=
  match o with
  | Some v => v
  | None => old
  end.

(* ------------------------------------------------------------------ *)
(** * Expense schema

    mongoose's own validation and casting are outside the model: [create]
    and [save] store the document they are given. *)

Module ExpenseSchema.

(** The object handed to [createNewExpense]. *)
Record New : Set := {
  apartmentId : ObjectId;
  concept : string;
  date : Number;
  providerNif : option string;
  expense : Number;
  iva : Number;
  paid : option bool
}.

(** A request body or an [updateData] object: [Some v] is a property that
    holds [v], [None] a property that is [undefined] or missing. *)
Record Data : Set := {
  d_apartmentId : option ObjectId;
  d_concept : option string;
  d_date : option Number;
  d_providerNif : option string;
  d_expense : option Number;
  d_iva : option Number;
  d_paid : option bool
}.

(** [schema.statics.createNewExpense] *)
Definition createNewExpense (env : Env) (store : Store) (expense : New)
  : Expense.t * Store :=
  let '(totalIva, totalInvoice) :=
    expenseTotals Binary64 (ExpenseSchema.expense expense) (iva expense) in
  let doc := {|
    Expense._id := newId env;
    Expense.apartmentId := apartmentId expense;
    Expense.concept := concept expense;
    Expense.date := date expense;
    Expense.providerNif := providerNif expense;
    Expense.expense := ExpenseSchema.expense expense;
    Expense.iva := iva expense;
    Expense.totalIva := totalIva;
    Expense.totalInvoice := totalInvoice;
    Expense.paid := match paid expense with Some b => b | None => false end
  |} in
  (doc, {| apartments := apartments store;
           intermediaries := intermediaries store;
           rates := rates store;
           incomes := incomes store;
           expenses := expenses store ++ [doc] |}).

(** [schema.methods.update]: the assignments guarded by [hasOwnProperty],
    then the recomputation of the totals, then [save]. *)
Definition update (store : Store) (this : Expense.t) (data : Data)
  : Expense.t * Store :=
  let apartmentId := own (d_apartmentId data) (Expense.apartmentId this) in
  let concept := own (d_concept data) (Expense.concept this) in
  let date := own (d_date data) (Expense.date this) in
  let providerNif :=
    match d_providerNif data with
    | Some v => Some v
    | None => Expense.providerNif this
    end in
  let expense := own (d_expense data) (Expense.expense this) in
  let iva := own (d_iva data) (Expense.iva this) in
  let paid := own (d_paid data) (Expense.paid this) in
  let '(totalIva, totalInvoice) := expenseTotals Binary64 expense iva in
  let doc := {|
    Expense._id := Expense._id this;
    Expense.apartmentId := apartmentId;
    Expense.concept := concept;
    Expense.date := date;
    Expense.providerNif := providerNif;
    Expense.expense := expense;
    Expense.iva := iva;
    Expense.totalIva := totalIva;
    Expense.totalInvoice := totalInvoice;
    Expense.paid := paid
  |} in
  (doc, {| apartments := apartments store;
           intermediaries := intermediaries store;
           rates := rates store;
           incomes := incomes store;
           expenses := save Expense._id doc (expenses store) |}).

End ExpenseSchema.

(* ------------------------------------------------------------------ *)
(** * Income schema *)

Module IncomeSchema.

(** The object handed to [createNewIncome]; the service has checked every
    field but [discount] and [observations]. *)
Record New : Set := {
  apartmentId : ObjectId;
  intermediaryId : ObjectId;
  rateId : ObjectId;
  checkIn : Number;
  checkOut : Number;
  clientName : string;
  clientNif : string;
  clientPhone : string;
  numberOfPeople : Number;
  discount : option Number;
  observations : option string
}.

Record Data : Set := {
  d_apartmentId : option ObjectId;
  d_intermediaryId : option ObjectId;
  d_rateId : option ObjectId;
  d_checkIn : option Number;
  d_checkOut : option Number;
  d_clientName : option string;
  d_clientNif : option string;
  d_clientPhone : option string;
  d_numberOfPeople : option Number;
  d_discount : option Number;
  d_observations : option string
}.

Definition nullRate : string :=
  "Cannot read properties of null (reading 'pricePerNight')".

(** The nights of a stay whose check-in and check-out are stored in
    seconds, as both [createNewIncome] and [update] compute them. *)
Definition nightsOf (env : Env) (checkIn checkOut : Number) : option Z :=
  let startDate :=
    startOfDay (zone env)
      (moment (ofNumber (PrimFloat.mul checkIn 1000%float))) in
  let endDate :=
    endOfDay (zone env)
      (moment (ofNumber (PrimFloat.mul checkOut 1000%float))) in
  calculateDaysDifference env (ofMoment startDate) (ofMoment endDate).

(** [schema.statics.createNewIncome] *)
Definition createNewIncome (env : Env) (store : Store) (income : New)
  : Exc (Income.t * Store) :=
  let nights := toNumber (nightsOf env (checkIn income) (checkOut income)) in
  match findById Rate._id (rates store) (rateId income) with
  | None => throw nullRate
  | Some rate =>
      let '(totalIva, totalInvoice) :=
        incomeTotals Binary64 (Rate.pricePerNight rate) (numberOfPeople income)
                     nights (numOr (discount income)) (Rate.iva rate) in
      let doc := {|
        Income._id := newId env;
        Income.apartmentId := apartmentId income;
        Income.intermediaryId := intermediaryId income;
        Income.rateId := rateId income;
        Income.checkIn := checkIn income;
        Income.checkOut := checkOut income;
        Income.nights := nights;
        Income.clientName := clientName income;
        Income.clientNif := clientNif income;
        Income.clientPhone := clientPhone income;
        Income.numberOfPeople := numberOfPeople income;
        Income.discount :=
          match discount income with Some x => x | None => 0%float end;
        Income.totalIva := totalIva;
        Income.totalInvoice := totalInvoice;
        Income.observations := observations income
      |} in
      ret (doc, {| apartments := apartments store;
                   intermediaries := intermediaries store;
                   rates := rates store;
                   incomes := incomes store ++ [doc];
                   expenses := expenses store |})
  end.

(** [schema.methods.update] *)
Definition update (env : Env) (store : Store) (this : Income.t) (data : Data)
  : Exc (Income.t * Store) :=
  let apartmentId := own (d_apartmentId data) (Income.apartmentId this) in
  let intermediaryId := own (d_intermediaryId data) (Income.intermediaryId this) in
  let rateId := own (d_rateId data) (Income.rateId this) in
  let checkIn := own (d_checkIn data) (Income.checkIn this) in
  let checkOut := own (d_checkOut data) (Income.checkOut this) in
  let clientName := own (d_clientName data) (Income.clientName this) in
  let clientNif := own (d_clientNif data) (Income.clientNif this) in
  let clientPhone := own (d_clientPhone data) (Income.clientPhone this) in
  let numberOfPeople := own (d_numberOfPeople data) (Income.numberOfPeople this) in
  let discount := own (d_discount data) (Income.discount this) in
  let observations :=
    match d_observations data with
    | Some v => Some v
    | None => Income.observations this
    end in
  let nights := toNumber (nightsOf env checkIn checkOut) in
  match findById Rate._id (rates store) rateId with
  | None => throw nullRate
  | Some rate =>
      let '(totalIva, totalInvoice) :=
        incomeTotals Binary64 (Rate.pricePerNight rate) numberOfPeople
                     nights discount (Rate.iva rate) in
      let doc := {|
        Income._id := Income._id this;
        Income.apartmentId := apartmentId;
        Income.intermediaryId := intermediaryId;
        Income.rateId := rateId;
        Income.checkIn := checkIn;
        Income.checkOut := checkOut;
        Income.nights := nights;
        Income.clientName := clientName;
        Income.clientNif := clientNif;
        Income.clientPhone := clientPhone;
        Income.numberOfPeople := numberOfPeople;
        Income.discount := discount;
        Income.totalIva := totalIva;
        Income.totalInvoice := totalInvoice;
        Income.observations := observations
      |} in
      ret (doc, {| apartments := apartments store;
                   intermediaries := intermediaries store;
                   rates := rates store;
                   incomes := save Income._id doc (incomes store);
                   expenses := expenses store |})
  end.

End IncomeSchema.

(* ------------------------------------------------------------------ *)
(** * Idioms shared by the services *)

(** A property is copied into [updateData] only when its value is truthy. *)
Definition keepS (o : option string) : option string :=
  if truthyS o then o else None.
Definition keepN (o : option Number) : option Number :=
  if truthyN o then o else None.
Definition keepB (o : option bool) : option bool :=
  if truthyB o then o else None.

Definition bad {A : Type} (c : HttpError) (msg : string) : Result A :=
  err {| code := c; message := msg |}.

(** [if (!x) return err(...)] on a text and on a numeric field. *)
Definition requireS (o : option string) (msg : string) : Result string :=
  match o with
  | Some s => if truthyS o then ok s else bad BAD_REQUEST msg
  | None => bad BAD_REQUEST msg
  end.
Definition requireN (o : option Number) (msg : string) : Result Number :=
  match o with
  | Some x => if truthyN o then ok x else bad BAD_REQUEST msg
  | None => bad BAD_REQUEST msg
  end.

(** [if (x) { if (!(await model.findById(x))) return err(...) }] *)
Definition checkExists (ids : list ObjectId) (o : option ObjectId)
  (c : HttpError) (msg : ObjectId -> string) : Result unit :=
  match o with
  | Some id =>
      if truthyS o && negb (hasId ids id) then bad c (msg id) else ok tt
  | None => ok tt
  end.

(* ------------------------------------------------------------------ *)
(** * Expense service *)

Module ExpenseService.

Import ExpenseSchema.

(** [today = moment().endOf('day')]; is [date] after it? *)
Definition afterToday (env : Env) (date : Number) : bool :=
  let today := endOfDay (zone env) (Some (now env)) in
  isAfter (moment (ofNumber date)) today.

(** [if (date) { if (moment(date).isAfter(today)) return err(...) }] *)
Definition checkDate (env : Env) (o : option Number) : Result unit :=
  match o with
  | Some date =>
      if truthyN o && afterToday env date
      then bad BAD_REQUEST "Expense date must be before or equal than today"
      else ok tt
  | None => ok tt
  end.

(** The validations of [updateExpenseById] in their order, and the
    [updateData] object they build. *)
Definition buildUpdateData (env : Env) (fastify : Store) (expenseData : Data)
  : Result Data :=
  check _ <- checkExists (apartments fastify) (d_apartmentId expenseData)
               NOT_FOUND
               (fun id => "Apartment " ++ id
                          ++ " not found for the expense to update")%string ;;
  check _ <- checkDate env (d_date expenseData) ;;
  ok {| d_apartmentId := keepS (d_apartmentId expenseData);
        d_concept := keepS (d_concept expenseData);
        d_date := keepN (d_date expenseData);
        d_providerNif := keepS (d_providerNif expenseData);
        d_expense := keepN (d_expense expenseData);
        d_iva := keepN (d_iva expenseData);
        d_paid := keepB (d_paid expenseData) |}.

(** [updateExpenseById(fastify, logger, expenseId, expenseData)] *)
Definition updateExpenseById (env : Env) (fastify : Store)
  (expenseId : ObjectId) (expenseData : Data) : Result Expense.t * Store :=
  match findById Expense._id (expenses fastify) expenseId with
  | None =>
      (bad NOT_FOUND ("Expense " ++ expenseId ++ " not found")%string, fastify)
  | Some expense =>
      match buildUpdateData env fastify expenseData with
      | err e => (err e, fastify)
      | ok updateData =>
          let '(updatedExpense, fastify') := update fastify expense updateData in
          (ok updatedExpense, fastify')
      end
  end.

(** The validations of [createNewExpense] in their order. *)
Definition validateNew (env : Env)
  (concept apartmentId : option string) (date : option Number)
  (providerNif : option string) (expense iva : option Number)
  (paid : option bool) : Result New :=
  check concept' <- requireS concept "Missing concept for the expense" ;;
  check apartmentId' <-
    requireS apartmentId "Missing apartment ID for the expense" ;;
  check date' <- requireN date "Missing date per night for the expense" ;;
  check _ <- checkDate env date ;;
  check providerNif' <-
    requireS providerNif "Missing providerNif for the expense" ;;
  check expense' <- requireN expense "Missing expense for the expense" ;;
  check iva' <- requireN iva "Missing VAT (% IVA) for the expense" ;;
  ok {| apartmentId := apartmentId';
        concept := concept';
        date := date';
        providerNif := Some providerNif';
        ExpenseSchema.expense := expense';
        iva := iva';
        paid := paid |}.

(** [createNewExpense(fastify, logger, concept, apartmentId, date,
    providerNif, expense, iva, paid)] *)
Definition createNewExpense (env : Env) (fastify : Store)
  (concept apartmentId : option string) (date : option Number)
  (providerNif : option string) (expense iva : option Number)
  (paid : option bool) : Result Expense.t * Store :=
  match validateNew env concept apartmentId date providerNif expense iva paid with
  | err e => (err e, fastify)
  | ok new =>
      let '(createdExpense, fastify') :=
        ExpenseSchema.createNewExpense env fastify new in
      (ok createdExpense, fastify')
  end.

End ExpenseService.

(* ------------------------------------------------------------------ *)
(** * Income service *)

Module IncomeService.

Import IncomeSchema.

(** [moment(x)] of a property that may be [undefined]: [moment(undefined)]
    is the current instant. *)
Definition momentOrNow (env : Env) (o : option Number) : Moment :=
  match o with
  | Some x => moment (ofNumber x)
  | None => Some (now env)
  end.

(** [moment(checkIn).startOf("d").isAfter(moment(checkOut).endOf("d"))] *)
Definition startsAfterEnd (env : Env) (checkIn checkOut : Moment) : bool :=
  let startDate := startOfDay (zone env) checkIn in
  let endDate := endOfDay (zone env) checkOut in
  isAfter startDate endDate.

(** The validations of [createNewIncome] in their order. *)
Definition validateNew (env : Env) (fastify : Store)
  (apartmentId intermediaryId rateId : option ObjectId)
  (checkIn checkOut : option Number)
  (clientName clientNif clientPhone : option string)
  (numberOfPeople discount : option Number) (observations : option string)
  : Result New :=
  check apartmentId' <-
    requireS apartmentId "Missing apartment ID for the income" ;;
  check _ <- checkExists (apartments fastify) apartmentId BAD_REQUEST
               (fun _ => "Apartment ID not found for the income to create"%string) ;;
  check intermediaryId' <-
    requireS intermediaryId "Missing intermediary ID for the income" ;;
  check _ <- checkExists (intermediaries fastify) intermediaryId BAD_REQUEST
               (fun _ => "Intermediary ID not found for the income to create"%string) ;;
  check rateId' <- requireS rateId "Missing rate ID for the income" ;;
  check rate <-
    match findById Rate._id (rates fastify) rateId' with
    | Some rate => ok rate
    | None => bad BAD_REQUEST "Rate ID not found for the income to create"
    end ;;
  check _ <-
    (if negb (String.eqb (Rate.apartmentId rate) apartmentId')
     then bad BAD_REQUEST
              ("Rate ID <" ++ Rate.apartmentId rate
               ++ "> unauthorized for apartment ID <" ++ apartmentId'
               ++ "> to create income")%string
     else ok tt) ;;
  check checkIn' <- requireN checkIn "Missing check in date for the income" ;;
  check checkOut' <- requireN checkOut "Missing check out date for the income" ;;
  check _ <-
    (if startsAfterEnd env (moment (ofNumber checkIn')) (moment (ofNumber checkOut'))
     then bad BAD_REQUEST
              "Income check in date must be before than check out date"
     else ok tt) ;;
  check clientName' <- requireS clientName "Missing clientName for the income" ;;
  check clientNif' <- requireS clientNif "Missing clientNif for the income" ;;
  check clientPhone' <-
    requireS clientPhone "Missing clientPhone for the income" ;;
  check numberOfPeople' <-
    requireN numberOfPeople "Missing number of people for the income" ;;
  ok {| apartmentId := apartmentId';
        intermediaryId := intermediaryId';
        rateId := rateId';
        checkIn := checkIn';
        checkOut := checkOut';
        clientName := clientName';
        clientNif := clientNif';
        clientPhone := clientPhone';
        numberOfPeople := numberOfPeople';
        discount := discount;
        observations := observations |}.

(** [createNewIncome(fastify, logger, apartmentId, ..., observations)]:
    whatever the schema throws is caught and returned as an internal
    error. *)
Definition createNewIncome (env : Env) (fastify : Store)
  (apartmentId intermediaryId rateId : option ObjectId)
  (checkIn checkOut : option Number)
  (clientName clientNif clientPhone : option string)
  (numberOfPeople discount : option Number) (observations : option string)
  : Result Income.t * Store :=
  match validateNew env fastify apartmentId intermediaryId rateId checkIn
                    checkOut clientName clientNif clientPhone numberOfPeople
                    discount observations with
  | err e => (err e, fastify)
  | ok new =>
      match IncomeSchema.createNewIncome env fastify new with
      | inr (createdIncome, fastify') => (ok createdIncome, fastify')
      | inl msg => (bad INTERNAL_SERVER_ERROR msg, fastify)
      end
  end.

(** The rate check of [updateIncomeById].  Once the rate is found the code
    evaluates [rate.apartmentId != apartmentId]; no [apartmentId] is bound
    in that function, so the comparison throws a ReferenceError, which the
    enclosing [catch] turns into an internal error. *)
Definition checkRate (fastify : Store) (o : option ObjectId) : Result unit :=
  match o with
  | Some id =>
      if truthyS o then
        match findById Rate._id (rates fastify) id with
        | None =>
            bad NOT_FOUND
                ("Rate " ++ id ++ " not found for the income to update")%string
        | Some rate => bad INTERNAL_SERVER_ERROR "apartmentId is not defined"
        end
      else ok tt
  | None => ok tt
  end.

(** The check-out validation of [updateIncomeById]. *)
Definition checkStay (env : Env) (checkIn checkOut : option Number)
  : Result unit :=
  match checkOut with
  | Some out =>
      if truthyN checkOut
         && startsAfterEnd env (momentOrNow env checkIn) (moment (ofNumber out))
      then bad NOT_FOUND "Check in date must be before tha check out date"
      else ok tt
  | None => ok tt
  end.

(** The validations of [updateIncomeById] in their order, and the
    [updateData] object they build. *)
Definition buildUpdateData (env : Env) (fastify : Store) (incomeData : Data)
  : Result Data :=
  check _ <- checkExists (apartments fastify) (d_apartmentId incomeData)
               NOT_FOUND
               (fun id => "Apartment " ++ id
                          ++ " not found for the income to update")%string ;;
  check _ <- checkExists (intermediaries fastify) (d_intermediaryId incomeData)
               NOT_FOUND
               (fun id => "Intermediary " ++ id
                          ++ " not found for the income to update")%string ;;
  check _ <- checkRate fastify (d_rateId incomeData) ;;
  check _ <- checkStay env (d_checkIn incomeData) (d_checkOut incomeData) ;;
  ok {| d_apartmentId := keepS (d_apartmentId incomeData);
        d_intermediaryId := keepS (d_intermediaryId incomeData);
        d_rateId := keepS (d_rateId incomeData);
        d_checkIn := keepN (d_checkIn incomeData);
        d_checkOut := keepN (d_checkOut incomeData);
        d_clientName := keepS (d_clientName incomeData);
        d_clientNif := keepS (d_clientNif incomeData);
        d_clientPhone := keepS (d_clientPhone incomeData);
        d_numberOfPeople := keepN (d_numberOfPeople incomeData);
        d_discount := keepN (d_discount incomeData);
        d_observations := keepS (d_observations incomeData) |}.

(** [updateIncomeById(fastify, logger, incomeId, incomeData)] *)
Definition updateIncomeById (env : Env) (fastify : Store)
  (incomeId : ObjectId) (incomeData : Data) : Result Income.t * Store :=
  match findById Income._id (incomes fastify) incomeId with
  | None =>
      (bad NOT_FOUND ("Income " ++ incomeId ++ " not found")%string, fastify)
  | Some income =>
      match buildUpdateData env fastify incomeData with
      | err e => (err e, fastify)
      | ok updateData =>
          match update env fastify income updateData with
          | inr (updatedIncome, fastify') => (ok updatedIncome, fastify')
          | inl msg => (bad INTERNAL_SERVER_ERROR msg, fastify)
          end
      end
  end.

End IncomeService.

(* ------------------------------------------------------------------ *)
(** * Dashboard service *)

Module Dashboard.

(** A mongoose model as the dashboard sees it: a collection that answers,
    or a connection whose queries reject with a message. *)
Inductive Model (D : Type) : Type :=
| Connected (docs : list D)
| Failing (msg : string).

Arguments Connected {D} docs.
Arguments Failing {D} msg.

(** [{ path: { $gte, $lte } }] *)
Record Query : Set := {
  path : string;
  gte : Number;
  lte : Number
}.

(** The numeric paths of the two document types. *)
Definition incomeNumber (p : string) (d : Income.t) : option Number :=
  if String.eqb p "checkIn" then Some (Income.checkIn d)
  else if String.eqb p "checkOut" then Some (Income.checkOut d)
  else if String.eqb p "nights" then Some (Income.nights d)
  else if String.eqb p "numberOfPeople" then Some (Income.numberOfPeople d)
  else if String.eqb p "discount" then Some (Income.discount d)
  else if String.eqb p "totalIva" then Some (Income.totalIva d)
  else if String.eqb p "totalInvoice" then Some (Income.totalInvoice d)
  else None.

Definition expenseNumber (p : string) (d : Expense.t) : option Number :=
  if String.eqb p "date" then Some (Expense.date d)
  else if String.eqb p "expense" then Some (Expense.expense d)
  else if String.eqb p "iva" then Some (Expense.iva d)
  else if String.eqb p "totalIva" then Some (Expense.totalIva d)
  else if String.eqb p "totalInvoice" then Some (Expense.totalInvoice d)
  else None.

Definition matches {D : Type} (numberAt : string -> D -> option Number)
  (q : Query) (d : D) : bool :=
  match numberAt (path q) d with
  | Some v => Num.leb (gte q) v && Num.leb v (lte q)
  | None => false
  end.

(** [model.find(query)]; [model.find()] when there is no query. *)
Definition find {D : Type} (numberAt : string -> D -> option Number)
  (model : Model D) (query : option Query) : Exc (list D) :=
  match model with
  | Failing msg => throw msg
  | Connected docs =>
      match query with
      | None => ret docs
      | Some q => ret (filter (matches numberAt q) docs)
      end
  end.

(** The values of a dashboard object. *)
Inductive Value : Set :=
| VNumber (x : Number)
| VIncomes (l : list Income.t)
| VExpenses (l : list Expense.t).

(** A JavaScript object literal: its properties in order. *)
Definition Object : Set := list (string * Value).

Definition get (o : Object) (key : string) : option Value :=
  option_map snd (List.find (fun kv => String.eqb (fst kv) key) o).

Definition keys (o : Object) : list string := map fst o.

(** The two [forEach] accumulations, from [(0, 0)]. *)
Definition sumIncomes (incomes : list Income.t) : Number * Number :=
  fold_left
    (fun acc income =>
       (PrimFloat.add (fst acc) (Income.totalInvoice income),
        PrimFloat.add (snd acc) (Income.totalIva income)))
    incomes (0%float, 0%float).

Definition sumExpenses (expenses : list Expense.t) : Number * Number :=
  fold_left
    (fun acc expense =>
       (PrimFloat.add (fst acc) (Expense.totalInvoice expense),
        PrimFloat.add (snd acc) (Expense.totalIva expense)))
    expenses (0%float, 0%float).

(** [try { ... return ok(dashboard) } catch (e) { return err(...) }] *)
Definition caught {A : Type} (body : Exc A) : Result A :=
  match body with
  | inr a => ok a
  | inl msg => err {| code := INTERNAL_SERVER_ERROR; message := msg |}
  end.

(** [getDashboardData(incomeModel, expenseModel, logger)] *)
Definition getDashboardData (env : Env) (incomeModel : Model Income.t)
  (expenseModel : Model Expense.t) : Result Object :=
  caught (
    await incomes <- find incomeNumber incomeModel None ;;
    await expenses <- find expenseNumber expenseModel None ;;
    let '(totalIncomes, totalVATQuarterlyIncomes) := sumIncomes incomes in
    let '(totalExpenses, totalVATQuarterlyExpenses) := sumExpenses expenses in
    let result := PrimFloat.sub totalIncomes totalExpenses in
    let quarterlyVAT :=
      PrimFloat.sub totalVATQuarterlyIncomes totalVATQuarterlyExpenses in
    let dashboard : Object :=
      [ ("incomes", VIncomes incomes);
        ("totalIncomes", VNumber totalIncomes);
        ("expenses", VExpenses expenses);
        ("totalExpenses", VNumber totalExpenses);
        ("result", VNumber result);
        ("currentQuarter", VNumber (toNumber (getCurrentQuarter env None)));
        ("totalVATQuarterlyIncomes", VNumber totalVATQuarterlyIncomes);
        ("totalVATQuarterlyExpenses", VNumber totalVATQuarterlyExpenses);
        ("quarterlyVAT", VNumber quarterlyVAT) ]%string in
    ret dashboard).

(** The two queries of [getDashboardByQuarterData]. *)
Definition incomesQuery (quarterDates : QuarterDates) : Query :=
  {| path := "checkIn";
     gte := PrimFloat.div (toNumber (startOfQuarter quarterDates)) 1000%float;
     lte := PrimFloat.div (toNumber (endOfQuarter quarterDates)) 1000%float |}.

Definition expensesQuery (quarterDates : QuarterDates) : Query :=
  {| path := "date";
     gte := PrimFloat.div (toNumber (startOfQuarter quarterDates)) 1000%float;
     lte := PrimFloat.div (toNumber (endOfQuarter quarterDates)) 1000%float |}.

(** [getDashboardByQuarterData(incomeModel, expenseModel, logger, quarter)] *)
Definition getDashboardByQuarterData (env : Env) (incomeModel : Model Income.t)
  (expenseModel : Model Expense.t) (quarter : Z) : Result Object :=
  caught (
    let quarterDates := getQuarterDates env None quarter in
    await incomes <-
      find incomeNumber incomeModel (Some (incomesQuery quarterDates)) ;;
    await expenses <-
      find expenseNumber expenseModel (Some (expensesQuery quarterDates)) ;;
    let '(totalIncomes, totalVATQuarterlyIncomes) := sumIncomes incomes in
    let '(totalExpenses, totalVATQuarterlyExpenses) := sumExpenses expenses in
    let result := PrimFloat.sub totalIncomes totalExpenses in
    let quarterlyVAT :=
      PrimFloat.sub totalVATQuarterlyIncomes totalVATQuarterlyExpenses in
    let dashboard : Object :=
      [ ("incomes", VIncomes incomes);
        ("totalIncomes", VNumber totalIncomes);
        ("expenses", VExpenses expenses);
        ("totalExpenses", VNumber totalExpenses);
        ("result", VNumber result);
        ("currentQuarter", VNumber (toNumber (getCurrentQuarter env None)));
        ("totalVATQuarterlyIncomes", VNumber totalVATQuarterlyIncomes);
        ("totalVATQuarterlyExpenses", VNumber totalVATQuarterlyExpenses);
        ("quarterlyVAT", VNumber quarterlyVAT) ]%string in
    ret dashboard).

(** The properties the route [POST /dashboard/:quarter] declares for its
    200 response ([quarterlyVATDocumentSchemaProperties]) and those of
    [GET /dashboard] ([indexDashboardDocumentSchemaProperties]). *)
Definition indexDashboardDocumentSchemaProperties : list string :=
  [ "incomes"; "totalIncomes"; "expenses"; "totalExpenses"; "result";
    "currentQuarter"; "totalVATQuarterlyIncomes";
    "totalVATQuarterlyExpenses"; "quarterlyVAT" ]%string.

Definition quarterlyVATDocumentSchemaProperties : list string :=
  [ "incomes"; "totalIncomes"; "expenses"; "totalExpenses"; "result";
    "currentQuarter"; "quarterlyIncomes"; "totalVATQuarterlyIncomes";
    "quarterlyExpenses"; "totalVATQuarterlyExpenses"; "quarterlyVAT";
    "startOfQuarter"; "endOfQuarter" ]%string.

End Dashboard.

Import Dashboard.

(* ------------------------------------------------------------------ *)
(** * Reading and deleting documents *)

Module Lookup.

(** [getExpenseById(expenseModel, logger, expenseId)] and
    [getIncomeById(incomeModel, logger, incomeId)]: the two functions have
    the same body. *)
Definition getById {D : Type} (idOf : D -> ObjectId) (kind : string)
  (model : Model D) (id : ObjectId) : Result D :=
  match model with
  | Failing msg => bad INTERNAL_SERVER_ERROR msg
  | Connected docs =>
      match findById idOf docs id with
      | Some doc => ok doc
      | None => bad NOT_FOUND (kind ++ " " ++ id ++ " not found")%string
      end
  end.

Definition getExpenseById (expenseModel : Model Expense.t)
  (expenseId : ObjectId) : Result Expense.t :=
  getById Expense._id "Expense" expenseModel expenseId.

Definition getIncomeById (incomeModel : Model Income.t)
  (incomeId : ObjectId) : Result Income.t :=
  getById Income._id "Income" incomeModel incomeId.

(** [doc.deleteOne()]: the first document of the collection that has the
    id of [doc] is removed. *)
Fixpoint deleteOne {D : Type} (idOf : D -> ObjectId) (id : ObjectId)
  (docs : list D) : list D :=
  match docs with
  | [] => []
  | d :: rest =>
      if String.eqb (idOf d) id then rest else d :: deleteOne idOf id rest
  end.

(** [deleteExpenseById(fastify, logger, expenseId)] *)
Definition deleteExpenseById (fastify : Store) (expenseId : ObjectId)
  : Result ObjectId * Store :=
  match findById Expense._id (expenses fastify) expenseId with
  | None =>
      (bad NOT_FOUND ("Expense " ++ expenseId ++ " not found")%string, fastify)
  | Some expense =>
      (ok expenseId,
       {| apartments := apartments fastify;
          intermediaries := intermediaries fastify;
          rates := rates fastify;
          incomes := incomes fastify;
          expenses :=
            deleteOne Expense._id (Expense._id expense) (expenses fastify) |})
  end.

(** [deleteIncomeById(fastify, logger, incomeId)] *)
Definition deleteIncomeById (fastify : Store) (incomeId : ObjectId)
  : Result ObjectId * Store :=
  match findById Income._id (incomes fastify) incomeId with
  | None =>
      (bad NOT_FOUND ("Income " ++ incomeId ++ " not found")%string, fastify)
  | Some income =>
      (ok incomeId,
       {| apartments := apartments fastify;
          intermediaries := intermediaries fastify;
          rates := rates fastify;
          incomes :=
            deleteOne Income._id (Income._id income) (incomes fastify);
          expenses := expenses fastify |})
  end.

End Lookup.

(* ------------------------------------------------------------------ *)
(** * utils/endpoints *)

Module Endpoints.

(** The [pagination] object of a request; [page] and [limit] are the
    integers the route schemas admit. *)
Record Pagination : Set := {
  page : option Z;
  limit : option Z;
  sortBy : option string;
  sortOrder : option string
}.

Record Pages : Set := {
  current : Z;
  prev : option Z;
  has_prev : bool;
  next : option Z;
  has_next : bool;
  totalPages : Z
}.

Record Items : Set := {
  itemsLimit : Z;
  begin : Z;
  end_ : Z;
  totalItems : Z
}.

Record Page (D : Type) : Type := {
  results : list D;
  pages : Pages;
  items : Items
}.

Arguments results {D} _.
Arguments pages {D} _.
Arguments items {D} _.

(** [Math.ceil(count / limit)] *)
Definition ceilDiv (count limit : Z) : Z := - ((- count) / limit).

(** Decimal text of an integer, as a template literal prints it. *)
Definition showZ (z : Z) : string :=
  DecimalString.NilZero.string_of_int (Z.to_int z).

Section Paginate.
Context {D F : Type}.

(** [process.env.ENDPOINTS_PAGINATION_LIMIT], or 10. *)
Variable paginationLimit : Z.

(** The collection: the documents a query matches, and the order
    [.sort({ [sortBy]: sortOrder })] puts documents in. *)
Variable matching : F -> list D.
Variable sort : string -> string -> list D -> list D.

(** [paginate(model, logger, query, pagination, endpointTag)] with no
    population. *)
Definition paginate (query : F) (pagination : Pagination) : Result (Page D) :=
  let page :=
    match page pagination with
    | Some p => if p =? 0 then 1 else p
    | None => 1
    end in
  let limit :=
    match limit pagination with
    | Some l => if l =? 0 then paginationLimit else Z.min l paginationLimit
    | None => paginationLimit
    end in
  let sortBy :=
    (if truthyS (sortBy pagination)
    then match sortBy pagination with Some k => k | None => "updatedAt" end
    else "updatedAt")%string in
  let sortOrder :=
    (if truthyS (sortOrder pagination)
    then match sortOrder pagination with Some o => o | None => "asc" end
    else "asc")%string in
  let count := Z.of_nat (List.length (matching query)) in
  if count =? 0 then bad NOT_FOUND "No results found"
  else
    let totalPages := ceilDiv count limit in
    if totalPages <? page
    then bad BAD_REQUEST
             ("Page " ++ showZ page ++ " is greater than total pages "
              ++ showZ totalPages)%string
    else
      let results :=
        firstn (Z.to_nat limit)
               (skipn (Z.to_nat ((page - 1) * limit))
                      (sort sortBy sortOrder (matching query))) in
      match results with
      | [] => bad NOT_FOUND "No results found"
      | _ :: _ =>
          ok {| results := results;
                pages := {| current := page;
                            prev := if 1 <? page then Some (page - 1) else None;
                            has_prev := 1 <? page;
                            next := if page <? totalPages
                                    then Some (page + 1) else None;
                            has_next := page <? totalPages;
                            totalPages := totalPages |};
                items := {| itemsLimit := limit;
                            begin := (page - 1) * limit + 1;
                            end_ := Z.min (page * limit) count;
                            totalItems := count |} |}
      end.

End Paginate.

(** What [reply.status(...).send(...)] sends. *)
Inductive Body (A : Type) : Type :=
| sendValue (value : A)
| sendError (statusCode : Z) (error : string) (message : string).

Arguments sendValue {A} value.
Arguments sendError {A} statusCode error message.

Record Reply (A : Type) : Type := {
  status : Z;
  body : Body A
}.

Arguments status {A} _.
Arguments body {A} _.

(** The [code] and [error] entries of [fixtures/httpCodes]. *)
Definition httpCode (e : HttpError) : Z :=
  match e with
  | BAD_REQUEST => 400
  | NOT_FOUND => 404
  | INTERNAL_SERVER_ERROR => 500
  end.

Definition httpText (e : HttpError) : string :=
  match e with
  | BAD_REQUEST => "Bad Request"
  | NOT_FOUND => "Not Found"
  | INTERNAL_SERVER_ERROR => "Internal Server Error"
  end.

(** [handleEndpointResponse(request, reply, results, endpointTag,
    successCode)]: an error is "handled" when its code, error text and
    message are all truthy. *)
Definition handleEndpointResponse {A : Type} (results : Result A)
  (successCode : option Z) : Reply A :=
  let successCode := match successCode with Some c => c | None => 200 end in
  match results with
  | err e =>
      if negb (String.eqb (message e) EmptyString)
      then {| status := httpCode (code e);
              body := sendError (httpCode (code e)) (httpText (code e))
                                (message e) |}
      else {| status := 500;
              body := sendError 500 "Internal Server Error"
                                "Internal Server Error" |}
  | ok value => {| status := successCode; body := sendValue value |}
  end.

End Endpoints.

(* ------------------------------------------------------------------ *)
(** * Listing expenses and incomes *)

Module Listing.

Import Endpoints.

(** The [filters] object of [getExpenses].  It never has a [concept]: the
    assignment that would set it reads an unbound name. *)
Record ExpenseFilters : Set := {
  f_apartmentId : option ObjectId;
  f_date : option (Moment * Moment);
  f_providerNif : option string;
  f_paid : option bool
}.

(** The [filters] object of [getIncomes]. *)
Record IncomeFilters : Set := {
  i_apartmentId : option ObjectId;
  i_intermediaryId : option ObjectId;
  i_rateId : option ObjectId;
  i_checkIn : option (Moment * Moment);
  i_checkOut : option (Moment * Moment);
  i_nights : option Number;
  i_clientName : option string;
  i_clientNif : option string;
  i_clientPhone : option string;
  i_numberOfPeople : option Number
}.

(** Both rejections of a date range build their error from
    [HTTP_SERVER_ERROR.BAD_REQUEST], which [fixtures/httpCodes] does not
    define: reading its [code] throws, and the enclosing [catch] returns
    an internal error with the message of the TypeError. *)
Definition undefinedCode : string :=
  "Cannot read properties of undefined (reading 'code')".

(** [if (start && end) { ... filters.x = { $gte: startTime, $lte: endTime } }] *)
Definition checkRange (env : Env) (start end_ : option Number)
  : Result (option (Moment * Moment)) :=
  match start, end_ with
  | Some s, Some e =>
      if truthyN start && truthyN end_ then
        let startTime := startOfDay (zone env) (moment (ofNumber s)) in
        let endTime := endOfDay (zone env) (moment (ofNumber e)) in
        let today := endOfDay (zone env) (Some (now env)) in
        if isAfter startTime endTime
        then bad INTERNAL_SERVER_ERROR undefinedCode
        else if isAfter startTime today
        then bad INTERNAL_SERVER_ERROR undefinedCode
        else ok (Some (startTime, endTime))
      else ok None
  | _, _ => ok None
  end.

Section Collections.

Variable paginationLimit : Z.

(** What the two collections answer to a filters object, and how they
    sort. *)
Variable matchingExpenses : list Expense.t -> ExpenseFilters -> list Expense.t.
Variable sortExpenses : string -> string -> list Expense.t -> list Expense.t.
Variable matchingIncomes : list Income.t -> IncomeFilters -> list Income.t.
Variable sortIncomes : string -> string -> list Income.t -> list Income.t.

(** [getExpenses(fastify, logger, pagination, concept, apartmentId,
    startDate, endDate, providerNif, paid)] *)
Definition getExpenses (env : Env) (fastify : Store) (pagination : Pagination)
  (concept apartmentId : option string) (startDate endDate : option Number)
  (providerNif : option string) (paid : option bool)
  : Result (Page Expense.t) :=
  if truthyS concept
  then bad INTERNAL_SERVER_ERROR "nameconcept is not defined"
  else
    check date <- checkRange env startDate endDate ;;
    paginate paginationLimit (matchingExpenses (expenses fastify)) sortExpenses
      {| f_apartmentId := keepS apartmentId;
         f_date := date;
         f_providerNif := keepS providerNif;
         f_paid := keepB paid |}
      pagination.

(** [getIncomes(fastify, logger, pagination, apartmentId, intermediaryId,
    rateId, startCheckIn, endCheckIn, startCheckOut, endCheckOut, nights,
    clientName, clientNif, clientPhone, numberOfPeople)] *)
Definition getIncomes (env : Env) (fastify : Store) (pagination : Pagination)
  (apartmentId intermediaryId rateId : option string)
  (startCheckIn endCheckIn startCheckOut endCheckOut nights : option Number)
  (clientName clientNif clientPhone : option string)
  (numberOfPeople : option Number) : Result (Page Income.t) :=
  check checkIn <- checkRange env startCheckIn endCheckIn ;;
  check checkOut <- checkRange env startCheckOut endCheckOut ;;
  paginate paginationLimit (matchingIncomes (incomes fastify)) sortIncomes
    {| i_apartmentId := keepS apartmentId;
       i_intermediaryId := keepS intermediaryId;
       i_rateId := keepS rateId;
       i_checkIn := checkIn;
       i_checkOut := checkOut;
       i_nights := keepN nights;
       i_clientName := keepS clientName;
       i_clientNif := keepS clientNif;
       i_clientPhone := keepS clientPhone;
       i_numberOfPeople := keepN numberOfPeople |}
    pagination.

End Collections.

End Listing.

(* ------------------------------------------------------------------ *)
(** * Vocabulary of the specification *)

(** The sum of a list of Numbers, in the order of the list. *)
Definition sumOf (l : list Number) : Number :=
  fold_left PrimFloat.add l 0%float.

(** A dashboard object is the settlement of the given records. *)
Definition isSettlement (d : Object) (incomes : list Income.t)
  (expenses : list Expense.t) : Prop :=
  let totalIncomes := sumOf (map Income.totalInvoice incomes) in
  let totalExpenses := sumOf (map Expense.totalInvoice expenses) in
  let vatIncomes := sumOf (map Income.totalIva incomes) in
  let vatExpenses := sumOf (map Expense.totalIva expenses) in
  get d "incomes" = Some (VIncomes incomes) /\
  get d "expenses" = Some (VExpenses expenses) /\
  get d "totalIncomes" = Some (VNumber totalIncomes) /\
  get d "totalExpenses" = Some (VNumber totalExpenses) /\
  get d "totalVATQuarterlyIncomes" = Some (VNumber vatIncomes) /\
  get d "totalVATQuarterlyExpenses" = Some (VNumber vatExpenses) /\
  get d "result" = Some (VNumber (PrimFloat.sub totalIncomes totalExpenses)) /\
  get d "quarterlyVAT" = Some (VNumber (PrimFloat.sub vatIncomes vatExpenses)).

(** The totals of an expense document agree with its amount and VAT. *)
Definition expenseInvariant (doc : Expense.t) : Prop :=
  Expense.totalIva doc =
    PrimFloat.div (PrimFloat.mul (Expense.expense doc) (Expense.iva doc))
                  100%float /\
  Expense.totalInvoice doc =
    PrimFloat.add (Expense.expense doc) (Expense.totalIva doc).

(** A Number lies in the window of a quarter once the bounds, which are
    milliseconds, are divided by 1000. *)
Definition inWindow (start end_ : Z) (x : Number) : Prop :=
  Num.leb (PrimFloat.div (Num.ofZ start) 1000%float) x = true /\
  Num.leb x (PrimFloat.div (Num.ofZ end_) 1000%float) = true.

(** The value a field holds after an update that supplied [supplied] for
    it: the supplied value when it is truthy, the previous one otherwise. *)
Definition written {A : Type} (truthy : bool) (supplied : option A) (old : A)
  : A :=
  if truthy then match supplied with Some v => v | None => old end else old.

(** A request body in which every falsy field has been removed. *)
Definition expenseWithoutFalsy (data : ExpenseSchema.Data) : ExpenseSchema.Data :=
  {| ExpenseSchema.d_apartmentId := keepS (ExpenseSchema.d_apartmentId data);
     ExpenseSchema.d_concept := keepS (ExpenseSchema.d_concept data);
     ExpenseSchema.d_date := keepN (ExpenseSchema.d_date data);
     ExpenseSchema.d_providerNif := keepS (ExpenseSchema.d_providerNif data);
     ExpenseSchema.d_expense := keepN (ExpenseSchema.d_expense data);
     ExpenseSchema.d_iva := keepN (ExpenseSchema.d_iva data);
     ExpenseSchema.d_paid := keepB (ExpenseSchema.d_paid data) |}.

(** The same for an income, [checkIn] apart. *)
Definition incomeWithoutFalsy (data : IncomeSchema.Data) : IncomeSchema.Data :=
  {| IncomeSchema.d_apartmentId := keepS (IncomeSchema.d_apartmentId data);
     IncomeSchema.d_intermediaryId := keepS (IncomeSchema.d_intermediaryId data);
     IncomeSchema.d_rateId := keepS (IncomeSchema.d_rateId data);
     IncomeSchema.d_checkIn := IncomeSchema.d_checkIn data;
     IncomeSchema.d_checkOut := keepN (IncomeSchema.d_checkOut data);
     IncomeSchema.d_clientName := keepS (IncomeSchema.d_clientName data);
     IncomeSchema.d_clientNif := keepS (IncomeSchema.d_clientNif data);
     IncomeSchema.d_clientPhone := keepS (IncomeSchema.d_clientPhone data);
     IncomeSchema.d_numberOfPeople := keepN (IncomeSchema.d_numberOfPeople data);
     IncomeSchema.d_discount := keepN (IncomeSchema.d_discount data);
     IncomeSchema.d_observations := keepS (IncomeSchema.d_observations data) |}.

(** The fields of an expense after an update of [doc] with [data]. *)
Definition expenseFieldsWritten (data : ExpenseSchema.Data)
  (doc doc' : Expense.t) : Prop :=
  Expense._id doc' = Expense._id doc /\
  Expense.apartmentId doc' =
    written (truthyS (ExpenseSchema.d_apartmentId data))
            (ExpenseSchema.d_apartmentId data) (Expense.apartmentId doc) /\
  Expense.concept doc' =
    written (truthyS (ExpenseSchema.d_concept data))
            (ExpenseSchema.d_concept data) (Expense.concept doc) /\
  Expense.date doc' =
    written (truthyN (ExpenseSchema.d_date data))
            (ExpenseSchema.d_date data) (Expense.date doc) /\
  Expense.providerNif doc' =
    (if truthyS (ExpenseSchema.d_providerNif data)
     then ExpenseSchema.d_providerNif data else Expense.providerNif doc) /\
  Expense.expense doc' =
    written (truthyN (ExpenseSchema.d_expense data))
            (ExpenseSchema.d_expense data) (Expense.expense doc) /\
  Expense.iva doc' =
    written (truthyN (ExpenseSchema.d_iva data))
            (ExpenseSchema.d_iva data) (Expense.iva doc) /\
  Expense.paid doc' =
    written (truthyB (ExpenseSchema.d_paid data))
            (ExpenseSchema.d_paid data) (Expense.paid doc).

(** The fields of an income after an update of [doc] with [data]. *)
Definition incomeFieldsWritten (data : IncomeSchema.Data)
  (doc doc' : Income.t) : Prop :=
  Income._id doc' = Income._id doc /\
  Income.apartmentId doc' =
    written (truthyS (IncomeSchema.d_apartmentId data))
            (IncomeSchema.d_apartmentId data) (Income.apartmentId doc) /\
  Income.intermediaryId doc' =
    written (truthyS (IncomeSchema.d_intermediaryId data))
            (IncomeSchema.d_intermediaryId data) (Income.intermediaryId doc) /\
  Income.rateId doc' =
    written (truthyS (IncomeSchema.d_rateId data))
            (IncomeSchema.d_rateId data) (Income.rateId doc) /\
  Income.checkIn doc' =
    written (truthyN (IncomeSchema.d_checkIn data))
            (IncomeSchema.d_checkIn data) (Income.checkIn doc) /\
  Income.checkOut doc' =
    written (truthyN (IncomeSchema.d_checkOut data))
            (IncomeSchema.d_checkOut data) (Income.checkOut doc) /\
  Income.clientName doc' =
    written (truthyS (IncomeSchema.d_clientName data))
            (IncomeSchema.d_clientName data) (Income.clientName doc) /\
  Income.clientNif doc' =
    written (truthyS (IncomeSchema.d_clientNif data))
            (IncomeSchema.d_clientNif data) (Income.clientNif doc) /\
  Income.clientPhone doc' =
    written (truthyS (IncomeSchema.d_clientPhone data))
            (IncomeSchema.d_clientPhone data) (Income.clientPhone doc) /\
  Income.numberOfPeople doc' =
    written (truthyN (IncomeSchema.d_numberOfPeople data))
            (IncomeSchema.d_numberOfPeople data) (Income.numberOfPeople doc) /\
  Income.discount doc' =
    written (truthyN (IncomeSchema.d_discount data))
            (IncomeSchema.d_discount data) (Income.discount doc) /\
  Income.observations doc' =
    (if truthyS (IncomeSchema.d_observations data)
     then IncomeSchema.d_observations data else Income.observations doc).

(* ------------------------------------------------------------------ *)
(** * Sample hosts and documents *)

(** A host on UTC and one on Europe/Madrid, both at
    2024-06-20T21:53:34Z. *)
Definition hostUTC : Env :=
  {| zone := UTC; now := 1718920414000; newId := "665f1c3a9b1e8a0012345678" |}.

Definition hostMadrid : Env :=
  {| zone := EuropeMadrid; now := 1718920414000;
     newId := "665f1c3a9b1e8a0012345678" |}.

Definition apartmentA : ObjectId := "665f1c3a9b1e8a00000000a1"%string.
Definition intermediaryA : ObjectId := "665f1c3a9b1e8a00000000b1"%string.

(** A rate of 50 per night at 21 % VAT. *)
Definition rateA : Rate.t :=
  {| Rate._id := "665f1c3a9b1e8a00000000c1"%string;
     Rate.apartmentId := apartmentA;
     Rate.name := "Standard";
     Rate.pricePerNight := 50%float;
     Rate.iva := 21%float |}.

Definition sampleStore : Store :=
  {| apartments := [apartmentA];
     intermediaries := [intermediaryA];
     rates := [rateA];
     incomes := [];
     expenses := [] |}.

(** Two people from 2024-06-20 to 2024-06-23 (timestamps in seconds) at
    10 % discount. *)
Definition threeNights : IncomeSchema.New :=
  {| IncomeSchema.apartmentId := apartmentA;
     IncomeSchema.intermediaryId := intermediaryA;
     IncomeSchema.rateId := Rate._id rateA;
     IncomeSchema.checkIn := 1718920414%float;
     IncomeSchema.checkOut := 1719179614%float;
     IncomeSchema.clientName := "Ana";
     IncomeSchema.clientNif := "00000000T";
     IncomeSchema.clientPhone := "600000000";
     IncomeSchema.numberOfPeople := 2%float;
     IncomeSchema.discount := Some 10%float;
     IncomeSchema.observations := None |}.

(** The binary64 values nearest to 56.7 and to 326.7, and the binary64
    value just below the former, which prints as 56.699999999999996. *)
Definition nearest_56_7 : Number := 0x1.c59999999999ap+5%float.
Definition below_56_7 : Number := 0x1.c599999999999p+5%float.
Definition nearest_326_7 : Number := 0x1.46b3333333333p+8%float.

(** An income of [rateA] with the given arrival and departure. *)
Definition stay (id : ObjectId) (checkIn checkOut : Number) : Income.t :=
  {| Income._id := id;
     Income.apartmentId := apartmentA;
     Income.intermediaryId := intermediaryA;
     Income.rateId := Rate._id rateA;
     Income.checkIn := checkIn;
     Income.checkOut := checkOut;
     Income.nights := 1%float;
     Income.clientName := "Ana";
     Income.clientNif := "00000000T";
     Income.clientPhone := "600000000";
     Income.numberOfPeople := 1%float;
     Income.discount := 0%float;
     Income.totalIva := 10.5%float;
     Income.totalInvoice := 60.5%float;
     Income.observations := None |}.

(** An expense of 100 at 21 % VAT on the given date. *)
Definition bill (id : ObjectId) (date : Number) : Expense.t :=
  {| Expense._id := id;
     Expense.apartmentId := apartmentA;
     Expense.concept := "Cleaning";
     Expense.date := date;
     Expense.providerNif := None;
     Expense.expense := 100%float;
     Expense.iva := 21%float;
     Expense.totalIva := 21%float;
     Expense.totalInvoice := 121%float;
     Expense.paid := false |}.

Arguments stay id%_string checkIn%_float checkOut%_float.
Arguments bill id%_string date%_float.

(** [sampleStore] with one income already booked. *)
Definition bookedId : ObjectId := "665f1c3a9b1e8a00000000d1"%string.

Definition bookedStore : Store :=
  {| apartments := [apartmentA];
     intermediaries := [intermediaryA];
     rates := [rateA];
     incomes := [stay bookedId 1718920414 1719179614];
     expenses := [] |}.

(** An income update that supplies the two dates only. *)
Definition datesOnly (checkIn checkOut : Number) : IncomeSchema.Data :=
  {| IncomeSchema.d_apartmentId := None;
     IncomeSchema.d_intermediaryId := None;
     IncomeSchema.d_rateId := None;
     IncomeSchema.d_checkIn := Some checkIn;
     IncomeSchema.d_checkOut := Some checkOut;
     IncomeSchema.d_clientName := None;
     IncomeSchema.d_clientNif := None;
     IncomeSchema.d_clientPhone := None;
     IncomeSchema.d_numberOfPeople := None;
     IncomeSchema.d_discount := None;
     IncomeSchema.d_observations := None |}.

Arguments datesOnly checkIn%_float checkOut%_float.

(** An expense update that sets the VAT to 0 and marks the bill unpaid. *)
Definition zeroVatUnpaid : ExpenseSchema.Data :=
  {| ExpenseSchema.d_apartmentId := None;
     ExpenseSchema.d_concept := None;
     ExpenseSchema.d_date := None;
     ExpenseSchema.d_providerNif := None;
     ExpenseSchema.d_expense := None;
     ExpenseSchema.d_iva := Some 0%float;
     ExpenseSchema.d_paid := Some false |}.

Definition nothingSupplied : ExpenseSchema.Data :=
  {| ExpenseSchema.d_apartmentId := None;
     ExpenseSchema.d_concept := None;
     ExpenseSchema.d_date := None;
     ExpenseSchema.d_providerNif := None;
     ExpenseSchema.d_expense := None;
     ExpenseSchema.d_iva := None;
     ExpenseSchema.d_paid := None |}.

(** A store with two expenses and nothing else but their apartment. *)
Definition billsStore : Store :=
  {| apartments := [apartmentA];
     intermediaries := [];
     rates := [];
     incomes := [];
     expenses := [bill "e1" 1718000000; bill "e2" 1718100000] |}.

(** The documents of an answer of [paginate]; none for an error. *)
Definition resultsOf {D : Type} (r : Result (Endpoints.Page D)) : list D :=
  match r with
  | ok p => Endpoints.results p
  | err _ => []
  end.

(** A [pagination] object that asks for a page of a given size. *)
Definition pageOf (page limit : Z) : Endpoints.Pagination :=
  {| Endpoints.page := Some page;
     Endpoints.limit := Some limit;
     Endpoints.sortBy := None;
     Endpoints.sortOrder := None |}.

(** The key and the direction a [pagination] object sorts by: its own
    where it names one, else ["updatedAt"] ascending. *)
Definition sortKeyOf (pagination : Endpoints.Pagination) : string :=
  match keepS (Endpoints.sortBy pagination) with
  | Some key => key
  | None => "updatedAt"
  end.

Definition sortDirectionOf (pagination : Endpoints.Pagination) : string :=
  match keepS (Endpoints.sortOrder pagination) with
  | Some direction => direction
  | None => "asc"
  end.

(* ================================================================== *)
(** * Properties *)

(* ------------------------------------------------------------------ *)
(** ** The calendar *)

Example civil_epoch : civilFromDay 0 = (1970, 0, 1).
Proof. reflexivity. Qed.

Example civil_leap_day : civilFromDay (MakeDay 2024 1 29) = (2024, 1, 29).
Proof. reflexivity. Qed.

Example civil_new_year : civilFromDay (MakeDay 2023 11 31 + 1) = (2024, 0, 1).
Proof. reflexivity. Qed.

Ltac zdiv := Z.div_mod_to_equations; lia.

Ltac month_cases m :=
  let Hc := fresh "Hc" in
  assert (m = 0 \/ m = 1 \/ m = 2 \/ m = 3 \/ m = 4 \/ m = 5 \/ m = 6 \/ m = 7
          \/ m = 8 \/ m = 9 \/ m = 10 \/ m = 11) as Hc by lia;
  repeat (destruct Hc as [->|Hc]); try subst m.

Ltac reduce_leb :=
  repeat match goal with
         | |- context [?a <=? ?b] => destruct (Z.leb_spec a b); try lia
         | |- context [?a <? ?b] => destruct (Z.ltb_spec a b); try lia
         end.

Lemma leap_cases y :
  (InLeapYear y = true /\ y mod 4 = 0 /\ (y mod 100 <> 0 \/ y mod 400 = 0)) \/
  (InLeapYear y = false /\ (y mod 4 <> 0 \/ (y mod 100 = 0 /\ y mod 400 <> 0))).
Proof.
  unfold InLeapYear.
  destruct (y mod 4 =? 0) eqn:E4; destruct (y mod 100 =? 0) eqn:E100;
    destruct (y mod 400 =? 0) eqn:E400;
    rewrite ?Z.eqb_eq, ?Z.eqb_neq in *; cbn; intuition auto.
Qed.




(** The era / year-of-era decomposition of a day count that starts on
    1 March of year [Y] and lies [doy] days later. *)
Lemma civil_split z Y doy :
  z = 146097 * (Y / 400) + 365 * (Y mod 400) + (Y mod 400) / 4
      - (Y mod 400) / 100 + doy ->
  0 <= doy <= 365 ->
  (doy = 365 -> (Y + 1) mod 4 = 0 /\ ((Y + 1) mod 100 <> 0 \/ (Y + 1) mod 400 = 0)) ->
  let era := z / 146097 in
  let doe := z - era * 146097 in
  let yoe := (doe - doe / 1460 + doe / 36524 - doe / 146096) / 365 in
  yoe + era * 400 = Y /\ doe - (365 * yoe + yoe / 4 - yoe / 100) = doy.
Proof.
  intros Hz Hdoy Hlast era doe yoe.
  assert (Hera : era = Y / 400) by (subst era; rewrite Hz; zdiv).
  assert (Hdoe : doe = 365 * (Y mod 400) + (Y mod 400) / 4 - (Y mod 400) / 100 + doy)
    by (subst doe; rewrite Hera, Hz; lia).
  assert (Hyoe : yoe = Y mod 400) by (subst yoe; rewrite Hdoe; zdiv).
  split.
  - rewrite Hyoe, Hera. zdiv.
  - rewrite Hyoe, Hdoe. lia.
Qed.


Lemma civil_MakeDay y m d :
  0 <= m <= 11 -> 1 <= d <= daysInMonth (InLeapYear y) m ->
  civilFromDay (MakeDay y m d) = (y, m, d).
Proof.
  intros Hm Hd.
  assert (Hm12 : m / 12 = 0 /\ m mod 12 = m) by zdiv.
  destruct Hm12 as [Hq Hr].
  unfold civilFromDay, MakeDay, DayFromYear. rewrite Hq, Hr, Z.add_0_r.
  set (z := _ + 719468).
  remember (m <=? 1) as early eqn:Ee.
  pose (Y := y - (if early then 1 else 0)).
  pose (doy := monthStart false m + (if early then 306 else -59) + d - 1).
  destruct (civil_split z Y doy) as [HY Hdoy'].
  - subst z Y doy.
    destruct (leap_cases y) as [(E & L)|(E & L)]; rewrite E in *;
      month_cases m; cbv in Ee; subst early;
      cbv [monthStart daysInMonth] in Hd |- *; zdiv.
  - subst Y doy. revert Hd. generalize (InLeapYear y). intros leap Hd.
    month_cases m; cbv in Ee; subst early; destruct leap;
      cbv [monthStart daysInMonth] in Hd |- *; lia.
  - subst Y doy. intros H365. revert Hd.
    destruct (leap_cases y) as [(E & L)|(E & L)]; rewrite E; intros Hd;
      month_cases m; cbv in Ee; subst early;
      cbv [monthStart daysInMonth] in Hd, H365 |- *; zdiv.
  - cbv zeta in HY, Hdoy'. cbv zeta. rewrite Hdoy', HY.
    subst Y doy. clear - Hm Hd Ee. revert Hd.
    generalize (InLeapYear y) as leap. intros leap Hd.
    month_cases m; cbv in Ee; subst early; destruct leap;
      cbv [monthStart daysInMonth] in Hd |- *;
      match goal with
      | |- context [ (?a / 153) ] =>
          let q := fresh "q" in
          let Hq := fresh "Hq" in
          remember (a / 153) as q eqn:Hq;
          assert (exists k, q = k /\ 0 <= k <= 11) as (k & -> & Hk)
            by (exists q; split; [reflexivity|zdiv]);
          month_cases k; try (exfalso; zdiv)
      end; reduce_leb; (f_equal; [f_equal|..]); zdiv.
Qed.

Lemma Day_dateUTC y m d : Day (dateUTC y m d) = MakeDay y m d.
Proof. unfold Day, dateUTC, msPerDay. zdiv. Qed.

Lemma TimeWithinDay_dateUTC y m d : TimeWithinDay (dateUTC y m d) = 0.
Proof. unfold TimeWithinDay, dateUTC, msPerDay. zdiv. Qed.

(** Reading back the fields of a UTC date. *)
Lemma fields_dateUTC y m d :
  0 <= m <= 11 -> 1 <= d <= daysInMonth (InLeapYear y) m ->
  YearFromTime (dateUTC y m d) = y /\
  MonthFromTime (dateUTC y m d) = m /\
  DateFromTime (dateUTC y m d) = d.
Proof.
  intros Hm Hd. unfold YearFromTime, MonthFromTime, DateFromTime.
  rewrite Day_dateUTC, civil_MakeDay by assumption. auto.
Qed.

Lemma daysInMonth_pos leap m : 28 <= daysInMonth leap m <= 31.
Proof.
  unfold daysInMonth.
  destruct leap; repeat (destruct m as [|[m|m|]|]; try lia).
Qed.

(** The day after the last day of a month is the first of the next one;
    month 12 is January of the following year. *)
Lemma MakeDay_next_month y m :
  0 <= m <= 11 ->
  MakeDay y (m + 1) 1 = MakeDay y m (daysInMonth (InLeapYear y) m) + 1.
Proof.
  intros Hm. unfold MakeDay.
  assert (Hq : m / 12 = 0 /\ m mod 12 = m) by zdiv.
  destruct Hq as [-> ->]. rewrite Z.add_0_r.
  destruct (Z.eq_dec m 11) as [->|Hne].
  - change ((11 + 1) / 12) with 1. change ((11 + 1) mod 12) with 0.
    unfold DayFromYear.
    destruct (leap_cases y) as [(E & L)|(E & L)]; rewrite E;
      cbv [monthStart daysInMonth]; destruct (InLeapYear (y + 1)); zdiv.
  - assert (Hq : (m + 1) / 12 = 0 /\ (m + 1) mod 12 = m + 1) by zdiv.
    destruct Hq as [-> ->]. rewrite Z.add_0_r.
    generalize (InLeapYear y) as leap. intros leap.
    month_cases m; try lia;
      match goal with
      | |- context [monthStart _ (?a + 1)] =>
          let v := eval compute in (a + 1) in change (a + 1) with v
      end;
      destruct leap; cbv [monthStart daysInMonth]; lia.
Qed.

(** Every month start of the years 1 to 275759 is a time value a [Date]
    can hold. *)
Lemma dateUTC_in_range y m :
  1 <= y <= 275759 -> 0 <= m <= 12 ->
  Z.abs (dateUTC y m 1) <= maxTime.
Proof.
  intros Hy Hm. unfold dateUTC, MakeDay, maxTime, msPerDay.
  assert (Hb : -719162 <= DayFromYear (y + m / 12)
                          + monthStart (InLeapYear (y + m / 12)) (m mod 12)
                          + 1 - 1 <= 100000000).
  { assert (Hq : (m / 12 = 0 /\ m mod 12 = m) \/ (m / 12 = 1 /\ m mod 12 = 0))
      by zdiv.
    destruct Hq as [[-> ->]|[-> ->]].
    - rewrite Z.add_0_r. unfold DayFromYear.
      generalize (InLeapYear y) as leap. intros leap.
      assert (m = 12 \/ 0 <= m <= 11) as [->|Hm'] by lia.
      + destruct leap; cbv [monthStart]; zdiv.
      + month_cases m; destruct leap; cbv [monthStart]; zdiv.
    - unfold DayFromYear. destruct (InLeapYear (y + 1)); cbv [monthStart]; zdiv. }
  lia.
Qed.

Lemma tzUTC_first y m :
  1 <= y <= 275759 -> 0 <= m <= 11 ->
  tzUTC y m 1 = Some (dateUTC y m 1).
Proof.
  intros Hy Hm. unfold tzUTC.
  pose proof (daysInMonth_pos (InLeapYear y) m) as Hd.
  pose proof (dateUTC_in_range y m Hy ltac:(lia)) as Hr.
  replace (0 <=? m) with true by (symmetry; apply Z.leb_le; lia).
  replace (m <=? 11) with true by (symmetry; apply Z.leb_le; lia).
  replace (1 <=? 1) with true by reflexivity.
  replace (1 <=? daysInMonth (InLeapYear y) m) with true
    by (symmetry; apply Z.leb_le; lia).
  replace (Z.abs (dateUTC y m 1) <=? maxTime) with true
    by (symmetry; apply Z.leb_le; lia).
  reflexivity.
Qed.

(** What [getQuarterDates] computes for an explicit year. *)
Lemma getQuarterDates_explicit env y q :
  1 <= y <= 275759 -> 1 <= q <= 4 ->
  getQuarterDates env (Some y) q =
  {| startOfQuarter := Some (dateUTC y ((q - 1) * 3) 1);
     endOfQuarter := Some (dateUTC y ((q - 1) * 3 + 3) 1 - 1000) |}.
Proof.
  intros Hy Hq. unfold getQuarterDates.
  replace (y =? 0) with false by (symmetry; apply Z.eqb_neq; lia).
  set (m := (q - 1) * 3).
  assert (Hm : 0 <= m <= 9) by (subst m; lia).
  rewrite !tzUTC_first by lia.
  unfold startOfMonthUTC, endOfMonthUTC, unix, option_map.
  destruct (fields_dateUTC y m 1) as (Y1 & M1 & _); [lia| |].
  { pose proof (daysInMonth_pos (InLeapYear y) m). lia. }
  destruct (fields_dateUTC y (m + 2) 1) as (Y2 & M2 & _); [lia| |].
  { pose proof (daysInMonth_pos (InLeapYear y) (m + 2)). lia. }
  rewrite Y1, M1, Y2, M2.
  replace (m + 2 + 1) with (m + 3) by lia.
  f_equal; f_equal; unfold dateUTC, msPerDay; zdiv.
Qed.

(* ------------------------------------------------------------------ *)
(** ** Quarter boundaries *)

(** C4.  [getQuarterDates] returns the documented bounds for the four
    quarters of 2024, whatever the host; and for every year a [Date] can
    hold (1 to 275759) and every quarter from 1 to 4, [startOfQuarter] is
    00:00:00.000 UTC of the first day of month [(quarter - 1) * 3] of that
    year: read back, its year, month, day and time within the day are
    [year], [(quarter - 1) * 3], 1 and 0. *)
Theorem quarter_start_first_instant :
  (forall env,
      getQuarterDates env (Some 2024) 1 =
        {| startOfQuarter := Some 1704067200000;
           endOfQuarter := Some 1711929599000 |} /\
      getQuarterDates env (Some 2024) 2 =
        {| startOfQuarter := Some 1711929600000;
           endOfQuarter := Some 1719791999000 |} /\
      getQuarterDates env (Some 2024) 3 =
        {| startOfQuarter := Some 1719792000000;
           endOfQuarter := Some 1727740799000 |} /\
      getQuarterDates env (Some 2024) 4 =
        {| startOfQuarter := Some 1727740800000;
           endOfQuarter := Some 1735689599000 |}) /\
  (forall env year quarter,
      1 <= year <= 275759 -> 1 <= quarter <= 4 ->
      exists start,
        startOfQuarter (getQuarterDates env (Some year) quarter) = Some start /\
        start = dateUTC year ((quarter - 1) * 3) 1 /\
        YearFromTime start = year /\
        MonthFromTime start = (quarter - 1) * 3 /\
        DateFromTime start = 1 /\
        TimeWithinDay start = 0).
Proof.
  split.
  - intros env. repeat split; reflexivity.
  - intros env year quarter Hy Hq.
    rewrite getQuarterDates_explicit by assumption. cbn [startOfQuarter].
    eexists. split; [reflexivity|]. split; [reflexivity|].
    destruct (fields_dateUTC year ((quarter - 1) * 3) 1) as (Y & M & D).
    + lia.
    + pose proof (daysInMonth_pos (InLeapYear year) ((quarter - 1) * 3)). lia.
    + rewrite TimeWithinDay_dateUTC. auto.
Qed.

Lemma quarter_start_first_instant_witness :
  exists start,
    startOfQuarter (getQuarterDates hostUTC (Some 2025) 3) = Some start /\
    start = dateUTC 2025 ((3 - 1) * 3) 1 /\
    YearFromTime start = 2025 /\
    MonthFromTime start = (3 - 1) * 3 /\
    DateFromTime start = 1 /\
    TimeWithinDay start = 0.
Proof.
  apply (proj2 quarter_start_first_instant hostUTC 2025 3); lia.
Defined.

(** The last second of a month: one second before the next month starts. *)
Lemma fields_month_end y m :
  0 <= m <= 11 ->
  let e := dateUTC y (m + 1) 1 - 1000 in
  YearFromTime e = y /\
  MonthFromTime e = m /\
  DateFromTime e = daysInMonth (InLeapYear y) m /\
  TimeWithinDay e = 86399000.
Proof.
  intros Hm e.
  pose proof (daysInMonth_pos (InLeapYear y) m) as Hd.
  assert (He : e = MakeDay y m (daysInMonth (InLeapYear y) m) * msPerDay
                   + 86399000).
  { subst e. unfold dateUTC. rewrite MakeDay_next_month by assumption.
    unfold msPerDay. lia. }
  assert (HD : Day e = MakeDay y m (daysInMonth (InLeapYear y) m)).
  { rewrite He. unfold Day, msPerDay. zdiv. }
  unfold YearFromTime, MonthFromTime, DateFromTime, TimeWithinDay.
  rewrite HD, civil_MakeDay by lia. cbn [fst snd].
  repeat split. rewrite He. unfold msPerDay. zdiv.
Qed.

Lemma dateUTC_month_12 y d : dateUTC y 12 d = dateUTC (y + 1) 0 d.
Proof.
  unfold dateUTC, MakeDay.
  change (12 / 12) with 1. change (12 mod 12) with 0.
  change (0 / 12) with 0. change (0 mod 12) with 0.
  replace (y + 1 + 0) with (y + 1) by lia. reflexivity.
Qed.

(** C5 fails as stated: the end of the first quarter of 2024 is
    1711929599000, not the last millisecond of March (1711929599999), and
    the second quarter starts 1000 ms, not 1 ms, after it. *)
Lemma quarter_end_not_last_millisecond :
  endOfQuarter (getQuarterDates hostUTC (Some 2024) 1)
    <> Some (dateUTC 2024 3 1 - 1) /\
  ~ (exists e,
        endOfQuarter (getQuarterDates hostUTC (Some 2024) 1) = Some e /\
        startOfQuarter (getQuarterDates hostUTC (Some 2024) 2) = Some (e + 1)).
Proof.
  split.
  - vm_compute. discriminate.
  - intros (e & He & Hs). vm_compute in He, Hs.
    injection He as <-. discriminate Hs.
Qed.

(** C5, amended.  For every year from 1 to 275759 and every quarter from
    1 to 4, [endOfQuarter] is the last whole second (23:59:59.000 UTC) of
    the last day of month [(quarter - 1) * 3 + 2] of that year, 1000 ms
    before the first instant of the following month; it lies after
    [startOfQuarter]; and the next quarter (the first one of the following
    year after the fourth) starts exactly 1000 ms after it, so the quarters
    never overlap and leave out the last 999 ms of each quarter. *)
Theorem quarter_end_last_second :
  forall env year quarter,
    1 <= year <= 275759 -> 1 <= quarter <= 4 ->
    exists start end_,
      getQuarterDates env (Some year) quarter =
        {| startOfQuarter := Some start; endOfQuarter := Some end_ |} /\
      end_ = dateUTC year ((quarter - 1) * 3 + 3) 1 - 1000 /\
      YearFromTime end_ = year /\
      MonthFromTime end_ = (quarter - 1) * 3 + 2 /\
      DateFromTime end_ = daysInMonth (InLeapYear year) ((quarter - 1) * 3 + 2) /\
      TimeWithinDay end_ = 86399000 /\
      start < end_ /\
      (quarter < 4 ->
       startOfQuarter (getQuarterDates env (Some year) (quarter + 1))
         = Some (end_ + 1000)) /\
      (quarter = 4 -> year < 275759 ->
       startOfQuarter (getQuarterDates env (Some (year + 1)) 1)
         = Some (end_ + 1000)).
Proof.
  intros env year quarter Hy Hq.
  rewrite getQuarterDates_explicit by assumption.
  set (m := (quarter - 1) * 3).
  assert (Hm : 0 <= m <= 9) by (subst m; lia).
  do 2 eexists. split; [reflexivity|]. split; [reflexivity|].
  destruct (fields_month_end year (m + 2)) as (Y & M & D & T); [lia|].
  replace (m + 2 + 1) with (m + 3) in * by lia.
  repeat split; try assumption.
  - pose proof (MakeDay_next_month year m ltac:(lia)) as H0.
    pose proof (MakeDay_next_month year (m + 1) ltac:(lia)) as H1.
    pose proof (MakeDay_next_month year (m + 2) ltac:(lia)) as H2.
    replace (m + 1 + 1) with (m + 2) in * by lia.
    replace (m + 2 + 1) with (m + 3) in * by lia.
    pose proof (daysInMonth_pos (InLeapYear year) m).
    pose proof (daysInMonth_pos (InLeapYear year) (m + 1)).
    pose proof (daysInMonth_pos (InLeapYear year) (m + 2)).
    assert (Hs : MakeDay year m 1 + 1 <= MakeDay year (m + 3) 1).
    { assert (MakeDay year m (daysInMonth (InLeapYear year) m)
              = MakeDay year m 1 + daysInMonth (InLeapYear year) m - 1)
        by (unfold MakeDay; lia).
      assert (MakeDay year (m + 1) (daysInMonth (InLeapYear year) (m + 1))
              = MakeDay year (m + 1) 1 + daysInMonth (InLeapYear year) (m + 1) - 1)
        by (unfold MakeDay; lia).
      assert (MakeDay year (m + 2) (daysInMonth (InLeapYear year) (m + 2))
              = MakeDay year (m + 2) 1 + daysInMonth (InLeapYear year) (m + 2) - 1)
        by (unfold MakeDay; lia).
      lia. }
    unfold dateUTC, msPerDay. lia.
  - intros Hlt. rewrite getQuarterDates_explicit by lia. cbn [startOfQuarter].
    subst m. f_equal. replace ((quarter + 1 - 1) * 3) with ((quarter - 1) * 3 + 3) by lia.
    lia.
  - intros -> Hlt. rewrite getQuarterDates_explicit by lia. cbn [startOfQuarter].
    subst m. change ((4 - 1) * 3 + 3) with 12. change ((1 - 1) * 3) with 0.
    rewrite dateUTC_month_12. f_equal. lia.
Qed.

Lemma quarter_end_last_second_witness :
  exists start end_,
    getQuarterDates hostUTC (Some 2024) 4 =
      {| startOfQuarter := Some start; endOfQuarter := Some end_ |} /\
    end_ = dateUTC 2024 ((4 - 1) * 3 + 3) 1 - 1000 /\
    YearFromTime end_ = 2024 /\
    MonthFromTime end_ = (4 - 1) * 3 + 2 /\
    DateFromTime end_ = daysInMonth (InLeapYear 2024) ((4 - 1) * 3 + 2) /\
    TimeWithinDay end_ = 86399000 /\
    start < end_ /\
    (4 < 4 ->
     startOfQuarter (getQuarterDates hostUTC (Some 2024) (4 + 1))
       = Some (end_ + 1000)) /\
    (4 = 4 -> 2024 < 275759 ->
     startOfQuarter (getQuarterDates hostUTC (Some (2024 + 1)) 1)
       = Some (end_ + 1000)).
Proof.
  apply (quarter_end_last_second hostUTC 2024 4); lia.
Defined.

(* ------------------------------------------------------------------ *)
(** ** Nights *)

(** On a host with a fixed offset the nights are the difference of the
    local day numbers of check-out and check-in, computed as the truncated
    quotient of a span that ends one millisecond before midnight. *)
Lemma nights_fixed_zone env minutes a b :
  zone env = fixedZone minutes ->
  calculateDaysDifference env (ofMoment (Some a)) (ofMoment (Some b)) =
  Some (Z.quot ((Day (b + minutes * msPerMinute)
                 - Day (a + minutes * msPerMinute)) * msPerDay
                + (msPerDay - 1)) msPerDay).
Proof.
  intros Hz. unfold calculateDaysDifference. rewrite Hz.
  cbn [moment startOfDay endOfDay option_map diffDays fixedZone utcOffset
       fromLocal].
  unfold wall. cbn [fixedZone utcOffset].
  f_equal. f_equal. ring.
Qed.

Lemma nights_same_day env minutes a b :
  zone env = fixedZone minutes ->
  Day (a + minutes * msPerMinute) = Day (b + minutes * msPerMinute) ->
  calculateDaysDifference env (ofMoment (Some a)) (ofMoment (Some b)) = Some 0.
Proof.
  intros Hz Hd. rewrite (nights_fixed_zone env minutes) by assumption.
  rewrite Hd, Z.sub_diag. reflexivity.
Qed.

Lemma nights_adjacent_days env minutes a b :
  zone env = fixedZone minutes ->
  Day (b + minutes * msPerMinute) = Day (a + minutes * msPerMinute) + 1 ->
  calculateDaysDifference env (ofMoment (Some a)) (ofMoment (Some b)) = Some 1.
Proof.
  intros Hz Hd. rewrite (nights_fixed_zone env minutes) by assumption.
  rewrite Hd. replace (Day (a + minutes * msPerMinute) + 1
                       - Day (a + minutes * msPerMinute)) with 1 by lia.
  reflexivity.
Qed.

Lemma nights_monotone env minutes a b b' n n' :
  zone env = fixedZone minutes ->
  b <= b' ->
  calculateDaysDifference env (ofMoment (Some a)) (ofMoment (Some b)) = Some n ->
  calculateDaysDifference env (ofMoment (Some a)) (ofMoment (Some b')) = Some n' ->
  n <= n'.
Proof.
  intros Hz Hb. rewrite !(nights_fixed_zone env minutes) by assumption.
  intros [= <-] [= <-].
  apply Z.quot_le_mono; [unfold msPerDay; lia|].
  assert (Day (b + minutes * msPerMinute) <= Day (b' + minutes * msPerMinute)).
  { unfold Day. apply Z.div_le_mono; [unfold msPerDay|]; lia. }
  unfold msPerDay. nia.
Qed.

(** C6.  [calculateDaysDifference] takes its calendar from the host: the
    timestamps of the repository's own test give 6 nights on a host on
    Europe/Madrid and 5 on a host on UTC. *)
Theorem nights_follow_host_zone :
  calculateDaysDifference hostMadrid
    (ofNumber 1718920414000%float) (ofNumber 1719356014000%float) = Some 6 /\
  calculateDaysDifference hostUTC
    (ofNumber 1718920414000%float) (ofNumber 1719356014000%float) = Some 5.
Proof. split; vm_compute; reflexivity. Qed.

(* ------------------------------------------------------------------ *)
(** ** Income totals *)

(** C3 fails as stated: for 50 per night, two people, three nights, 10 %
    discount and 21 % VAT the stored [totalIva] is not the Number 56.7. *)
Lemma income_example_total_iva_differs :
  exists doc st,
    IncomeSchema.createNewIncome hostUTC sampleStore threeNights = inr (doc, st) /\
    Income.nights doc = 3%float /\
    Income.totalIva doc <> nearest_56_7.
Proof.
  set (r := IncomeSchema.createNewIncome hostUTC sampleStore threeNights).
  vm_compute in r. subst r.
  do 2 eexists. split; [reflexivity|]. cbn [Income.nights Income.totalIva].
  split; [reflexivity|].
  intros H. apply (f_equal Prim2SF) in H. vm_compute in H. discriminate H.
Qed.

(** C3, amended.  In exact arithmetic the schema's computation is the one
    the specification gives: base [p * n * k], discount applied to the
    base, VAT on the discounted amount.  The code evaluates it in binary64
    as [base - base * (d / 100)] and [discounted * (v / 100)]: an income
    that is created or updated stores exactly these totals, with the price
    and VAT of the rate it references at that moment, and for p=50, n=2,
    k=3, d=10, v=21 they are 56.699999999999996 and 326.7, where the
    specification's own order of operations gives 56.7 and 326.7. *)
Theorem income_totals :
  (forall p n k d v : Q,
      (fst (incomeTotals Exact p n k d v)
         == fst (spec_incomeTotals Exact p n k d v))%Q /\
      (snd (incomeTotals Exact p n k d v)
         == snd (spec_incomeTotals Exact p n k d v))%Q) /\
  (forall env store new rate,
      findById Rate._id (rates store) (IncomeSchema.rateId new) = Some rate ->
      exists doc st,
        IncomeSchema.createNewIncome env store new = inr (doc, st) /\
        (Income.totalIva doc, Income.totalInvoice doc) =
          incomeTotals Binary64 (Rate.pricePerNight rate)
            (IncomeSchema.numberOfPeople new) (Income.nights doc)
            (numOr (IncomeSchema.discount new)) (Rate.iva rate)) /\
  (forall env store this data rate,
      findById Rate._id (rates store)
               (own (IncomeSchema.d_rateId data) (Income.rateId this))
        = Some rate ->
      exists doc st,
        IncomeSchema.update env store this data = inr (doc, st) /\
        (Income.totalIva doc, Income.totalInvoice doc) =
          incomeTotals Binary64 (Rate.pricePerNight rate)
            (Income.numberOfPeople doc) (Income.nights doc)
            (Income.discount doc) (Rate.iva rate)) /\
  incomeTotals Binary64 50%float 2%float 3%float 10%float 21%float
    = (below_56_7, nearest_326_7) /\
  spec_incomeTotals Binary64 50%float 2%float 3%float 10%float 21%float
    = (nearest_56_7, nearest_326_7).
Proof.
  split; [|split; [|split; [|split]]].
  - intros p n k d v. unfold incomeTotals, spec_incomeTotals.
    cbn [fst snd add sub mul div lit Exact]. split; field.
  - intros env store new rate Hr. unfold IncomeSchema.createNewIncome.
    rewrite Hr.
    destruct (incomeTotals Binary64 (Rate.pricePerNight rate)
                (IncomeSchema.numberOfPeople new)
                (toNumber (IncomeSchema.nightsOf env (IncomeSchema.checkIn new)
                                                 (IncomeSchema.checkOut new)))
                (numOr (IncomeSchema.discount new)) (Rate.iva rate))
      as [ti tv] eqn:E.
    do 2 eexists. split; [reflexivity|].
    cbn [Income.totalIva Income.totalInvoice Income.nights]. now rewrite E.
  - intros env store this data rate Hr. unfold IncomeSchema.update.
    rewrite Hr.
    match goal with
    | |- context [incomeTotals ?a ?b ?c ?d ?e ?f] =>
        destruct (incomeTotals a b c d e f) as [ti tv] eqn:E
    end.
    do 2 eexists. split; [reflexivity|].
    cbn [Income.totalIva Income.totalInvoice Income.nights
         Income.numberOfPeople Income.discount]. now rewrite E.
  - vm_compute. reflexivity.
  - vm_compute. reflexivity.
Qed.

Lemma income_totals_witness :
  exists doc st,
    IncomeSchema.createNewIncome hostUTC sampleStore threeNights = inr (doc, st) /\
    (Income.totalIva doc, Income.totalInvoice doc) =
      incomeTotals Binary64 (Rate.pricePerNight rateA)
        (IncomeSchema.numberOfPeople threeNights) (Income.nights doc)
        (numOr (IncomeSchema.discount threeNights)) (Rate.iva rateA).
Proof.
  apply (proj1 (proj2 income_totals) hostUTC sampleStore threeNights rateA).
  reflexivity.
Defined.

(* ------------------------------------------------------------------ *)
(** ** Expense totals *)

(** C9.  An expense document, as [createNewExpense] returns and stores it
    and as [update] returns and stores it, has
    [totalIva = expense * iva / 100] and [totalInvoice = expense + totalIva]
    on its own current amount and VAT; the same holds for whatever the two
    service functions return on success; both schema functions are total;
    and an amount of 100 at 21 % gives 21 and 121. *)
Theorem expense_totals_invariant :
  (forall env store new,
      expenseInvariant (fst (ExpenseSchema.createNewExpense env store new)) /\
      In (fst (ExpenseSchema.createNewExpense env store new))
         (expenses (snd (ExpenseSchema.createNewExpense env store new)))) /\
  (forall store this data,
      expenseInvariant (fst (ExpenseSchema.update store this data))) /\
  (forall env fastify concept apartmentId date providerNif expense iva paid,
      match fst (ExpenseService.createNewExpense env fastify concept apartmentId
                   date providerNif expense iva paid) with
      | ok doc => expenseInvariant doc
      | err _ => True
      end) /\
  (forall env fastify expenseId expenseData,
      match fst (ExpenseService.updateExpenseById env fastify expenseId
                   expenseData) with
      | ok doc => expenseInvariant doc
      | err _ => True
      end) /\
  expenseTotals Binary64 100%float 21%float = (21%float, 121%float).
Proof.
  assert (Hc : forall env store new,
             expenseInvariant (fst (ExpenseSchema.createNewExpense env store new))).
  { intros env store new. split; reflexivity. }
  assert (Hu : forall store this data,
             expenseInvariant (fst (ExpenseSchema.update store this data))).
  { intros store this data. split; reflexivity. }
  split; [|split; [|split; [|split]]].
  - intros env store new. split; [apply Hc|].
    cbn. apply in_or_app. right. left. reflexivity.
  - exact Hu.
  - intros env fastify concept apartmentId date providerNif expense iva paid.
    unfold ExpenseService.createNewExpense.
    destruct (ExpenseService.validateNew _ _ _ _ _ _ _ _) as [new|e];
      [|exact I].
    specialize (Hc env fastify new).
    destruct (ExpenseSchema.createNewExpense env fastify new) as [doc st].
    exact Hc.
  - intros env fastify expenseId expenseData.
    unfold ExpenseService.updateExpenseById.
    destruct (findById _ _ _) as [expense|]; [|exact I].
    destruct (ExpenseService.buildUpdateData _ _ _) as [updateData|e];
      [|exact I].
    specialize (Hu fastify expense updateData).
    destruct (ExpenseSchema.update fastify expense updateData) as [doc st].
    exact Hu.
  - vm_compute. reflexivity.
Qed.

(* ------------------------------------------------------------------ *)
(** ** The dashboard *)

Lemma sumIncomes_sumOf incomes :
  sumIncomes incomes =
  (sumOf (map Income.totalInvoice incomes), sumOf (map Income.totalIva incomes)).
Proof.
  unfold sumIncomes, sumOf.
  generalize 0%float at 1 3. generalize 0%float.
  induction incomes as [|i l IH]; intros a b; cbn [fold_left map fst snd].
  - reflexivity.
  - apply IH.
Qed.

Lemma sumExpenses_sumOf expenses :
  sumExpenses expenses =
  (sumOf (map Expense.totalInvoice expenses),
   sumOf (map Expense.totalIva expenses)).
Proof.
  unfold sumExpenses, sumOf.
  generalize 0%float at 1 3. generalize 0%float.
  induction expenses as [|e l IH]; intros a b; cbn [fold_left map fst snd].
  - reflexivity.
  - apply IH.
Qed.

(** The two dashboards are settlements of the documents they fetched. *)
Lemma getDashboardData_settles env incomes expenses :
  exists d,
    getDashboardData env (Connected incomes) (Connected expenses) = ok d /\
    isSettlement d incomes expenses /\
    keys d = indexDashboardDocumentSchemaProperties.
Proof.
  unfold getDashboardData.
  cbn [find bindExc ret caught].
  rewrite sumIncomes_sumOf, sumExpenses_sumOf.
  eexists. split; [reflexivity|]. split; [|reflexivity].
  repeat split; reflexivity.
Qed.

Lemma getDashboardByQuarterData_settles env incomes expenses quarter :
  let quarterDates := getQuarterDates env None quarter in
  exists d,
    getDashboardByQuarterData env (Connected incomes) (Connected expenses)
      quarter = ok d /\
    isSettlement d
      (filter (matches incomeNumber (incomesQuery quarterDates)) incomes)
      (filter (matches expenseNumber (expensesQuery quarterDates)) expenses) /\
    keys d = indexDashboardDocumentSchemaProperties.
Proof.
  intros quarterDates. unfold getDashboardByQuarterData.
  cbn [find bindExc ret caught]. fold quarterDates.
  rewrite sumIncomes_sumOf, sumExpenses_sumOf.
  eexists. split; [reflexivity|]. split; [|reflexivity].
  repeat split; reflexivity.
Qed.

(** C1.  Both aggregators return a success value whose [result] is
    [totalIncomes - totalExpenses] and whose [quarterlyVAT] is
    [totalVATQuarterlyIncomes - totalVATQuarterlyExpenses], the totals being
    the sums, from 0 and in fetch order, of the [totalInvoice] and
    [totalIva] fields of the records the aggregator holds (all of them, or
    those the quarter's queries select); with no income, or no expense, the
    corresponding totals are 0 and the value is still a success; an error
    is returned only when a query rejects. *)
Theorem dashboard_settlement :
  (forall env incomes expenses,
      exists d,
        getDashboardData env (Connected incomes) (Connected expenses) = ok d /\
        isSettlement d incomes expenses) /\
  (forall env incomes expenses quarter,
      exists d incomes' expenses',
        getDashboardByQuarterData env (Connected incomes) (Connected expenses)
          quarter = ok d /\
        incl incomes' incomes /\ incl expenses' expenses /\
        isSettlement d incomes' expenses') /\
  (forall env incomes expenses quarter,
      exists d1 d2 d3 d4,
        getDashboardData env (Connected []) (Connected expenses) = ok d1 /\
        get d1 "totalIncomes" = Some (VNumber 0%float) /\
        get d1 "totalVATQuarterlyIncomes" = Some (VNumber 0%float) /\
        getDashboardData env (Connected incomes) (Connected []) = ok d2 /\
        get d2 "totalExpenses" = Some (VNumber 0%float) /\
        get d2 "totalVATQuarterlyExpenses" = Some (VNumber 0%float) /\
        getDashboardByQuarterData env (Connected []) (Connected expenses)
          quarter = ok d3 /\
        get d3 "totalIncomes" = Some (VNumber 0%float) /\
        get d3 "totalVATQuarterlyIncomes" = Some (VNumber 0%float) /\
        getDashboardByQuarterData env (Connected incomes) (Connected [])
          quarter = ok d4 /\
        get d4 "totalExpenses" = Some (VNumber 0%float) /\
        get d4 "totalVATQuarterlyExpenses" = Some (VNumber 0%float)) /\
  (forall env msg incomes expenseModel quarter,
      getDashboardData env (Failing msg) expenseModel
        = err {| code := INTERNAL_SERVER_ERROR; message := msg |} /\
      getDashboardData env (Connected incomes) (Failing msg)
        = err {| code := INTERNAL_SERVER_ERROR; message := msg |} /\
      getDashboardByQuarterData env (Failing msg) expenseModel quarter
        = err {| code := INTERNAL_SERVER_ERROR; message := msg |} /\
      getDashboardByQuarterData env (Connected incomes) (Failing msg) quarter
        = err {| code := INTERNAL_SERVER_ERROR; message := msg |}).
Proof.
  split; [|split; [|split]].
  - intros env incomes expenses.
    destruct (getDashboardData_settles env incomes expenses) as (d & H & S & _).
    exists d. auto.
  - intros env incomes expenses quarter.
    destruct (getDashboardByQuarterData_settles env incomes expenses quarter)
      as (d & H & S & _).
    do 3 eexists. split; [exact H|]. split; [|split; [|exact S]].
    + intros x Hx. apply filter_In in Hx. tauto.
    + intros x Hx. apply filter_In in Hx. tauto.
  - intros env incomes expenses quarter.
    destruct (getDashboardData_settles env [] expenses)
      as (d1 & H1 & (_ & _ & T1 & _ & V1 & _) & _).
    destruct (getDashboardData_settles env incomes [])
      as (d2 & H2 & (_ & _ & _ & T2 & _ & V2 & _) & _).
    destruct (getDashboardByQuarterData_settles env [] expenses quarter)
      as (d3 & H3 & (_ & _ & T3 & _ & V3 & _) & _).
    destruct (getDashboardByQuarterData_settles env incomes [] quarter)
      as (d4 & H4 & (_ & _ & _ & T4 & _ & V4 & _) & _).
    exists d1, d2, d3, d4.
    split; [exact H1|]. split; [exact T1|]. split; [exact V1|].
    split; [exact H2|]. split; [exact T2|]. split; [exact V2|].
    split; [exact H3|]. split; [exact T3|]. split; [exact V3|].
    split; [exact H4|]. split; [exact T4|]. exact V4.
  - intros env msg incomes expenseModel quarter. repeat split.
Qed.

(** C8.  The object [getDashboardByQuarterData] returns has exactly the
    nine properties of the unbounded dashboard: [quarterlyIncomes],
    [quarterlyExpenses], [startOfQuarter] and [endOfQuarter], which the
    route declares for its response, are not in it. *)
Theorem quarterly_dashboard_lacks_quarter_fields :
  forall env incomes expenses quarter,
    exists d,
      getDashboardByQuarterData env (Connected incomes) (Connected expenses)
        quarter = ok d /\
      keys d = indexDashboardDocumentSchemaProperties /\
      get d "quarterlyIncomes" = None /\
      get d "quarterlyExpenses" = None /\
      get d "startOfQuarter" = None /\
      get d "endOfQuarter" = None /\
      incl ["quarterlyIncomes"; "quarterlyExpenses"; "startOfQuarter";
            "endOfQuarter"]%string quarterlyVATDocumentSchemaProperties.
Proof.
  intros env incomes expenses quarter. unfold getDashboardByQuarterData.
  cbn [find bindExc ret caught].
  rewrite sumIncomes_sumOf, sumExpenses_sumOf.
  eexists. split; [reflexivity|].
  repeat (split; [reflexivity|]).
  intros k Hk. cbn in Hk. unfold quarterlyVATDocumentSchemaProperties.
  cbn. intuition auto.
Qed.

(* ------------------------------------------------------------------ *)
(** ** The window of a quarter *)

(** C2 fails as stated: on a host in 2024 the first quarter runs from
    1704067200000 to 1711929599000 (milliseconds), and an income whose
    [checkIn] is exactly the former and an expense whose [date] is exactly
    the latter are both left out. *)
Lemma window_excludes_records_at_bounds :
  exists d,
    getQuarterDates hostUTC None 1 =
      {| startOfQuarter := Some 1704067200000;
         endOfQuarter := Some 1711929599000 |} /\
    getDashboardByQuarterData hostUTC
      (Connected [stay "i1" 1704067200000 1704153600000])
      (Connected [bill "e1" 1711929599000]) 1 = ok d /\
    get d "incomes" = Some (VIncomes []) /\
    get d "expenses" = Some (VExpenses []).
Proof.
  set (r := getDashboardByQuarterData _ _ _ _).
  vm_compute in r. subst r.
  eexists. split; [vm_compute; reflexivity|].
  split; [reflexivity|]. split; reflexivity.
Qed.

(** C2, amended.  Whenever the requested quarter has bounds [start] and
    [end_] (milliseconds), the quarterly dashboard holds exactly the incomes
    whose [checkIn] and the expenses whose [date] lie between [start / 1000]
    and [end_ / 1000], both inclusive: the stored timestamps are seconds.
    An income is selected by its [checkIn] alone.  For the first quarter of
    2024 a record at 1704067200 or at 1711929599 is in, one a millisecond
    earlier or later is out, and an income that arrives before the quarter
    and leaves within it is out. *)
Theorem quarter_window_in_seconds :
  (forall env incomes expenses quarter start end_,
      getQuarterDates env None quarter =
        {| startOfQuarter := Some start; endOfQuarter := Some end_ |} ->
      exists d incomes' expenses',
        getDashboardByQuarterData env (Connected incomes) (Connected expenses)
          quarter = ok d /\
        get d "incomes" = Some (VIncomes incomes') /\
        get d "expenses" = Some (VExpenses expenses') /\
        (forall i, In i incomes' <->
                   In i incomes /\ inWindow start end_ (Income.checkIn i)) /\
        (forall e, In e expenses' <->
                   In e expenses /\ inWindow start end_ (Expense.date e))) /\
  (exists d,
      getDashboardByQuarterData hostUTC
        (Connected
           [ stay "atStart" 1704067200 1704153600;
             stay "atEnd" 1711929599 1712016000;
             stay "before" (1704067199999 / 1000) 1704153600;
             stay "after" (1711929599001 / 1000) 1712016000;
             stay "leavesWithin" 1704000000 1704100000 ])
        (Connected
           [ bill "atStart" 1704067200;
             bill "atEnd" 1711929599;
             bill "before" (1704067199999 / 1000);
             bill "after" (1711929599001 / 1000) ]) 1 = ok d /\
      get d "incomes" =
        Some (VIncomes [ stay "atStart" 1704067200 1704153600;
                         stay "atEnd" 1711929599 1712016000 ]) /\
      get d "expenses" =
        Some (VExpenses [ bill "atStart" 1704067200;
                          bill "atEnd" 1711929599 ])).
Proof.
  split.
  - intros env incomes expenses quarter start end_ Hq.
    destruct (getDashboardByQuarterData_settles env incomes expenses quarter)
      as (d & H & S & _).
    destruct S as (Si & Se & _). rewrite Hq in Si, Se.
    do 3 eexists. split; [exact H|]. split; [exact Si|]. split; [exact Se|].
    split.
    + intros i. rewrite filter_In. unfold matches, inWindow.
      cbn [path gte lte incomesQuery incomeNumber String.eqb Ascii.eqb
           Bool.eqb andb startOfQuarter endOfQuarter toNumber].
      rewrite andb_true_iff. reflexivity.
    + intros e. rewrite filter_In. unfold matches, inWindow.
      cbn [path gte lte expensesQuery expenseNumber String.eqb Ascii.eqb
           Bool.eqb andb startOfQuarter endOfQuarter toNumber].
      rewrite andb_true_iff. reflexivity.
  - set (r := getDashboardByQuarterData _ _ _ _).
    vm_compute in r. subst r.
    eexists. split; [reflexivity|]. split; vm_compute; reflexivity.
Qed.

Lemma quarter_window_in_seconds_witness :
  exists d incomes' expenses',
    getDashboardByQuarterData hostUTC
      (Connected [stay "i1" 1704067200 1704153600])
      (Connected [bill "e1" 1711929600]) 1 = ok d /\
    get d "incomes" = Some (VIncomes incomes') /\
    get d "expenses" = Some (VExpenses expenses') /\
    (forall i, In i incomes' <->
               In i [stay "i1" 1704067200 1704153600] /\
               inWindow 1704067200000 1711929599000 (Income.checkIn i)) /\
    (forall e, In e expenses' <->
               In e [bill "e1" 1711929600] /\
               inWindow 1704067200000 1711929599000 (Expense.date e)).
Proof.
  apply (proj1 quarter_window_in_seconds hostUTC
           [stay "i1" 1704067200 1704153600] [bill "e1" 1711929600] 1
           1704067200000 1711929599000).
  vm_compute. reflexivity.
Defined.

(* ------------------------------------------------------------------ *)
(** ** Validation of the stay *)

(** C7.  A stay whose check-out is not after its check-in is accepted.
    With check-out equal to check-in, [createNewIncome] returns a stored
    income of 0 nights and a total of 0, and [updateIncomeById] stores the
    same dates on an existing income; with check-out five days before
    check-in, [createNewIncome] returns a stored income of -4 nights and a
    negative total. *)
Theorem stay_not_after_arrival_is_accepted :
  (exists doc st,
      IncomeService.createNewIncome hostUTC sampleStore
        (Some apartmentA) (Some intermediaryA) (Some (Rate._id rateA))
        (Some 1718920414%float) (Some 1718920414%float)
        (Some "Ana"%string) (Some "00000000T"%string) (Some "600000000"%string)
        (Some 2%float) (Some 10%float) None = (ok doc, st) /\
      In doc (incomes st) /\
      Income.checkIn doc = 1718920414%float /\
      Income.checkOut doc = 1718920414%float /\
      Income.nights doc = 0%float /\
      Income.totalInvoice doc = 0%float) /\
  (exists doc st,
      IncomeService.createNewIncome hostUTC sampleStore
        (Some apartmentA) (Some intermediaryA) (Some (Rate._id rateA))
        (Some 1719356014%float) (Some 1718920414%float)
        (Some "Ana"%string) (Some "00000000T"%string) (Some "600000000"%string)
        (Some 2%float) (Some 10%float) None = (ok doc, st) /\
      In doc (incomes st) /\
      Income.nights doc = (-4)%float /\
      PrimFloat.ltb (Income.totalInvoice doc) 0%float = true) /\
  (exists doc st,
      IncomeService.updateIncomeById hostUTC bookedStore bookedId
        (datesOnly 1718920414 1718920414) = (ok doc, st) /\
      In doc (incomes st) /\
      Income.checkIn doc = 1718920414%float /\
      Income.checkOut doc = 1718920414%float /\
      Income.nights doc = 0%float).
Proof.
  split; [|split].
  - set (r := IncomeService.createNewIncome _ _ _ _ _ _ _ _ _ _ _ _ _).
    vm_compute in r. subst r.
    do 2 eexists. split; [reflexivity|].
    split; [left; reflexivity|]. repeat split; vm_compute; reflexivity.
  - set (r := IncomeService.createNewIncome _ _ _ _ _ _ _ _ _ _ _ _ _).
    vm_compute in r. subst r.
    do 2 eexists. split; [reflexivity|].
    split; [left; reflexivity|]. repeat split; vm_compute; reflexivity.
  - set (r := IncomeService.updateIncomeById _ _ _ _).
    vm_compute in r. subst r.
    do 2 eexists. split; [reflexivity|].
    split; [left; reflexivity|]. repeat split; vm_compute; reflexivity.
Qed.

(* ------------------------------------------------------------------ *)
(** ** Updates leave falsy fields alone *)

Lemma findById_id {D : Type} (idOf : D -> ObjectId) docs id doc :
  findById idOf docs id = Some doc -> idOf doc = id.
Proof.
  unfold findById. intros H. apply find_some in H. destruct H as [_ H].
  now apply String.eqb_eq.
Qed.

(** A saved document is the one found under its id afterwards. *)
Lemma findById_save {D : Type} (idOf : D -> ObjectId) docs id doc doc' :
  findById idOf docs id = Some doc ->
  idOf doc' = id ->
  findById idOf (save idOf doc' docs) id = Some doc'.
Proof.
  unfold findById, save. intros H Hid. subst id.
  induction docs as [|d l IH]; cbn [List.find map] in *; [discriminate|].
  destruct (String.eqb (idOf d) (idOf doc')) eqn:E.
  - now rewrite String.eqb_refl.
  - rewrite E. apply IH. exact H.
Qed.

Lemma own_keepS old o :
  own (keepS o) old = written (truthyS o) o old.
Proof. unfold keepS, written. now destruct (truthyS o), o. Qed.

Lemma own_keepN old o :
  own (keepN o) old = written (truthyN o) o old.
Proof. unfold keepN, written. now destruct (truthyN o), o. Qed.

Lemma own_keepB old o :
  own (keepB o) old = written (truthyB o) o old.
Proof. unfold keepB, written. now destruct (truthyB o), o. Qed.

Lemma keepS_idem o : keepS (keepS o) = keepS o.
Proof. unfold keepS. destruct (truthyS o) eqn:E; [now rewrite E|reflexivity]. Qed.

Lemma keepN_idem o : keepN (keepN o) = keepN o.
Proof. unfold keepN. destruct (truthyN o) eqn:E; [now rewrite E|reflexivity]. Qed.

Lemma keepB_idem o : keepB (keepB o) = keepB o.
Proof. unfold keepB. destruct (truthyB o) eqn:E; [now rewrite E|reflexivity]. Qed.

Lemma checkExists_keepS ids o c msg :
  checkExists ids (keepS o) c msg = checkExists ids o c msg.
Proof.
  unfold keepS. destruct (truthyS o) eqn:E; [reflexivity|].
  unfold checkExists. destruct o; [|reflexivity]. now rewrite E.
Qed.

Lemma checkDate_keepN env o :
  ExpenseService.checkDate env (keepN o) = ExpenseService.checkDate env o.
Proof.
  unfold keepN. destruct (truthyN o) eqn:E; [reflexivity|].
  unfold ExpenseService.checkDate. destruct o; [|reflexivity]. now rewrite E.
Qed.

Lemma checkRate_keepS fastify o :
  IncomeService.checkRate fastify (keepS o) = IncomeService.checkRate fastify o.
Proof.
  unfold keepS. destruct (truthyS o) eqn:E; [reflexivity|].
  unfold IncomeService.checkRate. destruct o; [|reflexivity]. now rewrite E.
Qed.

Lemma checkStay_keepN env checkIn o :
  IncomeService.checkStay env checkIn (keepN o)
  = IncomeService.checkStay env checkIn o.
Proof.
  unfold keepN. destruct (truthyN o) eqn:E; [reflexivity|].
  unfold IncomeService.checkStay. destruct o; [|reflexivity]. now rewrite E.
Qed.

Lemma keepS_or o (old : option string) :
  match keepS o with Some v => Some v | None => old end
  = (if truthyS o then o else old).
Proof.
  unfold keepS. destruct (truthyS o) eqn:E; [|reflexivity].
  destruct o; [reflexivity|discriminate E].
Qed.

(** What a successful expense update writes, and that a failed one writes
    nothing. *)
Lemma updateExpenseById_frame env fastify expenseId data :
  match ExpenseService.updateExpenseById env fastify expenseId data with
  | (ok doc', fastify') =>
      exists doc,
        findById Expense._id (expenses fastify) expenseId = Some doc /\
        findById Expense._id (expenses fastify') expenseId = Some doc' /\
        expenseFieldsWritten data doc doc'
  | (err _, fastify') => fastify' = fastify
  end.
Proof.
  unfold ExpenseService.updateExpenseById.
  destruct (findById Expense._id (expenses fastify) expenseId) as [doc|] eqn:F;
    [|reflexivity].
  unfold ExpenseService.buildUpdateData.
  destruct (checkExists _ _ _ _) as [[]|e]; cbn [bindRes]; [|reflexivity].
  destruct (ExpenseService.checkDate _ _) as [[]|e]; cbn [bindRes];
    [|reflexivity].
  unfold ExpenseSchema.update.
  cbn [ExpenseSchema.d_apartmentId ExpenseSchema.d_concept ExpenseSchema.d_date
       ExpenseSchema.d_providerNif ExpenseSchema.d_expense ExpenseSchema.d_iva
       ExpenseSchema.d_paid].
  destruct (expenseTotals Binary64 _ _) as [ti tv].
  exists doc. split; [reflexivity|]. split.
  { cbn [expenses].
    apply (findById_save Expense._id _ _ doc); [exact F|].
    cbn [Expense._id]. now apply findById_id in F. }
  unfold expenseFieldsWritten.
  cbn [Expense._id Expense.apartmentId Expense.concept Expense.date
       Expense.providerNif Expense.expense Expense.iva Expense.paid].
  rewrite !own_keepS, !own_keepN, own_keepB, keepS_or.
  repeat split; reflexivity.
Qed.

Lemma updateIncomeById_frame env fastify incomeId data :
  match IncomeService.updateIncomeById env fastify incomeId data with
  | (ok doc', fastify') =>
      exists doc,
        findById Income._id (incomes fastify) incomeId = Some doc /\
        findById Income._id (incomes fastify') incomeId = Some doc' /\
        incomeFieldsWritten data doc doc'
  | (err _, fastify') => fastify' = fastify
  end.
Proof.
  unfold IncomeService.updateIncomeById.
  destruct (findById Income._id (incomes fastify) incomeId) as [doc|] eqn:F;
    [|reflexivity].
  unfold IncomeService.buildUpdateData.
  destruct (checkExists (apartments fastify) _ _ _) as [[]|e]; cbn [bindRes];
    [|reflexivity].
  destruct (checkExists (intermediaries fastify) _ _ _) as [[]|e];
    cbn [bindRes]; [|reflexivity].
  destruct (IncomeService.checkRate _ _) as [[]|e]; cbn [bindRes];
    [|reflexivity].
  destruct (IncomeService.checkStay _ _ _) as [[]|e]; cbn [bindRes];
    [|reflexivity].
  unfold IncomeSchema.update.
  cbn [IncomeSchema.d_apartmentId IncomeSchema.d_intermediaryId
       IncomeSchema.d_rateId IncomeSchema.d_checkIn IncomeSchema.d_checkOut
       IncomeSchema.d_clientName IncomeSchema.d_clientNif
       IncomeSchema.d_clientPhone IncomeSchema.d_numberOfPeople
       IncomeSchema.d_discount IncomeSchema.d_observations].
  destruct (findById Rate._id (rates fastify) _) as [rate|]; [|reflexivity].
  destruct (incomeTotals Binary64 _ _ _ _ _) as [ti tv].
  cbn [ret]. exists doc. split; [reflexivity|]. split.
  { cbn [incomes].
    apply (findById_save Income._id _ _ doc); [exact F|].
    cbn [Income._id]. now apply findById_id in F. }
  unfold incomeFieldsWritten.
  cbn [Income._id Income.apartmentId Income.intermediaryId Income.rateId
       Income.checkIn Income.checkOut Income.clientName Income.clientNif
       Income.clientPhone Income.numberOfPeople Income.discount
       Income.observations].
  rewrite !own_keepS, !own_keepN, keepS_or.
  repeat split; reflexivity.
Qed.

(** C10.  An update through [updateExpenseById] or [updateIncomeById]
    either fails and leaves every collection as it was, or stores a
    document in which each field of the request holds the supplied value
    when that value is truthy and its previous value otherwise (0, NaN,
    the empty text, [false] and a missing property alike); and a request
    gives the same result as the request with its falsy fields removed, so
    that setting the VAT to 0 or marking an expense unpaid is the same as
    supplying nothing.  For an income this holds with [checkIn] left in
    the request. *)
Theorem falsy_update_fields_are_absent :
  (forall env fastify expenseId data,
      match ExpenseService.updateExpenseById env fastify expenseId data with
      | (ok doc', fastify') =>
          exists doc,
            findById Expense._id (expenses fastify) expenseId = Some doc /\
            findById Expense._id (expenses fastify') expenseId = Some doc' /\
            expenseFieldsWritten data doc doc'
      | (err _, fastify') => fastify' = fastify
      end) /\
  (forall env fastify expenseId data,
      ExpenseService.updateExpenseById env fastify expenseId
        (expenseWithoutFalsy data)
      = ExpenseService.updateExpenseById env fastify expenseId data) /\
  (forall env fastify expenseId,
      ExpenseService.updateExpenseById env fastify expenseId zeroVatUnpaid
      = ExpenseService.updateExpenseById env fastify expenseId nothingSupplied) /\
  (forall env fastify incomeId data,
      match IncomeService.updateIncomeById env fastify incomeId data with
      | (ok doc', fastify') =>
          exists doc,
            findById Income._id (incomes fastify) incomeId = Some doc /\
            findById Income._id (incomes fastify') incomeId = Some doc' /\
            incomeFieldsWritten data doc doc'
      | (err _, fastify') => fastify' = fastify
      end) /\
  (forall env fastify incomeId data,
      IncomeService.updateIncomeById env fastify incomeId
        (incomeWithoutFalsy data)
      = IncomeService.updateIncomeById env fastify incomeId data).
Proof.
  split; [exact updateExpenseById_frame|].
  split; [|split; [|split; [exact updateIncomeById_frame|]]].
  - intros env fastify expenseId data.
    unfold ExpenseService.updateExpenseById, ExpenseService.buildUpdateData,
      expenseWithoutFalsy.
    cbn [ExpenseSchema.d_apartmentId ExpenseSchema.d_concept
         ExpenseSchema.d_date ExpenseSchema.d_providerNif
         ExpenseSchema.d_expense ExpenseSchema.d_iva ExpenseSchema.d_paid].
    now rewrite checkExists_keepS, checkDate_keepN, !keepS_idem, !keepN_idem,
      keepB_idem.
  - intros env fastify expenseId. reflexivity.
  - intros env fastify incomeId data.
    unfold IncomeService.updateIncomeById, IncomeService.buildUpdateData,
      incomeWithoutFalsy.
    cbn [IncomeSchema.d_apartmentId IncomeSchema.d_intermediaryId
         IncomeSchema.d_rateId IncomeSchema.d_checkIn IncomeSchema.d_checkOut
         IncomeSchema.d_clientName IncomeSchema.d_clientNif
         IncomeSchema.d_clientPhone IncomeSchema.d_numberOfPeople
         IncomeSchema.d_discount IncomeSchema.d_observations].
    now rewrite !checkExists_keepS, checkRate_keepS, checkStay_keepN,
      !keepS_idem, !keepN_idem.
Qed.

(* ================================================================== *)
(** * Further properties of the code *)

(* ------------------------------------------------------------------ *)
(** ** Months and quarters *)

(** The month read back from any day number is one of the twelve. *)
Lemma civil_month_range day :
  0 <= snd (fst (civilFromDay day)) <= 11.
Proof.
  unfold civilFromDay.
  set (z := day + 719468).
  set (era := z / 146097).
  set (doe := z - era * 146097).
  set (yoe := (doe - doe / 1460 + doe / 36524 - doe / 146096) / 365).
  set (doy := doe - (365 * yoe + yoe / 4 - yoe / 100)).
  set (mp := (5 * doy + 2) / 153).
  cbn [fst snd].
  assert (Hdoe : 0 <= doe <= 146096) by (subst doe era; zdiv).
  assert (Hyoe : 0 <= yoe <= 399) by (subst yoe; zdiv).
  assert (Hdoy : 0 <= doy <= 365) by (subst doy yoe; zdiv).
  assert (Hmp : 0 <= mp <= 11) by (subst mp; zdiv).
  destruct (Z.ltb_spec mp 10); lia.
Qed.

(** X1.  [getCurrentQuarter] answers 1, 2, 3 or 4 on every host and at
    every instant; it has no answer (NaN) only for a truthy date that is
    not a valid moment. *)
Theorem current_quarter_in_range :
  forall env date,
    match getCurrentQuarter env date with
    | Some q => 1 <= q <= 4
    | None =>
        exists d, date = Some d /\ Num.truthy d = true /\
                  moment (ofNumber d) = None
    end.
Proof.
  intros env date. unfold getCurrentQuarter.
  assert (R : forall t, 1 <= MonthFromTime (wall (zone env) t) / 3 + 1 <= 4).
  { intros t. unfold MonthFromTime.
    pose proof (civil_month_range (Day (wall (zone env) t))). zdiv. }
  destruct date as [d|]; [|cbn; apply R].
  destruct (Num.truthy d) eqn:T; [|cbn; apply R].
  destruct (moment (ofNumber d)) as [t|] eqn:M; cbn; [apply R|].
  exists d. auto.
Qed.

(** A day between the first of a month and the day before the first of
    the third month after it falls in one of the three months. *)
Lemma month_within_quarter y m D :
  0 <= m <= 9 ->
  MakeDay y m 1 <= D < MakeDay y (m + 3) 1 ->
  m <= snd (fst (civilFromDay D)) <= m + 2.
Proof.
  intros Hm HD.
  pose proof (MakeDay_next_month y m ltac:(lia)) as H0.
  pose proof (MakeDay_next_month y (m + 1) ltac:(lia)) as H1.
  pose proof (MakeDay_next_month y (m + 2) ltac:(lia)) as H2.
  replace (m + 1 + 1) with (m + 2) in * by lia.
  replace (m + 2 + 1) with (m + 3) in * by lia.
  pose proof (daysInMonth_pos (InLeapYear y) m) as P0.
  pose proof (daysInMonth_pos (InLeapYear y) (m + 1)) as P1.
  pose proof (daysInMonth_pos (InLeapYear y) (m + 2)) as P2.
  assert (S : forall k d, MakeDay y k d = MakeDay y k 1 + d - 1)
    by (intros; unfold MakeDay; lia).
  rewrite (S m (daysInMonth _ _)) in H0.
  rewrite (S (m + 1) (daysInMonth _ _)) in H1.
  rewrite (S (m + 2) (daysInMonth _ _)) in H2.
  destruct (Z.lt_ge_cases D (MakeDay y (m + 1) 1)) as [L1|G1].
  - replace D with (MakeDay y m (D - MakeDay y m 1 + 1))
      by (rewrite (S m (D - _ + 1)); lia).
    rewrite civil_MakeDay by lia. cbn [fst snd]. lia.
  - destruct (Z.lt_ge_cases D (MakeDay y (m + 2) 1)) as [L2|G2].
    + replace D with (MakeDay y (m + 1) (D - MakeDay y (m + 1) 1 + 1))
        by (rewrite (S (m + 1) (D - _ + 1)); lia).
      rewrite civil_MakeDay by lia. cbn [fst snd]. lia.
    + replace D with (MakeDay y (m + 2) (D - MakeDay y (m + 2) 1 + 1))
        by (rewrite (S (m + 2) (D - _ + 1)); lia).
      rewrite civil_MakeDay by lia. cbn [fst snd]. lia.
Qed.

(** X2.  On a host on UTC, every instant between the two bounds that
    [getQuarterDates] returns for a year and a quarter is an instant of
    that quarter for [getCurrentQuarter]. *)
Theorem instant_within_bounds_is_in_quarter :
  forall env year quarter start end_ d t,
    zone env = UTC ->
    1 <= year <= 275759 -> 1 <= quarter <= 4 ->
    getQuarterDates env (Some year) quarter =
      {| startOfQuarter := Some start; endOfQuarter := Some end_ |} ->
    Num.truthy d = true ->
    moment (ofNumber d) = Some t ->
    start <= t <= end_ ->
    getCurrentQuarter env (Some d) = Some quarter.
Proof.
  intros env year quarter start end_ d t Hz Hy Hq HQ Td Md Ht.
  rewrite getQuarterDates_explicit in HQ by assumption.
  injection HQ as <- <-.
  unfold getCurrentQuarter. rewrite Td, Md, Hz.
  unfold month, option_map, wall. cbn [UTC fixedZone utcOffset].
  replace (t + 0 * msPerMinute) with t by lia.
  f_equal. unfold MonthFromTime.
  set (m := (quarter - 1) * 3) in *.
  assert (Hm : 0 <= m <= 9) by (subst m; lia).
  assert (HD : MakeDay year m 1 <= Day t < MakeDay year (m + 3) 1).
  { unfold dateUTC in Ht. unfold Day. unfold msPerDay in *. zdiv. }
  pose proof (month_within_quarter year m (Day t) Hm HD) as Hr.
  subst m. zdiv.
Qed.

Lemma instant_within_bounds_is_in_quarter_witness :
  getCurrentQuarter hostUTC (Some 1713799590000%float) = Some 2.
Proof.
  apply (instant_within_bounds_is_in_quarter hostUTC 2024 2
           1711929600000 1719791999000 1713799590000%float 1713799590000).
  - reflexivity.
  - lia.
  - lia.
  - vm_compute. reflexivity.
  - vm_compute. reflexivity.
  - vm_compute. reflexivity.
  - lia.
Defined.

(* ------------------------------------------------------------------ *)
(** ** Nights on a host with a fixed offset *)

(** X3.  On a host with a fixed offset, [calculateDaysDifference] is the
    difference of the local day numbers of check-out and check-in when the
    check-out day is not before the check-in day, and that difference plus
    one when it is: a check-out on the day before the check-in gives 0,
    not -1. *)
Theorem nights_day_difference :
  forall env minutes a b,
    zone env = fixedZone minutes ->
    calculateDaysDifference env (ofMoment (Some a)) (ofMoment (Some b)) =
    Some (if Day (a + minutes * msPerMinute) <=? Day (b + minutes * msPerMinute)
          then Day (b + minutes * msPerMinute) - Day (a + minutes * msPerMinute)
          else Day (b + minutes * msPerMinute) - Day (a + minutes * msPerMinute)
               + 1).
Proof.
  intros env minutes a b Hz.
  rewrite (nights_fixed_zone env minutes) by assumption. f_equal.
  set (da := Day (a + minutes * msPerMinute)).
  set (db := Day (b + minutes * msPerMinute)).
  unfold msPerDay.
  destruct (Z.leb_spec da db); Z.to_euclidean_division_equations; nia.
Qed.

Lemma nights_day_difference_witness :
  calculateDaysDifference hostUTC (ofMoment (Some 1719356014000))
                          (ofMoment (Some 1718920414000)) =
  Some (if Day (1719356014000 + 0 * msPerMinute)
           <=? Day (1718920414000 + 0 * msPerMinute)
        then Day (1718920414000 + 0 * msPerMinute)
             - Day (1719356014000 + 0 * msPerMinute)
        else Day (1718920414000 + 0 * msPerMinute)
             - Day (1719356014000 + 0 * msPerMinute) + 1).
Proof.
  apply (nights_day_difference hostUTC 0 1719356014000 1718920414000).
  reflexivity.
Defined.

(** X4.  On a host with a fixed offset the nights never shrink when the
    stay is widened: an earlier or equal check-in together with a later or
    equal check-out gives at least as many nights. *)
Theorem nights_grow_with_the_stay :
  forall env minutes a a' b b' n n',
    zone env = fixedZone minutes ->
    a' <= a -> b <= b' ->
    calculateDaysDifference env (ofMoment (Some a)) (ofMoment (Some b))
      = Some n ->
    calculateDaysDifference env (ofMoment (Some a')) (ofMoment (Some b'))
      = Some n' ->
    n <= n'.
Proof.
  intros env minutes a a' b b' n n' Hz Ha Hb.
  rewrite !(nights_fixed_zone env minutes) by assumption.
  intros [= <-] [= <-].
  apply Z.quot_le_mono; [unfold msPerDay; lia|].
  assert (Day (b + minutes * msPerMinute) <= Day (b' + minutes * msPerMinute)).
  { unfold Day. apply Z.div_le_mono; [unfold msPerDay|]; lia. }
  assert (Day (a' + minutes * msPerMinute) <= Day (a + minutes * msPerMinute)).
  { unfold Day. apply Z.div_le_mono; [unfold msPerDay|]; lia. }
  unfold msPerDay. nia.
Qed.

Lemma nights_grow_with_the_stay_witness : 5 <= 7.
Proof.
  apply (nights_grow_with_the_stay hostUTC 0
           1718920414000 1718834014000 1719356014000 1719442414000).
  - reflexivity.
  - lia.
  - lia.
  - vm_compute. reflexivity.
  - vm_compute. reflexivity.
Defined.

(** X5.  On a host with a fixed offset, the nights the income schema
    computes, which normalises check-in and check-out to the start and the
    end of their days before handing them to [calculateDaysDifference], are
    those of the two instants themselves. *)
Theorem schema_nights_are_day_difference :
  forall env minutes checkIn checkOut a b,
    zone env = fixedZone minutes ->
    moment (ofNumber (PrimFloat.mul checkIn 1000%float)) = Some a ->
    moment (ofNumber (PrimFloat.mul checkOut 1000%float)) = Some b ->
    IncomeSchema.nightsOf env checkIn checkOut =
    calculateDaysDifference env (ofMoment (Some a)) (ofMoment (Some b)).
Proof.
  intros env minutes checkIn checkOut a b Hz Ha Hb.
  unfold IncomeSchema.nightsOf. rewrite Ha, Hb, Hz.
  cbn [startOfDay endOfDay option_map].
  rewrite !(nights_fixed_zone _ minutes) by assumption.
  unfold wall. cbn [fixedZone utcOffset fromLocal].
  assert (E : forall D, Day (D * msPerDay - minutes * msPerMinute
                              + minutes * msPerMinute) = D)
    by (intros D; unfold Day, msPerDay; zdiv).
  assert (E' : forall D, Day ((D + 1) * msPerDay - minutes * msPerMinute - 1
                               + minutes * msPerMinute) = D)
    by (intros D; unfold Day, msPerDay; zdiv).
  now rewrite E, E'.
Qed.

Lemma schema_nights_are_day_difference_witness :
  IncomeSchema.nightsOf hostUTC 1718920414%float 1719179614%float =
  calculateDaysDifference hostUTC (ofMoment (Some 1718920414000))
                          (ofMoment (Some 1719179614000)).
Proof.
  apply (schema_nights_are_day_difference hostUTC 0).
  - reflexivity.
  - vm_compute. reflexivity.
  - vm_compute. reflexivity.
Defined.

(* ------------------------------------------------------------------ *)
(** ** Creating and updating incomes *)

Lemma requireS_ok o msg s :
  requireS o msg = ok s -> o = Some s /\ truthyS o = true.
Proof.
  unfold requireS, bad. destruct o as [x|]; [|discriminate].
  destruct (truthyS (Some x)) eqn:T; [|discriminate].
  intros [= ->]. auto.
Qed.

Lemma requireN_ok o msg x :
  requireN o msg = ok x -> o = Some x /\ truthyN o = true.
Proof.
  unfold requireN, bad. destruct o as [y|]; [|discriminate].
  destruct (truthyN (Some y)) eqn:T; [|discriminate].
  intros [= ->]. auto.
Qed.

Lemma checkExists_ok ids id c msg :
  truthyS (Some id) = true ->
  checkExists ids (Some id) c msg = ok tt -> hasId ids id = true.
Proof.
  unfold checkExists, bad. intros ->. cbn [andb].
  destruct (hasId ids id); [reflexivity|discriminate].
Qed.

(** X6.  [createNewIncome] either fails and leaves every collection as it
    was, or appends one income, under the id the driver hands out, that
    refers to an existing apartment, an existing intermediary and an
    existing rate of that same apartment, whose check-in, check-out and
    number of people are truthy and whose client name, NIF and phone are
    not empty; the other collections are as they were. *)
Theorem created_income_is_well_referenced :
  forall env fastify apartmentId intermediaryId rateId checkIn checkOut
         clientName clientNif clientPhone numberOfPeople discount observations,
    match IncomeService.createNewIncome env fastify apartmentId intermediaryId
            rateId checkIn checkOut clientName clientNif clientPhone
            numberOfPeople discount observations with
    | (ok doc, fastify') =>
        Income._id doc = newId env /\
        hasId (apartments fastify) (Income.apartmentId doc) = true /\
        hasId (intermediaries fastify) (Income.intermediaryId doc) = true /\
        (exists rate,
            findById Rate._id (rates fastify) (Income.rateId doc) = Some rate /\
            Rate.apartmentId rate = Income.apartmentId doc) /\
        Num.truthy (Income.checkIn doc) = true /\
        Num.truthy (Income.checkOut doc) = true /\
        Num.truthy (Income.numberOfPeople doc) = true /\
        Income.clientName doc <> EmptyString /\
        Income.clientNif doc <> EmptyString /\
        Income.clientPhone doc <> EmptyString /\
        incomes fastify' = incomes fastify ++ [doc] /\
        apartments fastify' = apartments fastify /\
        intermediaries fastify' = intermediaries fastify /\
        rates fastify' = rates fastify /\
        expenses fastify' = expenses fastify
    | (err _, fastify') => fastify' = fastify
    end.
Proof.
  intros. unfold IncomeService.createNewIncome, IncomeService.validateNew.
  destruct (requireS apartmentId _) as [a|] eqn:Ra; cbn [bindRes];
    [|reflexivity].
  apply requireS_ok in Ra. destruct Ra as [-> Ta].
  destruct (checkExists (apartments fastify) _ _ _) as [[]|] eqn:Ca;
    cbn [bindRes]; [|reflexivity].
  apply (checkExists_ok _ _ _ _ Ta) in Ca.
  destruct (requireS intermediaryId _) as [i|] eqn:Ri; cbn [bindRes];
    [|reflexivity].
  apply requireS_ok in Ri. destruct Ri as [-> Ti].
  destruct (checkExists (intermediaries fastify) _ _ _) as [[]|] eqn:Ci;
    cbn [bindRes]; [|reflexivity].
  apply (checkExists_ok _ _ _ _ Ti) in Ci.
  destruct (requireS rateId _) as [r|] eqn:Rr; cbn [bindRes]; [|reflexivity].
  apply requireS_ok in Rr. destruct Rr as [-> Tr].
  destruct (findById Rate._id (rates fastify) r) as [rate|] eqn:Fr;
    cbn [bindRes]; [|reflexivity].
  destruct (String.eqb (Rate.apartmentId rate) a) eqn:Era; cbn [negb bindRes];
    [|reflexivity].
  apply String.eqb_eq in Era.
  destruct (requireN checkIn _) as [ci|] eqn:Rci; cbn [bindRes]; [|reflexivity].
  apply requireN_ok in Rci. destruct Rci as [-> Tci].
  destruct (requireN checkOut _) as [co|] eqn:Rco; cbn [bindRes];
    [|reflexivity].
  apply requireN_ok in Rco. destruct Rco as [-> Tco].
  destruct (IncomeService.startsAfterEnd _ _ _); cbn [bindRes]; [reflexivity|].
  destruct (requireS clientName _) as [cn|] eqn:Rcn; cbn [bindRes];
    [|reflexivity].
  apply requireS_ok in Rcn. destruct Rcn as [-> Tcn].
  destruct (requireS clientNif _) as [cf|] eqn:Rcf; cbn [bindRes];
    [|reflexivity].
  apply requireS_ok in Rcf. destruct Rcf as [-> Tcf].
  destruct (requireS clientPhone _) as [cp|] eqn:Rcp; cbn [bindRes];
    [|reflexivity].
  apply requireS_ok in Rcp. destruct Rcp as [-> Tcp].
  destruct (requireN numberOfPeople _) as [n|] eqn:Rn; cbn [bindRes];
    [|reflexivity].
  apply requireN_ok in Rn. destruct Rn as [-> Tn].
  unfold IncomeSchema.createNewIncome.
  cbn [IncomeSchema.rateId]. rewrite Fr.
  destruct (incomeTotals Binary64 _ _ _ _ _) as [ti tv].
  cbn [ret Income._id Income.apartmentId Income.intermediaryId Income.rateId
       Income.checkIn Income.checkOut Income.numberOfPeople Income.clientName
       Income.clientNif Income.clientPhone incomes apartments intermediaries
       rates expenses IncomeSchema.apartmentId IncomeSchema.intermediaryId
       IncomeSchema.rateId IncomeSchema.checkIn IncomeSchema.checkOut
       IncomeSchema.clientName IncomeSchema.clientNif IncomeSchema.clientPhone
       IncomeSchema.numberOfPeople].
  assert (NE : forall s, truthyS (Some s) = true -> s <> EmptyString).
  { intros s T ->. discriminate T. }
  split; [reflexivity|]. split; [exact Ca|]. split; [exact Ci|].
  split; [exists rate; auto|].
  split; [exact Tci|]. split; [exact Tco|]. split; [exact Tn|].
  split; [now apply NE|]. split; [now apply NE|]. split; [now apply NE|].
  repeat split; reflexivity.
Qed.

(** X7.  An income update that supplies a truthy [rateId] never succeeds
    and changes nothing: the id of no income gives "not found"; failing
    that, a missing apartment or intermediary gives "not found"; failing
    that, a missing rate gives "not found" and an existing rate gives an
    internal error, because the comparison of the rate's apartment reads a
    name that the function does not bind. *)
Theorem update_with_rate_never_succeeds :
  forall env fastify incomeId data,
    truthyS (IncomeSchema.d_rateId data) = true ->
    exists e,
      IncomeService.updateIncomeById env fastify incomeId data
        = (err e, fastify) /\
      (code e = NOT_FOUND \/
       code e = INTERNAL_SERVER_ERROR /\
       message e = "apartmentId is not defined"%string /\
       exists rate id,
         IncomeSchema.d_rateId data = Some id /\
         findById Rate._id (rates fastify) id = Some rate).
Proof.
  intros env fastify incomeId data T.
  unfold IncomeService.updateIncomeById.
  destruct (findById Income._id (incomes fastify) incomeId) as [income|].
  2:{ eexists. split; [reflexivity|]. left. reflexivity. }
  unfold IncomeService.buildUpdateData.
  assert (CE : forall ids o msg,
             (exists e, checkExists ids o NOT_FOUND msg = err e
                        /\ code e = NOT_FOUND)
             \/ checkExists ids o NOT_FOUND msg = ok tt).
  { intros ids o msg. unfold checkExists, bad. destruct o as [id|]; [|now right].
    destruct (truthyS (Some id) && negb (hasId ids id)); [left|now right].
    eexists. split; reflexivity. }
  destruct (CE (apartments fastify) (IncomeSchema.d_apartmentId data)
               (fun id => "Apartment " ++ id
                          ++ " not found for the income to update")%string)
    as [(e & -> & He)| ->]; cbn [bindRes].
  { exists e. split; [reflexivity|]. now left. }
  destruct (CE (intermediaries fastify) (IncomeSchema.d_intermediaryId data)
               (fun id => "Intermediary " ++ id
                          ++ " not found for the income to update")%string)
    as [(e & -> & He)| ->]; cbn [bindRes].
  { exists e. split; [reflexivity|]. now left. }
  unfold IncomeService.checkRate.
  destruct (IncomeSchema.d_rateId data) as [id|] eqn:R; [|discriminate T].
  rewrite T.
  destruct (findById Rate._id (rates fastify) id) as [rate|] eqn:Fr;
    cbn [bindRes bad].
  - eexists. split; [reflexivity|]. right. cbn [code message].
    split; [reflexivity|]. split; [reflexivity|]. exists rate, id. auto.
  - eexists. split; [reflexivity|]. left. reflexivity.
Qed.

Lemma update_with_rate_never_succeeds_witness :
  exists e,
    IncomeService.updateIncomeById hostUTC bookedStore bookedId
      {| IncomeSchema.d_apartmentId := None;
         IncomeSchema.d_intermediaryId := None;
         IncomeSchema.d_rateId := Some (Rate._id rateA);
         IncomeSchema.d_checkIn := None;
         IncomeSchema.d_checkOut := None;
         IncomeSchema.d_clientName := None;
         IncomeSchema.d_clientNif := None;
         IncomeSchema.d_clientPhone := None;
         IncomeSchema.d_numberOfPeople := None;
         IncomeSchema.d_discount := None;
         IncomeSchema.d_observations := None |}
      = (err e, bookedStore) /\
    (code e = NOT_FOUND \/
     code e = INTERNAL_SERVER_ERROR /\
     message e = "apartmentId is not defined"%string /\
     exists rate id,
       Some (Rate._id rateA) = Some id /\
       findById Rate._id (rates bookedStore) id = Some rate).
Proof.
  apply (update_with_rate_never_succeeds hostUTC bookedStore bookedId).
  reflexivity.
Defined.

(* ------------------------------------------------------------------ *)
(** ** Documents other than the one written *)

Lemma findById_save_other {D : Type} (idOf : D -> ObjectId) docs doc' id' :
  idOf doc' <> id' ->
  findById idOf (save idOf doc' docs) id' = findById idOf docs id'.
Proof.
  unfold findById, save. intros Hne.
  induction docs as [|d l IH]; cbn [List.find map]; [reflexivity|].
  destruct (String.eqb (idOf d) (idOf doc')) eqn:E.
  - apply String.eqb_eq in E.
    replace (String.eqb (idOf doc') id') with false
      by (symmetry; now apply String.eqb_neq).
    replace (String.eqb (idOf d) id') with false
      by (symmetry; apply String.eqb_neq; congruence).
    exact IH.
  - destruct (String.eqb (idOf d) id'); [reflexivity|exact IH].
Qed.

Lemma save_length {D : Type} (idOf : D -> ObjectId) doc (docs : list D) :
  List.length (save idOf doc docs) = List.length docs.
Proof. unfold save. apply length_map. Qed.

(** X8.  A successful update through either service keeps the number of
    documents of its collection, leaves every document under another id
    as it was, and leaves the other collections as they were. *)
Theorem update_touches_one_document :
  (forall env fastify expenseId data,
      match ExpenseService.updateExpenseById env fastify expenseId data with
      | (ok _, fastify') =>
          List.length (expenses fastify') = List.length (expenses fastify) /\
          (forall id, id <> expenseId ->
                      findById Expense._id (expenses fastify') id
                      = findById Expense._id (expenses fastify) id) /\
          apartments fastify' = apartments fastify /\
          intermediaries fastify' = intermediaries fastify /\
          rates fastify' = rates fastify /\
          incomes fastify' = incomes fastify
      | (err _, fastify') => fastify' = fastify
      end) /\
  (forall env fastify incomeId data,
      match IncomeService.updateIncomeById env fastify incomeId data with
      | (ok _, fastify') =>
          List.length (incomes fastify') = List.length (incomes fastify) /\
          (forall id, id <> incomeId ->
                      findById Income._id (incomes fastify') id
                      = findById Income._id (incomes fastify) id) /\
          apartments fastify' = apartments fastify /\
          intermediaries fastify' = intermediaries fastify /\
          rates fastify' = rates fastify /\
          expenses fastify' = expenses fastify
      | (err _, fastify') => fastify' = fastify
      end).
Proof.
  split.
  - intros env fastify expenseId data.
    unfold ExpenseService.updateExpenseById.
    destruct (findById Expense._id (expenses fastify) expenseId) as [doc|] eqn:F;
      [|reflexivity].
    destruct (ExpenseService.buildUpdateData _ _ _) as [ud|e]; [|reflexivity].
    unfold ExpenseSchema.update.
    destruct (expenseTotals Binary64 _ _) as [ti tv].
    cbn [expenses apartments intermediaries rates incomes].
    split; [apply save_length|]. split; [|repeat split; reflexivity].
    intros id Hid. apply findById_save_other. cbn [Expense._id].
    apply findById_id in F. congruence.
  - intros env fastify incomeId data.
    unfold IncomeService.updateIncomeById.
    destruct (findById Income._id (incomes fastify) incomeId) as [doc|] eqn:F;
      [|reflexivity].
    destruct (IncomeService.buildUpdateData _ _ _) as [ud|e]; [|reflexivity].
    unfold IncomeSchema.update.
    destruct (findById Rate._id (rates fastify) _) as [rate|]; [|reflexivity].
    destruct (incomeTotals Binary64 _ _ _ _ _) as [ti tv].
    cbn [ret expenses apartments intermediaries rates incomes].
    split; [apply save_length|]. split; [|repeat split; reflexivity].
    intros id Hid. apply findById_save_other. cbn [Income._id].
    apply findById_id in F. congruence.
Qed.

(* ------------------------------------------------------------------ *)
(** ** Creating, reading and deleting expenses *)

(** X9.  [createNewExpense] succeeds exactly when the concept, the
    apartment id and the provider NIF are not empty, the date, the amount
    and the VAT are truthy, and the date is not after the end of today:
    an amount of 0 or a VAT of 0 is refused, and whether the apartment
    exists plays no part.  Every refusal is a bad request and leaves the
    store as it was. *)
Theorem expense_creation_is_accepted_iff :
  forall env fastify concept apartmentId date providerNif expense iva paid,
    isOk (fst (ExpenseService.createNewExpense env fastify concept apartmentId
                 date providerNif expense iva paid))
    = truthyS concept && truthyS apartmentId && truthyN date
      && negb (match date with
               | Some d => ExpenseService.afterToday env d
               | None => false
               end)
      && truthyS providerNif && truthyN expense && truthyN iva /\
    match ExpenseService.createNewExpense env fastify concept apartmentId
            date providerNif expense iva paid with
    | (ok _, _) => True
    | (err e, fastify') => code e = BAD_REQUEST /\ fastify' = fastify
    end.
Proof.
  intros. unfold ExpenseService.createNewExpense, ExpenseService.validateNew.
  assert (RS : forall o msg,
             (truthyS o = true /\ exists s, o = Some s /\ requireS o msg = ok s)
             \/ (truthyS o = false /\ requireS o msg = bad BAD_REQUEST msg)).
  { intros o msg. unfold requireS. destruct o as [s|]; [|now right].
    destruct (truthyS (Some s)) eqn:T; [left|now right]. eauto. }
  assert (RN : forall o msg,
             (truthyN o = true /\ exists x, o = Some x /\ requireN o msg = ok x)
             \/ (truthyN o = false /\ requireN o msg = bad BAD_REQUEST msg)).
  { intros o msg. unfold requireN. destruct o as [x|]; [|now right].
    destruct (truthyN (Some x)) eqn:T; [left|now right]. eauto. }
  destruct (RS concept "Missing concept for the expense"%string)
    as [(-> & c & -> & ->)|(-> & ->)]; cbn [bindRes bad fst isOk andb code];
    [|auto].
  destruct (RS apartmentId "Missing apartment ID for the expense"%string)
    as [(-> & a & -> & ->)|(-> & ->)]; cbn [bindRes bad fst isOk andb code];
    [|auto].
  destruct (RN date "Missing date per night for the expense"%string)
    as [(Td & d & -> & ->)|(-> & ->)]; cbn [bindRes bad fst isOk andb code];
    [|auto].
  rewrite Td. unfold ExpenseService.checkDate. rewrite Td. cbn [andb].
  destruct (ExpenseService.afterToday env d);
    cbn [bindRes bad fst isOk andb negb code]; [auto|].
  destruct (RS providerNif "Missing providerNif for the expense"%string)
    as [(-> & p & -> & ->)|(-> & ->)]; cbn [bindRes bad fst isOk andb code];
    [|auto].
  destruct (RN expense "Missing expense for the expense"%string)
    as [(-> & x & -> & ->)|(-> & ->)]; cbn [bindRes bad fst isOk andb code];
    [|auto].
  destruct (RN iva "Missing VAT (% IVA) for the expense"%string)
    as [(-> & v & -> & ->)|(-> & ->)]; cbn [bindRes bad fst isOk andb code];
    [|auto].
  destruct (ExpenseSchema.createNewExpense _ _ _) as [doc st].
  cbn [fst isOk]. auto.
Qed.

Lemma findById_app_fresh {D : Type} (idOf : D -> ObjectId) docs doc :
  findById idOf docs (idOf doc) = None ->
  findById idOf (docs ++ [doc]) (idOf doc) = Some doc.
Proof.
  unfold findById. intros H.
  induction docs as [|d l IH]; cbn [List.find app] in *.
  - now rewrite String.eqb_refl.
  - destruct (String.eqb (idOf d) (idOf doc)); [discriminate|]. now apply IH.
Qed.

(** A created income is appended under the id the driver hands out. *)
Lemma createNewIncome_appends env fastify apartmentId intermediaryId rateId
  checkIn checkOut clientName clientNif clientPhone numberOfPeople discount
  observations doc fastify' :
  IncomeService.createNewIncome env fastify apartmentId intermediaryId rateId
    checkIn checkOut clientName clientNif clientPhone numberOfPeople discount
    observations = (ok doc, fastify') ->
  Income._id doc = newId env /\ incomes fastify' = incomes fastify ++ [doc].
Proof.
  unfold IncomeService.createNewIncome. intros H.
  destruct (IncomeService.validateNew _ _ _ _ _ _ _ _ _ _ _ _ _) as [new|e];
    [|discriminate].
  unfold IncomeSchema.createNewIncome in H.
  destruct (findById Rate._id (rates fastify) _) as [rate|]; [|discriminate].
  destruct (incomeTotals Binary64 _ _ _ _ _) as [ti tv].
  cbn [ret] in H. injection H as <- <-. split; reflexivity.
Qed.

(** X10.  A document that a service has just created under an id no
    document of the collection had is the one read back under that id,
    for an expense and for an income. *)
Theorem created_document_is_read_back :
  (forall env fastify concept apartmentId date providerNif expense iva paid
          doc fastify',
      findById Expense._id (expenses fastify) (newId env) = None ->
      ExpenseService.createNewExpense env fastify concept apartmentId date
        providerNif expense iva paid = (ok doc, fastify') ->
      Lookup.getExpenseById (Connected (expenses fastify')) (newId env) = ok doc) /\
  (forall env fastify apartmentId intermediaryId rateId checkIn checkOut
          clientName clientNif clientPhone numberOfPeople discount observations
          doc fastify',
      findById Income._id (incomes fastify) (newId env) = None ->
      IncomeService.createNewIncome env fastify apartmentId intermediaryId
        rateId checkIn checkOut clientName clientNif clientPhone
        numberOfPeople discount observations = (ok doc, fastify') ->
      Lookup.getIncomeById (Connected (incomes fastify')) (newId env) = ok doc).
Proof.
  split.
  - intros env fastify concept apartmentId date providerNif expense iva paid
           doc fastify' Fresh H.
    unfold ExpenseService.createNewExpense in H.
    destruct (ExpenseService.validateNew _ _ _ _ _ _ _ _) as [new|e];
      [|discriminate].
    unfold ExpenseSchema.createNewExpense in H.
    destruct (expenseTotals Binary64 _ _) as [ti tv].
    injection H as <- <-.
    unfold Lookup.getExpenseById, Lookup.getById. cbn [expenses].
    match goal with
    | |- context [findById _ (_ ++ [?d]) _] =>
        change (newId env) with (Expense._id d);
        rewrite findById_app_fresh by exact Fresh
    end.
    reflexivity.
  - intros env fastify apartmentId intermediaryId rateId checkIn checkOut
           clientName clientNif clientPhone numberOfPeople discount observations
           doc fastify' Fresh H.
    apply createNewIncome_appends in H. destruct H as [Hid Hi].
    unfold Lookup.getIncomeById, Lookup.getById. rewrite Hi, <- Hid.
    rewrite findById_app_fresh by (rewrite Hid; exact Fresh).
    reflexivity.
Qed.

Lemma created_document_is_read_back_witness :
  match ExpenseService.createNewExpense hostUTC sampleStore
          (Some "Cleaning"%string) (Some apartmentA)
          (Some 1718000000000%float) (Some "B00000000"%string)
          (Some 100%float) (Some 21%float) None with
  | (ok doc, fastify') =>
      Lookup.getExpenseById (Connected (expenses fastify')) (newId hostUTC)
        = ok doc
  | (err _, _) => False
  end.
Proof.
  destruct (ExpenseService.createNewExpense hostUTC sampleStore
              (Some "Cleaning"%string) (Some apartmentA)
              (Some 1718000000000%float) (Some "B00000000"%string)
              (Some 100%float) (Some 21%float) None)
    as [[doc|e] fastify'] eqn:E.
  - apply (proj1 created_document_is_read_back hostUTC sampleStore _ _ _ _ _ _
             _ doc fastify' eq_refl E).
  - vm_compute in E. discriminate E.
Defined.

Lemma deleteOne_other {D : Type} (idOf : D -> ObjectId) docs id id' :
  id' <> id ->
  findById idOf (Lookup.deleteOne idOf id docs) id' = findById idOf docs id'.
Proof.
  unfold findById. intros Hne.
  induction docs as [|d l IH]; cbn [List.find Lookup.deleteOne];
    [reflexivity|].
  destruct (String.eqb (idOf d) id) eqn:E.
  - apply String.eqb_eq in E.
    replace (String.eqb (idOf d) id') with false
      by (symmetry; apply String.eqb_neq; congruence).
    reflexivity.
  - cbn [List.find]. destruct (String.eqb (idOf d) id'); [reflexivity|exact IH].
Qed.

Lemma deleteOne_length {D : Type} (idOf : D -> ObjectId) docs id doc :
  findById idOf docs id = Some doc ->
  S (List.length (Lookup.deleteOne idOf id docs)) = List.length docs.
Proof.
  unfold findById.
  induction docs as [|d l IH]; cbn [List.find Lookup.deleteOne List.length];
    [discriminate|].
  destruct (String.eqb (idOf d) id); [reflexivity|].
  intros H. cbn [List.length]. f_equal. now apply IH.
Qed.

Lemma deleteOne_unique {D : Type} (idOf : D -> ObjectId) docs id :
  NoDup (map idOf docs) ->
  findById idOf (Lookup.deleteOne idOf id docs) id = None.
Proof.
  unfold findById. intros ND.
  induction docs as [|d l IH]; cbn [List.find Lookup.deleteOne map] in *;
    [reflexivity|].
  inversion ND as [|x xs Hnotin ND' E]; subst.
  destruct (String.eqb (idOf d) id) eqn:E.
  - apply String.eqb_eq in E. subst id.
    destruct (List.find (fun d0 => String.eqb (idOf d0) (idOf d)) l) as [d'|] eqn:F;
      [|reflexivity].
    apply find_some in F. destruct F as [Hin Heq].
    apply String.eqb_eq in Heq. exfalso. apply Hnotin.
    rewrite <- Heq. now apply in_map.
  - cbn [List.find]. rewrite E. now apply IH.
Qed.

(** X11.  [deleteExpenseById] answers "not found" and changes nothing when
    no expense has the id; otherwise it answers the id, removes exactly one
    expense, leaves the expenses under every other id and all the other
    collections as they were, and, the ids of the collection being
    distinct, the expense can no longer be read. *)
Theorem expense_deletion :
  forall fastify expenseId,
    match Lookup.deleteExpenseById fastify expenseId with
    | (ok id, fastify') =>
        id = expenseId /\
        S (List.length (expenses fastify')) = List.length (expenses fastify) /\
        (forall id', id' <> expenseId ->
                     findById Expense._id (expenses fastify') id'
                     = findById Expense._id (expenses fastify) id') /\
        (NoDup (map Expense._id (expenses fastify)) ->
         exists e,
           Lookup.getExpenseById (Connected (expenses fastify')) expenseId
             = err e /\ code e = NOT_FOUND) /\
        apartments fastify' = apartments fastify /\
        intermediaries fastify' = intermediaries fastify /\
        rates fastify' = rates fastify /\
        incomes fastify' = incomes fastify
    | (err e, fastify') =>
        code e = NOT_FOUND /\ fastify' = fastify /\
        findById Expense._id (expenses fastify) expenseId = None
    end.
Proof.
  intros fastify expenseId. unfold Lookup.deleteExpenseById.
  destruct (findById Expense._id (expenses fastify) expenseId) as [doc|] eqn:F.
  - pose proof (findById_id _ _ _ _ F) as Hid. rewrite Hid.
    cbn [expenses apartments intermediaries rates incomes].
    split; [reflexivity|].
    split; [now apply (deleteOne_length _ _ _ doc)|].
    split; [intros id' Hne; now apply deleteOne_other|].
    split; [|repeat split; reflexivity].
    intros ND. unfold Lookup.getExpenseById, Lookup.getById.
    rewrite deleteOne_unique by exact ND.
    eexists. split; reflexivity.
  - cbn [bad code]. auto.
Qed.

Lemma expense_deletion_witness :
  match Lookup.deleteExpenseById billsStore "e1"%string with
  | (ok id, fastify') =>
      exists e,
        Lookup.getExpenseById (Connected (expenses fastify')) "e1"%string
          = err e /\
        code e = NOT_FOUND
  | (err _, _) => False
  end.
Proof.
  pose proof (expense_deletion billsStore "e1"%string) as H.
  destruct (Lookup.deleteExpenseById billsStore "e1"%string)
    as [[id|e] fastify'] eqn:E.
  - destruct H as (_ & _ & _ & N & _). apply N.
    cbn. repeat constructor; cbn; intuition discriminate.
  - vm_compute in E. discriminate E.
Defined.

Lemma own_own {A : Type} (o : option A) old : own o (own o old) = own o old.
Proof. now destruct o. Qed.

Lemma save_save {D : Type} (idOf : D -> ObjectId) doc (docs : list D) :
  save idOf doc (save idOf doc docs) = save idOf doc docs.
Proof.
  unfold save. rewrite map_map. apply map_ext. intros d.
  destruct (String.eqb (idOf d) (idOf doc)) eqn:E.
  - now rewrite String.eqb_refl.
  - now rewrite E.
Qed.

(** X12.  Repeating a successful expense update changes nothing more: the
    same request on the resulting store returns the same document and the
    same store. *)
Theorem expense_update_is_idempotent :
  forall env fastify expenseId data doc fastify',
    ExpenseService.updateExpenseById env fastify expenseId data
      = (ok doc, fastify') ->
    ExpenseService.updateExpenseById env fastify' expenseId data
      = (ok doc, fastify').
Proof.
  intros env fastify expenseId data doc fastify' H.
  unfold ExpenseService.updateExpenseById in *.
  destruct (findById Expense._id (expenses fastify) expenseId) as [old|] eqn:F;
    [|discriminate].
  pose proof (findById_id _ _ _ _ F) as Hid.
  assert (B : forall st, apartments st = apartments fastify ->
                         ExpenseService.buildUpdateData env st data
                         = ExpenseService.buildUpdateData env fastify data).
  { intros st E. unfold ExpenseService.buildUpdateData. now rewrite E. }
  destruct (ExpenseService.buildUpdateData env fastify data) as [ud|e] eqn:U;
    [|discriminate].
  unfold ExpenseSchema.update in H.
  destruct (expenseTotals Binary64 _ _) as [ti tv] eqn:T.
  injection H as <- <-.
  cbn [expenses].
  rewrite (findById_save Expense._id _ expenseId old) by (auto; exact Hid).
  rewrite B by reflexivity.
  unfold ExpenseSchema.update.
  cbn [Expense._id Expense.apartmentId Expense.concept Expense.date
       Expense.providerNif Expense.expense Expense.iva Expense.paid
       apartments intermediaries rates incomes expenses].
  rewrite !own_own. rewrite T.
  replace (match ExpenseSchema.d_providerNif ud with
           | Some v => Some v
           | None =>
               match ExpenseSchema.d_providerNif ud with
               | Some v => Some v
               | None => Expense.providerNif old
               end
           end)
    with (match ExpenseSchema.d_providerNif ud with
          | Some v => Some v
          | None => Expense.providerNif old
          end) by (now destruct (ExpenseSchema.d_providerNif ud)).
  f_equal. f_equal. apply save_save.
Qed.

Lemma expense_update_is_idempotent_witness :
  match ExpenseService.updateExpenseById hostUTC billsStore "e1"%string
          zeroVatUnpaid with
  | (ok doc, fastify') =>
      ExpenseService.updateExpenseById hostUTC fastify' "e1"%string
        zeroVatUnpaid = (ok doc, fastify')
  | (err _, _) => False
  end.
Proof.
  destruct (ExpenseService.updateExpenseById hostUTC billsStore "e1"%string
              zeroVatUnpaid) as [[doc|e] fastify'] eqn:E.
  - exact (expense_update_is_idempotent hostUTC billsStore "e1"%string
             zeroVatUnpaid doc fastify' E).
  - vm_compute in E. discriminate E.
Defined.

(* ------------------------------------------------------------------ *)
(** ** The quarterly dashboard against the unbounded one *)

Lemma filter_all {A : Type} (f : A -> bool) (l : list A) :
  (forall x, In x l -> f x = true) -> filter f l = l.
Proof.
  induction l as [|a l IH]; intros H; cbn [filter]; [reflexivity|].
  rewrite (H a (or_introl eq_refl)). f_equal. apply IH.
  intros x Hx. apply H. now right.
Qed.

Lemma filter_none {A : Type} (f : A -> bool) (l : list A) :
  (forall x, In x l -> f x = false) -> filter f l = [].
Proof.
  induction l as [|a l IH]; intros H; cbn [filter]; [reflexivity|].
  rewrite (H a (or_introl eq_refl)). apply IH.
  intros x Hx. apply H. now right.
Qed.

Lemma matches_inWindow_income env quarter start end_ i :
  getQuarterDates env None quarter =
    {| startOfQuarter := Some start; endOfQuarter := Some end_ |} ->
  matches incomeNumber (incomesQuery (getQuarterDates env None quarter)) i
    = true <-> inWindow start end_ (Income.checkIn i).
Proof.
  intros ->. unfold matches, inWindow.
  cbn [path gte lte incomesQuery incomeNumber String.eqb Ascii.eqb
       Bool.eqb andb startOfQuarter endOfQuarter toNumber].
  apply andb_true_iff.
Qed.

Lemma matches_inWindow_expense env quarter start end_ e :
  getQuarterDates env None quarter =
    {| startOfQuarter := Some start; endOfQuarter := Some end_ |} ->
  matches expenseNumber (expensesQuery (getQuarterDates env None quarter)) e
    = true <-> inWindow start end_ (Expense.date e).
Proof.
  intros ->. unfold matches, inWindow.
  cbn [path gte lte expensesQuery expenseNumber String.eqb Ascii.eqb
       Bool.eqb andb startOfQuarter endOfQuarter toNumber].
  apply andb_true_iff.
Qed.

(** X13.  When every income arrives and every expense is dated within the
    window of the requested quarter, the quarterly dashboard is the
    unbounded dashboard; when none is, it is the dashboard of two empty
    collections. *)
Theorem quarterly_dashboard_against_unbounded :
  forall env incomes expenses quarter start end_,
    getQuarterDates env None quarter =
      {| startOfQuarter := Some start; endOfQuarter := Some end_ |} ->
    ((forall i, In i incomes -> inWindow start end_ (Income.checkIn i)) ->
     (forall e, In e expenses -> inWindow start end_ (Expense.date e)) ->
     getDashboardByQuarterData env (Connected incomes) (Connected expenses)
       quarter
     = getDashboardData env (Connected incomes) (Connected expenses)) /\
    ((forall i, In i incomes -> ~ inWindow start end_ (Income.checkIn i)) ->
     (forall e, In e expenses -> ~ inWindow start end_ (Expense.date e)) ->
     getDashboardByQuarterData env (Connected incomes) (Connected expenses)
       quarter
     = getDashboardData env (Connected []) (Connected [])).
Proof.
  intros env incomes expenses quarter start end_ HQ.
  unfold getDashboardByQuarterData, getDashboardData.
  cbn [find bindExc ret].
  split; intros Hi He.
  - rewrite (filter_all _ incomes), (filter_all _ expenses); [reflexivity| |].
    + intros e Hin. apply (matches_inWindow_expense env quarter start end_ e HQ).
      now apply He.
    + intros i Hin. apply (matches_inWindow_income env quarter start end_ i HQ).
      now apply Hi.
  - rewrite (filter_none _ incomes), (filter_none _ expenses); [reflexivity| |].
    + intros e Hin. apply not_true_is_false. intros M. apply (He e Hin).
      now apply (matches_inWindow_expense env quarter start end_ e HQ).
    + intros i Hin. apply not_true_is_false. intros M. apply (Hi i Hin).
      now apply (matches_inWindow_income env quarter start end_ i HQ).
Qed.

Lemma quarterly_dashboard_against_unbounded_witness :
  getDashboardByQuarterData hostUTC
    (Connected [stay "i1" 1704067200 1704153600])
    (Connected [bill "e1" 1711929599]) 1
  = getDashboardData hostUTC
      (Connected [stay "i1" 1704067200 1704153600])
      (Connected [bill "e1" 1711929599]).
Proof.
  apply (proj1 (quarterly_dashboard_against_unbounded hostUTC
                  [stay "i1" 1704067200 1704153600]
                  [bill "e1" 1711929599] 1
                  1704067200000 1711929599000 eq_refl)).
  - intros i [<-|[]]. split; vm_compute; reflexivity.
  - intros e [<-|[]]. split; vm_compute; reflexivity.
Defined.

(* ------------------------------------------------------------------ *)
(** ** Pagination *)

Lemma ceilDiv_spec count L :
  1 <= L -> 0 <= count ->
  forall p, p <= Endpoints.ceilDiv count L <-> (p - 1) * L < count.
Proof.
  intros HL Hc p. unfold Endpoints.ceilDiv.
  pose proof (Z.div_mod (- count) L ltac:(lia)) as E.
  pose proof (Z.mod_pos_bound (- count) L ltac:(lia)) as B.
  split; intros H; nia.
Qed.

Lemma slice_length {A : Type} (l : list A) (p L : Z) :
  1 <= L -> 1 <= p -> (p - 1) * L < Z.of_nat (List.length l) ->
  Z.of_nat (List.length (firstn (Z.to_nat L)
                                (skipn (Z.to_nat ((p - 1) * L)) l)))
  = Z.min L (Z.of_nat (List.length l) - (p - 1) * L).
Proof.
  intros HL Hp Hlt. rewrite length_firstn, length_skipn. nia.
Qed.

Lemma paginate_sort_key (pagination : Endpoints.Pagination) :
  (if truthyS (Endpoints.sortBy pagination)
   then match Endpoints.sortBy pagination with
        | Some k => k
        | None => "updatedAt"
        end
   else "updatedAt")%string = sortKeyOf pagination.
Proof.
  unfold sortKeyOf, keepS.
  now destruct (truthyS (Endpoints.sortBy pagination)).
Qed.

Lemma paginate_sort_direction (pagination : Endpoints.Pagination) :
  (if truthyS (Endpoints.sortOrder pagination)
   then match Endpoints.sortOrder pagination with
        | Some o => o
        | None => "asc"
        end
   else "asc")%string = sortDirectionOf pagination.
Proof.
  unfold sortDirectionOf, keepS.
  now destruct (truthyS (Endpoints.sortOrder pagination)).
Qed.

(** What [paginate] answers to a request for page [p] of size [l]. *)
Lemma paginate_cases {D F : Type} (paginationLimit : Z)
  (matching : F -> list D) (sort : string -> string -> list D -> list D)
  (query : F) (pagination : Endpoints.Pagination) (p l : Z) :
  Endpoints.page pagination = Some p ->
  Endpoints.limit pagination = Some l ->
  1 <= paginationLimit -> 1 <= p -> 1 <= l ->
  (forall sortBy sortOrder docs,
      List.length (sort sortBy sortOrder docs) = List.length docs) ->
  let count := Z.of_nat (List.length (matching query)) in
  let size := Z.min l paginationLimit in
  let total := Endpoints.ceilDiv count size in
  match Endpoints.paginate paginationLimit matching sort query pagination with
  | ok pg =>
      p <= total /\
      Endpoints.results pg =
        firstn (Z.to_nat size)
               (skipn (Z.to_nat ((p - 1) * size))
                      (sort (sortKeyOf pagination) (sortDirectionOf pagination)
                            (matching query))) /\
      1 <= Z.of_nat (List.length (Endpoints.results pg)) <= size /\
      Endpoints.begin (Endpoints.items pg) = (p - 1) * size + 1 /\
      Endpoints.end_ (Endpoints.items pg) =
        Endpoints.begin (Endpoints.items pg)
        + Z.of_nat (List.length (Endpoints.results pg)) - 1 /\
      Endpoints.totalItems (Endpoints.items pg) = count /\
      Endpoints.totalPages (Endpoints.pages pg) = total /\
      (Endpoints.has_next (Endpoints.pages pg) = true <->
       Endpoints.end_ (Endpoints.items pg) < count) /\
      (Endpoints.has_prev (Endpoints.pages pg) = true <-> 1 < p)
  | err e =>
      message e <> EmptyString /\
      ((count = 0 /\ code e = NOT_FOUND) \/
       (0 < count /\ total < p /\ code e = BAD_REQUEST))
  end.
Proof.
  intros Epage Elimit HPL Hp Hl Hsort count size total.
  unfold Endpoints.paginate.
  rewrite paginate_sort_key, paginate_sort_direction, Epage, Elimit.
  replace (p =? 0) with false by (symmetry; apply Z.eqb_neq; lia).
  replace (l =? 0) with false by (symmetry; apply Z.eqb_neq; lia).
  fold count. fold size. fold total.
  assert (Hsize : 1 <= size) by (subst size; lia).
  destruct (Z.eqb_spec count 0) as [E0|N0].
  { cbn [bad code message]. split; [discriminate|]. left. auto. }
  assert (Hc : 0 < count) by (subst count; lia).
  destruct (Z.ltb_spec total p) as [Hlt|Hle].
  { cbn [bad code message]. split; [discriminate|]. right. auto. }
  pose proof (proj1 (ceilDiv_spec count size Hsize ltac:(lia) p) Hle) as Hin.
  set (sorted := sort (sortKeyOf pagination) (sortDirectionOf pagination)
                      (matching query)).
  assert (Hlen : Z.of_nat (List.length sorted) = count)
    by (subst sorted count; now rewrite Hsort).
  pose proof (slice_length sorted p size Hsize Hp ltac:(lia)) as SL.
  rewrite Hlen in SL.
  destruct (firstn (Z.to_nat size) (skipn (Z.to_nat ((p - 1) * size)) sorted))
    as [|d rest] eqn:R.
  { cbn [List.length] in SL. lia. }
  cbn [Endpoints.results Endpoints.items Endpoints.pages Endpoints.begin
       Endpoints.end_ Endpoints.totalItems Endpoints.totalPages
       Endpoints.has_next Endpoints.has_prev].
  split; [exact Hle|]. split; [reflexivity|]. split; [lia|].
  split; [reflexivity|]. split; [lia|]. split; [reflexivity|].
  split; [reflexivity|]. split.
  - rewrite Z.ltb_lt.
    pose proof (ceilDiv_spec count size Hsize ltac:(lia) (p + 1)) as C.
    replace (p + 1 - 1) with p in C by lia. fold total in C. lia.
  - now rewrite Z.ltb_lt.
Qed.

(** X14.  Asked for page [p >= 1] of size [l >= 1] of a collection that
    answers the count and the find alike and whose sort keeps the number
    of documents, [paginate] answers "not found" exactly when the query
    matches nothing and "bad request" exactly when it matches something
    and [p] is beyond the last page; otherwise it answers the documents
    [(p-1)*size+1 .. min(p*size, count)] of the sorted matches, [size]
    being [min(l, paginationLimit)]: at least one and at most [size]
    documents, as many as [begin .. end] announces, with [has_next]
    exactly when documents remain after [end].  The second "not found"
    answer of the code is never given. *)
Theorem paginate_answers_a_slice :
  forall (D F : Type) (paginationLimit : Z) (matching : F -> list D)
         (sort : string -> string -> list D -> list D) (query : F)
         (pagination : Endpoints.Pagination) (p l : Z),
    Endpoints.page pagination = Some p ->
    Endpoints.limit pagination = Some l ->
    1 <= paginationLimit -> 1 <= p -> 1 <= l ->
    (forall sortBy sortOrder docs,
        List.length (sort sortBy sortOrder docs) = List.length docs) ->
    let count := Z.of_nat (List.length (matching query)) in
    let size := Z.min l paginationLimit in
    let total := Endpoints.ceilDiv count size in
    match Endpoints.paginate paginationLimit matching sort query pagination
    with
    | ok pg =>
        p <= total /\
        Endpoints.results pg =
          firstn (Z.to_nat size)
                 (skipn (Z.to_nat ((p - 1) * size))
                        (sort (sortKeyOf pagination)
                              (sortDirectionOf pagination)
                              (matching query))) /\
        1 <= Z.of_nat (List.length (Endpoints.results pg)) <= size /\
        Endpoints.begin (Endpoints.items pg) = (p - 1) * size + 1 /\
        Endpoints.end_ (Endpoints.items pg) =
          Endpoints.begin (Endpoints.items pg)
          + Z.of_nat (List.length (Endpoints.results pg)) - 1 /\
        Endpoints.totalItems (Endpoints.items pg) = count /\
        Endpoints.totalPages (Endpoints.pages pg) = total /\
        (Endpoints.has_next (Endpoints.pages pg) = true <->
         Endpoints.end_ (Endpoints.items pg) < count) /\
        (Endpoints.has_prev (Endpoints.pages pg) = true <-> 1 < p)
    | err e =>
        (count = 0 /\ code e = NOT_FOUND) \/
        (0 < count /\ total < p /\ code e = BAD_REQUEST)
    end.
Proof.
  intros D F PL matching sort query pagination p l Epage Elimit HPL Hp Hl Hsort.
  pose proof (paginate_cases PL matching sort query pagination p l
                Epage Elimit HPL Hp Hl Hsort) as C.
  cbv zeta in *.
  destruct (Endpoints.paginate PL matching sort query pagination) as [pg|e].
  - exact C.
  - exact (proj2 C).
Qed.

Lemma paginate_answers_a_slice_witness :
  match Endpoints.paginate 10 (fun _ : unit => [1; 2; 3; 4; 5]%Z)
          (fun _ _ docs => docs) tt (pageOf 2 2) with
  | ok pg => Endpoints.results pg = [3; 4]%Z
  | err _ => False
  end.
Proof.
  pose proof (paginate_answers_a_slice Z unit 10
                (fun _ : unit => [1; 2; 3; 4; 5]%Z) (fun _ _ docs => docs) tt
                (pageOf 2 2) 2 2 eq_refl eq_refl
                ltac:(lia) ltac:(lia) ltac:(lia)
                (fun _ _ _ => eq_refl)) as H.
  cbv zeta in H.
  destruct (Endpoints.paginate 10 _ _ tt (pageOf 2 2)) as [pg|e] eqn:E.
  - destruct H as (_ & -> & _). reflexivity.
  - vm_compute in E. discriminate E.
Defined.

Lemma concat_chunks {A : Type} (size : nat) (n : nat) :
  forall l : list A,
    (List.length l <= n * size)%nat ->
    List.concat (map (fun k => firstn size (skipn (k * size) l)) (seq 0 n))
    = l.
Proof.
  induction n as [|n IH]; intros l Hlen.
  - cbn in *. destruct l; [reflexivity|cbn in Hlen; lia].
  - cbn [seq map List.concat]. rewrite <- seq_shift, map_map.
    cbn [Nat.mul skipn].
    rewrite (map_ext _ (fun k => firstn size (skipn (k * size) (skipn size l)))).
    + rewrite IH by (rewrite length_skipn; lia).
      apply firstn_skipn.
    + intros k. rewrite skipn_skipn. f_equal. f_equal. lia.
Qed.

(** X15.  The pages partition the matches: the documents answered for the
    pages 1 to the last at a given size and sort, one after the other, are
    the sorted matches, each exactly once and in order. *)
Theorem pages_partition_the_matches :
  forall (D F : Type) (paginationLimit : Z) (matching : F -> list D)
         (sort : string -> string -> list D -> list D) (query : F)
         (l : Z) (sortBy sortOrder : option string),
    1 <= paginationLimit -> 1 <= l ->
    (forall sortBy sortOrder docs,
        List.length (sort sortBy sortOrder docs) = List.length docs) ->
    let pageNumber p :=
      {| Endpoints.page := Some p;
         Endpoints.limit := Some l;
         Endpoints.sortBy := sortBy;
         Endpoints.sortOrder := sortOrder |} in
    let count := Z.of_nat (List.length (matching query)) in
    let total := Endpoints.ceilDiv count (Z.min l paginationLimit) in
    List.concat
      (map (fun p =>
              resultsOf (Endpoints.paginate paginationLimit matching sort query
                           (pageNumber (Z.of_nat p))))
           (seq 1 (Z.to_nat total)))
    = sort (sortKeyOf (pageNumber 1)) (sortDirectionOf (pageNumber 1))
           (matching query).
Proof.
  intros D F PL matching sort query l sb so HPL Hl Hsort pageNumber count total.
  set (size := Z.min l PL) in *.
  assert (Hsize : 1 <= size) by (subst size; lia).
  assert (Hc : 0 <= count) by (subst count; lia).
  set (sorted := sort (sortKeyOf (pageNumber 1))
                      (sortDirectionOf (pageNumber 1)) (matching query)).
  assert (Hlen : Z.of_nat (List.length sorted) = count)
    by (subst sorted count; now rewrite Hsort).
  assert (Htot : 0 <= total /\ count <= total * size).
  { pose proof (ceilDiv_spec count size Hsize Hc) as C. fold total in C.
    split.
    - apply Z.lt_succ_r. apply Z.nle_gt. intros H.
      assert (total + 1 <= total) as X by (apply C; nia). lia.
    - destruct (Z.le_gt_cases count (total * size)) as [|G]; [assumption|].
      assert (total + 1 <= total) as X
        by (apply C; replace (total + 1 - 1) with total by lia; lia).
      lia. }
  rewrite <- seq_shift, map_map.
  rewrite (map_ext_in _ (fun k => firstn (Z.to_nat size)
                                         (skipn (k * Z.to_nat size) sorted))).
  - apply concat_chunks. nia.
  - intros k Hk. apply in_seq in Hk.
    pose proof (paginate_cases PL matching sort query
                  (pageNumber (Z.of_nat (S k))) (Z.of_nat (S k)) l
                  eq_refl eq_refl HPL ltac:(lia) Hl Hsort) as P.
    cbv zeta in P. fold count in P. fold size in P. fold total in P.
    destruct (Endpoints.paginate PL matching sort query
                (pageNumber (Z.of_nat (S k)))) as [pg|e].
    + cbn [resultsOf]. destruct P as (_ & -> & _).
      change (sort (sortKeyOf (pageNumber (Z.of_nat (S k))))
                   (sortDirectionOf (pageNumber (Z.of_nat (S k))))
                   (matching query)) with sorted.
      f_equal. f_equal.
      replace (Z.of_nat (S k) - 1) with (Z.of_nat k) by lia.
      rewrite Z2Nat.inj_mul by lia. now rewrite Nat2Z.id.
    + exfalso. destruct P as (_ & [(E0 & _)|(_ & Hgt & _)]); [|lia].
      pose proof (proj1 (ceilDiv_spec count size Hsize Hc 1)) as C.
      fold total in C. lia.
Qed.

Lemma pages_partition_the_matches_witness :
  List.concat
    (map (fun p =>
            resultsOf (Endpoints.paginate 10 (fun _ : unit => [1; 2; 3; 4; 5]%Z)
                         (fun _ _ docs => docs) tt (pageOf (Z.of_nat p) 2)))
         (seq 1 3))
  = [1; 2; 3; 4; 5]%Z.
Proof.
  apply (pages_partition_the_matches Z unit 10
           (fun _ : unit => [1; 2; 3; 4; 5]%Z) (fun _ _ docs => docs) tt 2
           None None).
  - lia.
  - lia.
  - reflexivity.
Defined.

(* ------------------------------------------------------------------ *)
(** ** The answers of the two listings *)

Lemma checkRange_err env start end_ e :
  Listing.checkRange env start end_ = err e ->
  e = {| code := INTERNAL_SERVER_ERROR; message := Listing.undefinedCode |}.
Proof.
  unfold Listing.checkRange. intros H.
  destruct start as [s|], end_ as [e'|]; try discriminate H.
  destruct (truthyN (Some s) && truthyN (Some e')); [|discriminate H].
  destruct (isAfter _ _); [now inversion H|].
  destruct (isAfter _ _); [now inversion H|discriminate H].
Qed.

(** The status a page request is answered with. *)
Lemma paginate_reply_status {D F : Type} (paginationLimit : Z)
  (matching : F -> list D) (sort : string -> string -> list D -> list D)
  (query : F) (pagination : Endpoints.Pagination) (p l : Z) :
  Endpoints.page pagination = Some p ->
  Endpoints.limit pagination = Some l ->
  1 <= paginationLimit -> 1 <= p -> 1 <= l ->
  (forall sortBy sortOrder docs,
      List.length (sort sortBy sortOrder docs) = List.length docs) ->
  Endpoints.status
    (Endpoints.handleEndpointResponse
       (Endpoints.paginate paginationLimit matching sort query pagination)
       None)
  = let count := Z.of_nat (List.length (matching query)) in
    if count =? 0 then 404
    else if Endpoints.ceilDiv count (Z.min l paginationLimit) <? p then 400
    else 200.
Proof.
  intros Epage Elimit HPL Hp Hl Hsort.
  pose proof (paginate_cases paginationLimit matching sort query pagination
                p l Epage Elimit HPL Hp Hl Hsort) as C.
  cbv zeta in *.
  set (count := Z.of_nat (List.length (matching query))) in *.
  set (size := Z.min l paginationLimit) in *.
  assert (Hsize : 1 <= size) by (subst size; lia).
  assert (Hc : 0 <= count) by (subst count; lia).
  destruct (Endpoints.paginate paginationLimit matching sort query pagination)
    as [pg|e].
  - destruct C as (Hle & _).
    pose proof (proj1 (ceilDiv_spec count size Hsize Hc p) Hle) as Hin.
    replace (count =? 0) with false by (symmetry; apply Z.eqb_neq; nia).
    replace (Endpoints.ceilDiv count size <? p) with false
      by (symmetry; apply Z.ltb_ge; exact Hle).
    reflexivity.
  - destruct C as (Hmsg & C). unfold Endpoints.handleEndpointResponse.
    apply String.eqb_neq in Hmsg. rewrite Hmsg. cbn [negb Endpoints.status].
    destruct C as [(E0 & ->)|(Hpos & Hgt & ->)].
    + rewrite E0. reflexivity.
    + replace (count =? 0) with false by (symmetry; apply Z.eqb_neq; lia).
      replace (Endpoints.ceilDiv count size <? p) with true
        by (symmetry; apply Z.ltb_lt; exact Hgt).
      reflexivity.
Qed.

(** X16.  The status of the answer to [GET /expenses], page [p >= 1] of
    size [l >= 1]: 500 whenever a concept is given, whatever else is asked;
    500, not the 400 the service spells, when the date range is rejected;
    otherwise 404 when no expense matches the filters, 400 when [p] is
    beyond the last page and 200 in every other case. *)
Theorem expense_listing_status :
  forall (paginationLimit : Z)
         (matching : list Expense.t -> Listing.ExpenseFilters -> list Expense.t)
         (sort : string -> string -> list Expense.t -> list Expense.t)
         (env : Env) (fastify : Store) (pagination : Endpoints.Pagination)
         (p l : Z) (concept apartmentId : option string)
         (startDate endDate : option Number) (providerNif : option string)
         (paid : option bool),
    Endpoints.page pagination = Some p ->
    Endpoints.limit pagination = Some l ->
    1 <= paginationLimit -> 1 <= p -> 1 <= l ->
    (forall sortBy sortOrder docs,
        List.length (sort sortBy sortOrder docs) = List.length docs) ->
    Endpoints.status
      (Endpoints.handleEndpointResponse
         (Listing.getExpenses paginationLimit matching sort env fastify
            pagination concept apartmentId startDate endDate providerNif paid)
         None)
    = if truthyS concept then 500
      else
        match Listing.checkRange env startDate endDate with
        | err _ => 500
        | ok date =>
            let count :=
              Z.of_nat
                (List.length
                   (matching (expenses fastify)
                      {| Listing.f_apartmentId := keepS apartmentId;
                         Listing.f_date := date;
                         Listing.f_providerNif := keepS providerNif;
                         Listing.f_paid := keepB paid |})) in
            if count =? 0 then 404
            else if Endpoints.ceilDiv count (Z.min l paginationLimit) <? p
            then 400
            else 200
        end.
Proof.
  intros PL matching sort env fastify pagination p l concept apartmentId
         startDate endDate providerNif paid Epage Elimit HPL Hp Hl Hsort.
  unfold Listing.getExpenses.
  destruct (truthyS concept); [reflexivity|].
  destruct (Listing.checkRange env startDate endDate) as [date|e] eqn:R.
  - cbn [bindRes].
    apply (paginate_reply_status PL (matching (expenses fastify)) sort _
             pagination p l Epage Elimit HPL Hp Hl Hsort).
  - apply checkRange_err in R. subst e. reflexivity.
Qed.

Lemma expense_listing_status_witness :
  Endpoints.status
    (Endpoints.handleEndpointResponse
       (Listing.getExpenses 10 (fun docs _ => docs) (fun _ _ docs => docs)
          hostUTC billsStore (pageOf 1 10) None None
          (Some 1718100000000%float) (Some 1718000000000%float) None None)
       None)
  = 500.
Proof.
  exact (expense_listing_status 10 (fun docs _ => docs) (fun _ _ docs => docs)
           hostUTC billsStore (pageOf 1 10) 1 10 None None
           (Some 1718100000000%float) (Some 1718000000000%float) None None
           eq_refl eq_refl ltac:(lia) ltac:(lia) ltac:(lia)
           (fun _ _ _ => eq_refl)).
Defined.

(** X17.  The status of the answer to [GET /incomes], page [p >= 1] of
    size [l >= 1]: 500, not the 400 the service spells, when the range of
    arrivals or the range of departures is rejected; otherwise 404 when no
    income matches the filters, 400 when [p] is beyond the last page and
    200 in every other case. *)
Theorem income_listing_status :
  forall (paginationLimit : Z)
         (matching : list Income.t -> Listing.IncomeFilters -> list Income.t)
         (sort : string -> string -> list Income.t -> list Income.t)
         (env : Env) (fastify : Store) (pagination : Endpoints.Pagination)
         (p l : Z) (apartmentId intermediaryId rateId : option string)
         (startCheckIn endCheckIn startCheckOut endCheckOut nights
            : option Number)
         (clientName clientNif clientPhone : option string)
         (numberOfPeople : option Number),
    Endpoints.page pagination = Some p ->
    Endpoints.limit pagination = Some l ->
    1 <= paginationLimit -> 1 <= p -> 1 <= l ->
    (forall sortBy sortOrder docs,
        List.length (sort sortBy sortOrder docs) = List.length docs) ->
    Endpoints.status
      (Endpoints.handleEndpointResponse
         (Listing.getIncomes paginationLimit matching sort env fastify
            pagination apartmentId intermediaryId rateId startCheckIn
            endCheckIn startCheckOut endCheckOut nights clientName clientNif
            clientPhone numberOfPeople)
         None)
    = match Listing.checkRange env startCheckIn endCheckIn,
            Listing.checkRange env startCheckOut endCheckOut with
      | ok checkIn, ok checkOut =>
          let count :=
            Z.of_nat
              (List.length
                 (matching (incomes fastify)
                    {| Listing.i_apartmentId := keepS apartmentId;
                       Listing.i_intermediaryId := keepS intermediaryId;
                       Listing.i_rateId := keepS rateId;
                       Listing.i_checkIn := checkIn;
                       Listing.i_checkOut := checkOut;
                       Listing.i_nights := keepN nights;
                       Listing.i_clientName := keepS clientName;
                       Listing.i_clientNif := keepS clientNif;
                       Listing.i_clientPhone := keepS clientPhone;
                       Listing.i_numberOfPeople := keepN numberOfPeople |})) in
          if count =? 0 then 404
          else if Endpoints.ceilDiv count (Z.min l paginationLimit) <? p
          then 400
          else 200
      | _, _ => 500
      end.
Proof.
  intros PL matching sort env fastify pagination p l apartmentId
         intermediaryId rateId startCheckIn endCheckIn startCheckOut
         endCheckOut nights clientName clientNif clientPhone numberOfPeople
         Epage Elimit HPL Hp Hl Hsort.
  unfold Listing.getIncomes.
  destruct (Listing.checkRange env startCheckIn endCheckIn)
    as [checkIn|e] eqn:R.
  - cbn [bindRes].
    destruct (Listing.checkRange env startCheckOut endCheckOut)
      as [checkOut|e] eqn:R'.
    + cbn [bindRes].
      apply (paginate_reply_status PL (matching (incomes fastify)) sort _
               pagination p l Epage Elimit HPL Hp Hl Hsort).
    + apply checkRange_err in R'. subst e. reflexivity.
  - apply checkRange_err in R. subst e. reflexivity.
Qed.

Lemma income_listing_status_witness :
  Endpoints.status
    (Endpoints.handleEndpointResponse
       (Listing.getIncomes 10 (fun docs _ => docs) (fun _ _ docs => docs)
          hostUTC bookedStore (pageOf 2 10) None None None
          None None None None None None None None None)
       None)
  = 400.
Proof.
  exact (income_listing_status 10 (fun docs _ => docs) (fun _ _ docs => docs)
           hostUTC bookedStore (pageOf 2 10) 2 10 None None None
           None None None None None None None None None
           eq_refl eq_refl ltac:(lia) ltac:(lia) ltac:(lia)
           (fun _ _ _ => eq_refl)).
Defined.

(* ------------------------------------------------------------------ *)
(** ** The date checks of the services, in instants *)

Lemma later_day_iff (off a b : Z) :
  ((Day (b + off) + 1) * msPerDay - off - 1 <? Day (a + off) * msPerDay - off)
  = (Day (b + off) <? Day (a + off)).
Proof.
  unfold Day, msPerDay.
  destruct (Z.ltb_spec ((b + off) / 86400000) ((a + off) / 86400000));
    [apply Z.ltb_lt|apply Z.ltb_ge]; lia.
Qed.

(** X18.  On a host with a fixed offset, the stay check of the income
    service rejects a stay exactly when the local day of the check-in is
    after the local day of the check-out, both Numbers being read as
    milliseconds: a check-in not after the check-out is never rejected,
    and a check-in after the check-out is certainly rejected only from
    86 400 000 units of difference on. *)
Theorem stay_check_compares_local_days :
  forall env minutes a b,
    zone env = fixedZone minutes ->
    IncomeService.startsAfterEnd env (Some a) (Some b)
    = (Day (b + minutes * msPerMinute) <? Day (a + minutes * msPerMinute)) /\
    (a <= b -> IncomeService.startsAfterEnd env (Some a) (Some b) = false) /\
    (b + msPerDay <= a ->
     IncomeService.startsAfterEnd env (Some a) (Some b) = true).
Proof.
  intros env minutes a b Hz.
  assert (E : IncomeService.startsAfterEnd env (Some a) (Some b)
              = (Day (b + minutes * msPerMinute)
                 <? Day (a + minutes * msPerMinute))).
  { unfold IncomeService.startsAfterEnd. rewrite Hz.
    cbn [startOfDay endOfDay option_map isAfter]. unfold wall.
    cbn [fixedZone utcOffset fromLocal].
    apply (later_day_iff (minutes * msPerMinute) a b). }
  split; [exact E|]. rewrite E. split; intros H.
  - apply Z.ltb_ge. unfold Day. apply Z.div_le_mono; [unfold msPerDay|]; lia.
  - apply Z.ltb_lt. unfold Day, msPerDay in *. zdiv.
Qed.

Lemma stay_check_compares_local_days_witness :
  IncomeService.startsAfterEnd hostUTC (Some 1719356014) (Some 1718920414)
  = false.
Proof.
  rewrite (proj1 (stay_check_compares_local_days hostUTC 0
                    1719356014 1718920414 eq_refl)).
  reflexivity.
Defined.

(** X19.  On a host with a fixed offset, the date check of the expense
    service rejects a date exactly when its local day, the Number being
    read as milliseconds, is after the local day of the host's clock: no
    date up to the clock's own reading is rejected.  A Number that is no
    valid instant is not rejected either. *)
Theorem expense_date_check_compares_local_days :
  forall env minutes d,
    zone env = fixedZone minutes ->
    match moment (ofNumber d) with
    | Some t =>
        ExpenseService.afterToday env d
        = (Day (now env + minutes * msPerMinute)
           <? Day (t + minutes * msPerMinute)) /\
        (t <= now env -> ExpenseService.afterToday env d = false)
    | None => ExpenseService.afterToday env d = false
    end.
Proof.
  intros env minutes d Hz. unfold ExpenseService.afterToday. rewrite Hz.
  destruct (moment (ofNumber d)) as [t|]; [|reflexivity].
  cbn [endOfDay option_map isAfter]. unfold wall.
  cbn [fixedZone utcOffset fromLocal].
  assert (E : ((Day (now env + minutes * msPerMinute) + 1) * msPerDay
               - minutes * msPerMinute - 1 <? t)
              = (Day (now env + minutes * msPerMinute)
                 <? Day (t + minutes * msPerMinute))).
  { unfold Day, msPerDay.
    destruct (Z.ltb_spec ((now env + minutes * msPerMinute) / 86400000)
                         ((t + minutes * msPerMinute) / 86400000));
      [apply Z.ltb_lt|apply Z.ltb_ge]; zdiv. }
  split; [exact E|]. rewrite E. intros H.
  apply Z.ltb_ge. unfold Day. apply Z.div_le_mono; [unfold msPerDay|]; lia.
Qed.

Lemma expense_date_check_compares_local_days_witness :
  ExpenseService.afterToday hostUTC 4102444800%float = false.
Proof.
  pose proof (expense_date_check_compares_local_days hostUTC 0
                4102444800%float eq_refl) as H.
  change (moment (ofNumber 4102444800%float)) with (Some 4102444800) in H.
  apply (proj2 H). vm_compute. discriminate.
Defined.
